(** * KubeSage: the kubeconfig and k8sgpt services

    A shallow embedding of the command executor, the credential store
    ([kubeconfig_service/app/routes.py], [tasks.py]) and the analysis
    result and backend registry ([k8sgpt_service/app/services.py],
    [routes.py]), with the properties of their specification.

    Conventions.  Python [int] is [Z], [str] is [string], [Optional[T]]
    is [option T], a [datetime] is a [Z] time stamp; a text is the bytes of
    its UTF-8 encoding.  A table is the list
    of its rows in insertion order; [.first()] is the first match of that
    list.  Whatever the outside world decides (the external program, the
    generated UUID, the clock) is an explicit argument. *)

From Stdlib Require Import ZArith DecimalString DecimalPos DecimalZ Ascii String List.
From Stdlib Require Import Sorting.Sorted Sorting.Permutation.
From stdpp Require Import gmap strings list fin_maps.
Import ListNotations.

Local Open Scope Z_scope.
Local Open Scope string_scope.

Set Warnings "-register-all".

(** ** Python values and exceptions *)

(** A JSON document, as [json.loads] builds it: [None], [bool], [int],
    [float] (the binary fraction [m * 2^e]), [str], [list] and [dict] with
    its keys in order. *)
Inductive json : Type :=
| JNull
| JBool (b : bool)
| JInt (n : Z)
| JFloat (m e : Z)
| JStr (s : string)
| JList (l : list json)
| JDict (d : list (string * json)).

(** The text of a document.  Serialisation is not looked into:
    [json.loads(json.dumps(v))] is [v] for every document [v]. *)
Inductive json_text : Type :=
| Dumped (v : json).

Definition json_dumps (v : json) : json_text := Dumped v.
Definition json_loads (t : json_text) : json := match t with Dumped v => v end.

(** The values of the dictionaries the services hand around: documents,
    and the [datetime] of a row. *)
Inductive pyval : Type :=
| Doc (j : json)
| Datetime (t : Z).

Definition pydict := list (string * pyval).

(** Exceptions.  [HTTPException] is FastAPI's; of every other exception
    the class name and the message are kept. *)
Inductive exn : Type :=
| HTTPException (status_code : Z) (detail : string)
| PyError (cls : string) (msg : string).

(** [str(e)]: Starlette prints an [HTTPException] as "status: detail". *)
Definition str_of_Z (n : Z) : string := NilZero.string_of_int (Z.to_int n).

Definition str_exn (e : exn) : string :=
  match e with
  | HTTPException c d => str_of_Z c ++ ": " ++ d
  | PyError _ m => m
  end.

Definition status_of (e : exn) : Z :=
  match e with
  | HTTPException c _ => c
  | PyError _ _ => 500
  end.

Definition is_http (e : exn) : bool :=
  match e with HTTPException _ _ => true | PyError _ _ => false end.

(** The result of a call that may raise. *)
Inductive res (A : Type) : Type :=
| Ok (a : A)
| Raise (e : exn).
Arguments Ok {A} a.
Arguments Raise {A} e.

#[global] Instance res_ret : MRet res := fun A a => Ok a.

#[global] Instance res_bind : MBind res := fun A B k r =>
  match r with
  | Ok a => k a
  | Raise e => Raise e
  end.

(** Dictionary access: [d[k]] raises [KeyError], [d.get(k, dflt)] does not;
    on a value that is no dictionary [.get] raises. *)
Fixpoint assoc {V : Type} (k : string) (d : list (string * V)) : option V :=
  match d with
  | [] => None
  | (k', v) :: d' => if String.eqb k' k then Some v else assoc k d'
  end.

Definition getitem (d : pydict) (k : string) : res pyval :=
  match assoc k d with
  | Some x => Ok x
  | None => Raise (PyError "KeyError" ("'" ++ k ++ "'"))
  end.

Definition dict_get (v : json) (k : string) (dflt : json) : res json :=
  match v with
  | JDict d => Ok (match assoc k d with Some x => x | None => dflt end)
  | _ => Raise (PyError "AttributeError" "object has no attribute 'get'")
  end.

(** Truth value of an optional text, as [if x:] takes it. *)
Definition truthy_str (o : option string) : bool :=
  match o with
  | Some s => negb (String.eqb s "")
  | None => false
  end.

(** ** The command executor *)

Module Exec.

(** *** [shlex.split]

    [execute_command] turns its command string into an argument vector
    with [shlex.split(command)]: POSIX mode, [whitespace_split] on, no
    comment characters.  The lexer is the state machine of
    [shlex.read_token]; [St_esc in_dq] is the state after a backslash,
    [in_dq] telling whether it was met inside double quotes
    ([escapedstate]). *)

Inductive lstate : Type :=
| St_ws
| St_word
| St_quote (q : ascii)
| St_esc (in_dq : bool).

Definition is_whitespace (c : ascii) : bool :=
  (Ascii.eqb c " " || Ascii.eqb c "009" || Ascii.eqb c "013" || Ascii.eqb c "010")%bool.

(** The double quote, character 34. *)
Definition dquote : ascii := "034".

Definition is_quote (c : ascii) : bool :=
  (Ascii.eqb c "'" || Ascii.eqb c dquote)%bool.

Definition is_escape (c : ascii) : bool := Ascii.eqb c "\".

Definition push (tok : string) (c : ascii) : string := tok ++ String c "".

(** [lex cs st tok quoted acc]: the tokens read from [cs], after [acc]
    (most recent first); an unclosed quote or a trailing backslash raises
    [ValueError]. *)
Fixpoint lex (cs : string) (st : lstate) (tok : string) (quoted : bool)
    (acc : list string) : res (list string) :=
  match cs with
  | EmptyString =>
      match st with
      | St_ws => Ok (rev acc)
      | St_word =>
          if (negb (String.eqb tok "") || quoted)%bool
          then Ok (rev (tok :: acc)) else Ok (rev acc)
      | St_quote _ => Raise (PyError "ValueError" "No closing quotation")
      | St_esc _ => Raise (PyError "ValueError" "No escaped character")
      end
  | String c cs' =>
      match st with
      | St_ws =>
          if is_whitespace c then
            if (negb (String.eqb tok "") || quoted)%bool
            then lex cs' St_ws "" false (tok :: acc)
            else lex cs' St_ws tok quoted acc
          else if is_escape c then lex cs' (St_esc false) tok quoted acc
          else if is_quote c then lex cs' (St_quote c) tok quoted acc
          else lex cs' St_word (String c "") quoted acc
      | St_quote q =>
          if Ascii.eqb c q then lex cs' St_word tok true acc
          else if (is_escape c && Ascii.eqb q dquote)%bool
          then lex cs' (St_esc true) tok true acc
          else lex cs' (St_quote q) (push tok c) true acc
      | St_esc in_dq =>
          let tok1 :=
            if (in_dq && negb (is_escape c) && negb (Ascii.eqb c dquote))%bool
            then push tok "\" else tok in
          lex cs' (if in_dq then St_quote dquote else St_word) (push tok1 c) quoted acc
      | St_word =>
          if is_whitespace c then
            if (negb (String.eqb tok "") || quoted)%bool
            then lex cs' St_ws "" false (tok :: acc)
            else lex cs' St_ws tok quoted acc
          else if is_quote c then lex cs' (St_quote c) tok quoted acc
          else if is_escape c then lex cs' (St_esc false) tok quoted acc
          else lex cs' St_word (push tok c) quoted acc
      end
  end.

Definition shlex_split (command : string) : res (list string) :=
  lex command St_ws "" false [].

(** *** The external program

    What [subprocess.run(args, check=True, capture_output=True, text=True)]
    comes back with is the world's answer to an argument vector: the
    program ran and exited ([Completed]; [stdout_json] is the document
    [json.loads] finds in [stdout], if it is one), or it could not be
    started ([SpawnError], the [OSError] of a missing binary). *)
Inductive proc_outcome : Type :=
| Completed (returncode : Z) (stdout stderr : string) (stdout_json : option json)
| SpawnError (msg : string).

Definition world := list string -> proc_outcome.

(** [execute_command], the same function in [k8sgpt_service/app/services.py]
    and [kubeconfig_service/app/routes.py]. *)
Definition execute_command (run : world) (command : string) : res json :=
  match shlex_split command with
  | Raise e => Raise (HTTPException 500 ("An error occurred: " ++ str_exn e))
  | Ok args =>
      match run args with
      | Completed rc out err js =>
          if (rc =? 0)%Z then
            match js with
            | Some output => Ok output
            | None => Ok (JDict [("stdout", JStr out)])
            end
          else Raise (HTTPException 500 ("Command execution failed: " ++ err))
      | SpawnError msg => Raise (HTTPException 500 ("An error occurred: " ++ msg))
      end
  end.

End Exec.

(** ** Strings and paths of the Python library *)

(** A text is held as the bytes of its UTF-8 encoding, which is what a
    string literal is.  The white characters of [str.strip()] and
    [str.split()] are those of [str.isspace]: U+0009 .. U+000D,
    U+001C .. U+0020, one byte each; U+0085 and U+00A0, two bytes;
    U+1680, U+2000 .. U+200A, U+2028, U+2029, U+202F, U+205F and U+3000,
    three bytes. *)
Definition is_space (c : ascii) : bool :=
  let n := nat_of_ascii c in
  ((9 <=? n)%nat && (n <=? 13)%nat || (28 <=? n)%nat && (n <=? 32)%nat)%bool.

Definition is_space2 (c1 c2 : ascii) : bool :=
  let n1 := nat_of_ascii c1 in
  let n2 := nat_of_ascii c2 in
  ((n1 =? 194)%nat && ((n2 =? 133)%nat || (n2 =? 160)%nat))%bool.

Definition is_space3 (c1 c2 c3 : ascii) : bool :=
  let n1 := nat_of_ascii c1 in
  let n2 := nat_of_ascii c2 in
  let n3 := nat_of_ascii c3 in
  ((n1 =? 225)%nat && (n2 =? 154)%nat && (n3 =? 128)%nat
   || (n1 =? 226)%nat && (n2 =? 128)%nat
      && ((128 <=? n3)%nat && (n3 <=? 138)%nat
          || (n3 =? 168)%nat || (n3 =? 169)%nat || (n3 =? 175)%nat)
   || (n1 =? 226)%nat && (n2 =? 129)%nat && (n3 =? 159)%nat
   || (n1 =? 227)%nat && (n2 =? 128)%nat && (n3 =? 128)%nat)%bool.

(** The number of bytes of the white character a text starts with, 0
    when it starts with none. *)
Definition white_at (s : string) : nat :=
  match s with
  | String c1 s1 =>
      if is_space c1 then 1
      else match s1 with
           | String c2 s2 =>
               if is_space2 c1 c2 then 2
               else match s2 with
                    | String c3 _ => if is_space3 c1 c2 c3 then 3 else 0
                    | EmptyString => 0
                    end
           | EmptyString => 0
           end
  | EmptyString => 0
  end%nat.

Fixpoint skip (n : nat) (s : string) : string :=
  match n, s with
  | S n', String _ s' => skip n' s'
  | _, _ => s
  end.

(** [str.lstrip()]. *)
Fixpoint lstrip (s : string) : string :=
  match s with
  | String c1 s1 =>
      if is_space c1 then lstrip s1
      else match s1 with
           | String c2 s2 =>
               if is_space2 c1 c2 then lstrip s2
               else match s2 with
                    | String c3 s3 => if is_space3 c1 c2 c3 then lstrip s3 else s
                    | EmptyString => s
                    end
           | EmptyString => s
           end
  | EmptyString => EmptyString
  end.

(** A text of white characters only. *)
Definition all_white (s : string) : bool := String.eqb (lstrip s) "".

(** [str.rstrip()]: the text up to the point from which all is white. *)
Fixpoint rstrip (s : string) : string :=
  match s with
  | String c s' => if all_white s then "" else String c (rstrip s')
  | EmptyString => ""
  end.

(** [str.strip()]. *)
Definition strip (s : string) : string := rstrip (lstrip s).

(** [p.rfind(c)], with -1 for no occurrence. *)
Fixpoint rfind_from (c : ascii) (s : string) (i : Z) (last : Z) : Z :=
  match s with
  | EmptyString => last
  | String a s' => rfind_from c s' (i + 1) (if Ascii.eqb a c then i else last)
  end.

Definition rfind (c : ascii) (s : string) : Z := rfind_from c s 0 (-1).

Definition slice (s : string) (lo hi : Z) : string :=
  substring (Z.to_nat lo) (Z.to_nat (hi - lo)) s.

Fixpoint all_dots (s : string) : bool :=
  match s with
  | EmptyString => true
  | String a s' => (Ascii.eqb a "." && all_dots s')%bool
  end.

(** [os.path.splitext(p)[1]] of [posixpath]: the extension starts at the
    last dot of the last path component, leading dots of which do not
    count. *)
Definition splitext_ext (p : string) : string :=
  let sepIndex := rfind "/" p in
  let dotIndex := rfind "." p in
  if (sepIndex <? dotIndex)%Z then
    if all_dots (slice p (sepIndex + 1) dotIndex) then ""
    else slice p dotIndex (Z.of_nat (String.length p))
  else "".

Definition ends_with_slash (a : string) : bool :=
  (negb (String.eqb a "") && (rfind "/" a =? Z.of_nat (String.length a) - 1)%Z)%bool.

(** [os.path.join(a, b)] of [posixpath]. *)
Definition path_join (a b : string) : string :=
  match b with
  | String "/" _ => b
  | _ => if (String.eqb a "" || ends_with_slash a)%bool then a ++ b else a ++ "/" ++ b
  end.

Definition str_strip (v : json) : res string :=
  match v with
  | JStr s => Ok (strip s)
  | _ => Raise (PyError "AttributeError" "object has no attribute 'strip'")
  end.

(** ** The credential store: [kubeconfig_service] *)

Module Kubeconfig.

Definition UPLOAD_DIR : string := "uploaded_kubeconfigs".

(** [app/models.py]: a row of the [Kubeconf] table. *)
Record Kubeconf : Type := {
  kc_id : Z;
  filename : string;
  original_filename : string;
  user_id : Z;
  active : bool;
  path : string;
  cluster_name : option string;
  context_name : option string;
  is_operator_installed : bool;
  created_at : Z;
  updated_at : Z
}.

(** The service's state: the table, and the files on disk with their
    contents. *)
Record state : Type := {
  kubeconfs : list Kubeconf;
  disk : gmap string string
}.

Definition init : state := {| kubeconfs := []; disk := ∅ |}.

Definition with_active (b : bool) (k : Kubeconf) : Kubeconf :=
  {| kc_id := kc_id k; filename := filename k;
     original_filename := original_filename k; user_id := user_id k;
     active := b; path := path k; cluster_name := cluster_name k;
     context_name := context_name k;
     is_operator_installed := is_operator_installed k;
     created_at := created_at k; updated_at := updated_at k |}.

Definition with_rows (rows : list Kubeconf) (s : state) : state :=
  {| kubeconfs := rows; disk := disk s |}.

(** The primary key the database gives a new row. *)
Definition next_id (rows : list Kubeconf) : Z :=
  1 + fold_right Z.max 0 (map kc_id rows).

(** [os.path.exists]. *)
Definition path_exists (s : state) (p : string) : bool :=
  match disk s !! p with Some _ => true | None => false end.

(** [select(Kubeconf).where(filename == .., user_id == ..)] then
    [.first()]. *)
Definition owned_by_name (fname : string) (uid : Z) (k : Kubeconf) : bool :=
  (String.eqb (filename k) fname && (user_id k =? uid)%Z)%bool.

Definition lookup_kubeconf (fname : string) (uid : Z) (rows : list Kubeconf)
  : option Kubeconf :=
  find (owned_by_name fname uid) rows.

(** [update(Kubeconf).where(user_id == uid).values(active=False)]. *)
Definition deactivate_all (uid : Z) (rows : list Kubeconf) : list Kubeconf :=
  map (fun k => if (user_id k =? uid)%Z then with_active false k else k) rows.

(** The flush of one changed object: an update by primary key. *)
Definition update_active (pk : Z) (b : bool) (rows : list Kubeconf) : list Kubeconf :=
  map (fun k => if (kc_id k =? pk)%Z then with_active b k else k) rows.

(** [session.delete(obj)]: a delete by primary key. *)
Definition delete_row (pk : Z) (rows : list Kubeconf) : list Kubeconf :=
  List.filter (fun k => negb (kc_id k =? pk)%Z) rows.

Definition probe_cluster_command (file_path : string) : string :=
  "kubectl config view --kubeconfig " ++ file_path
  ++ " --minify -o jsonpath='{.clusters[0].name}'".

Definition probe_context_command (file_path : string) : string :=
  "kubectl config view --kubeconfig " ++ file_path
  ++ " --minify -o jsonpath='{.contexts[0].name}'".

(** [result.get("stdout", "").strip()]. *)
Definition stdout_stripped (result : json) : res string :=
  v ← dict_get result "stdout" (JStr ""); str_strip v.

(** What [open(file_path, "wb")] and [buffer.write(await file.read())]
    make of an upload: the file holds the bytes; [open] raised (a name
    too long or holding a NUL, a directory that is gone) and there is no
    file; or [read] or [write] raised after [open] had made the file,
    which then holds what was written before. *)
Inductive saved : Type :=
| Written
| OpenFailed (e : exn)
| WriteFailed (e : exn) (partial : string).

(** [POST /upload].  [uuid] is the value of [uuid.uuid4()], [now] the
    clock, [run] the world the probes run in, [save] what became of the
    file, [commit_error] the exception of the INSERT if the database
    refuses the row.  Everything is inside the handler's one [try]. *)
Definition upload_kubeconfig (run : Exec.world) (uuid : string) (now : Z)
    (save : saved) (commit_error : option exn)
    (file_filename content : string) (current_user : Z) (s : state)
  : res Kubeconf * state :=
  let file_extension := splitext_ext file_filename in
  let unique_filename := uuid ++ file_extension in
  let file_path := path_join UPLOAD_DIR unique_filename in
  let failed (e : exn) (s' : state) : res Kubeconf * state :=
    (Raise (HTTPException 500 ("An error occurred: " ++ str_exn e)), s') in
  match save with
  | OpenFailed e => failed e s
  | WriteFailed e partial =>
      failed e {| kubeconfs := kubeconfs s; disk := <[file_path := partial]> (disk s) |}
  | Written =>
      let s1 :=
        {| kubeconfs := kubeconfs s; disk := <[file_path := content]> (disk s) |} in
      let body : res Kubeconf :=
        result ← Exec.execute_command run (probe_cluster_command file_path);
        cluster ← stdout_stripped result;
        result ← Exec.execute_command run (probe_context_command file_path);
        context ← stdout_stripped result;
        Ok {| kc_id := next_id (kubeconfs s);
              filename := unique_filename;
              original_filename := file_filename;
              user_id := current_user;
              active := false;
              path := file_path;
              cluster_name := Some cluster;
              context_name := Some context;
              is_operator_installed := false;
              created_at := now; updated_at := now |} in
      match body with
      | Ok new_kubeconf =>
          match commit_error with
          | Some e => failed e s1
          | None => (Ok new_kubeconf, with_rows (kubeconfs s ++ [new_kubeconf]) s1)
          end
      | Raise e => failed e s1
      end
  end.

(** [PUT /activate/{filename}]. *)
Definition set_active_kubeconfig (fname : string) (current_user : Z) (s : state)
  : res string * state :=
  match lookup_kubeconf fname current_user (kubeconfs s) with
  | None => (Raise (HTTPException 404 ("Kubeconfig '" ++ fname ++ "' not found")), s)
  | Some kubeconf_to_activate =>
      let rows := deactivate_all current_user (kubeconfs s) in
      let rows := update_active (kc_id kubeconf_to_activate) true rows in
      (Ok ("Kubeconfig '" ++ fname ++ "' set as active"), with_rows rows s)
  end.

(** [DELETE /remove].  [os_error] is the failure of [os.remove], if the
    operating system refuses it. *)
Definition remove_kubeconfig (fname : string) (current_user : Z)
    (os_error : option string) (s : state) : res string * state :=
  match lookup_kubeconf fname current_user (kubeconfs s) with
  | None =>
      (Raise (HTTPException 404
         ("Kubeconfig '" ++ fname ++ "' not found or does not belong to you")), s)
  | Some kubeconf =>
      let file_path := path kubeconf in
      if negb (path_exists s file_path) then
        (Ok ("Kubeconfig '" ++ fname
             ++ "' removed from database. File was not found on disk."),
         with_rows (delete_row (kc_id kubeconf) (kubeconfs s)) s)
      else
        match os_error with
        | Some msg =>
            (Raise (HTTPException 500 ("Error removing kubeconfig: " ++ msg)), s)
        | None =>
            (Ok ("Kubeconfig '" ++ fname
                 ++ "' successfully removed from disk and database"),
             {| kubeconfs := delete_row (kc_id kubeconf) (kubeconfs s);
                disk := delete file_path (disk s) |})
        end
  end.

(** [tasks.py], [validate_kubeconfigs]: one liveness sweep. *)
Definition validate_kubeconfigs (s : state) : state :=
  with_rows
    (map (fun kubeconf =>
            if negb (path_exists s (path kubeconf))
            then with_active false kubeconf else kubeconf)
         (kubeconfs s)) s.

(** What can happen to the service: its requests, the sweep, and a file
    vanishing behind its back. *)
Inductive op : Type :=
| Upload (run : Exec.world) (uuid : string) (now : Z)
    (save : saved) (commit_error : option exn)
    (file_filename content : string) (user : Z)
| Activate (fname : string) (user : Z)
| Remove (fname : string) (user : Z) (os_error : option string)
| Validate
| Unlink (p : string).

Definition step (s : state) (o : op) : state :=
  match o with
  | Upload run uuid now save err fn content u =>
      snd (upload_kubeconfig run uuid now save err fn content u s)
  | Activate fn u => snd (set_active_kubeconfig fn u s)
  | Remove fn u err => snd (remove_kubeconfig fn u err s)
  | Validate => validate_kubeconfigs s
  | Unlink p => {| kubeconfs := kubeconfs s; disk := delete p (disk s) |}
  end.

Definition run_ops (ops : list op) (s : state) : state := fold_left step ops s.

End Kubeconfig.

(** ** Analysis results and AI backends: [k8sgpt_service] *)

Module K8sgpt.

(** [app/schemas.py], [AnalysisRequest]; [parameters] below is its
    [.dict()]. *)
Record AnalysisRequest : Type := {
  anonymize : bool;
  backend : option string;
  custom_analysis : bool;
  custom_headers : option (list string);
  explain : bool;
  filter_analyzers : option (list string);
  interactive : bool;
  language : string;
  max_concurrency : Z;
  namespace : option string;
  no_cache : bool;
  output_format : string;
  selector : option string;
  with_doc : bool
}.

Definition opt_str (o : option string) : json :=
  match o with Some s => JStr s | None => JNull end.

Definition opt_strs (o : option (list string)) : json :=
  match o with Some l => JList (map JStr l) | None => JNull end.

Definition parameters_dict (p : AnalysisRequest) : json :=
  JDict [("anonymize", JBool (anonymize p));
         ("backend", opt_str (backend p));
         ("custom_analysis", JBool (custom_analysis p));
         ("custom_headers", opt_strs (custom_headers p));
         ("explain", JBool (explain p));
         ("filter_analyzers", opt_strs (filter_analyzers p));
         ("interactive", JBool (interactive p));
         ("language", JStr (language p));
         ("max_concurrency", JInt (max_concurrency p));
         ("namespace", opt_str (namespace p));
         ("no_cache", JBool (no_cache p));
         ("output_format", JStr (output_format p));
         ("selector", opt_str (selector p));
         ("with_doc", JBool (with_doc p))].

Definition str_or_empty (o : option string) : string :=
  match o with Some s => s | None => "" end.

Definition list_or_empty (o : option (list string)) : list string :=
  match o with Some l => l | None => [] end.

(** [if cond: command += suffix]. *)
Definition append_if (cond : bool) (suffix : string) (command : string) : string :=
  if cond then command ++ suffix else command.

(** [run_k8sgpt_analysis], lines 74-106: the command line, built by
    appending to a string.  A loop over a list that is [None] or empty
    appends nothing, as the guard around it has it. *)
Definition analyze_command (parameters : AnalysisRequest) (kubeconfig_path : string)
  : string :=
  let command := "k8sgpt analyze" in
  let command :=
    append_if (truthy_str (backend parameters))
      (" --backend " ++ str_or_empty (backend parameters)) command in
  let command := append_if (custom_analysis parameters) " --custom-analysis" command in
  let command :=
    fold_left (fun command header => command ++ " --custom-headers " ++ header)
      (list_or_empty (custom_headers parameters)) command in
  let command := append_if (explain parameters) " --explain" command in
  let command :=
    fold_left (fun command f => command ++ " --filter " ++ f)
      (list_or_empty (filter_analyzers parameters)) command in
  let command := append_if (interactive parameters) " --interactive" command in
  let command :=
    append_if (negb (String.eqb (language parameters) "")
               && negb (String.eqb (language parameters) "english"))%bool
      (" --language " ++ language parameters) command in
  let command :=
    append_if (negb (max_concurrency parameters =? 0)%Z
               && negb (max_concurrency parameters =? 10)%Z)%bool
      (" --max-concurrency " ++ str_of_Z (max_concurrency parameters)) command in
  let command :=
    append_if (truthy_str (namespace parameters))
      (" --namespace " ++ str_or_empty (namespace parameters)) command in
  let command := append_if (no_cache parameters) " --no-cache" command in
  (* Always use JSON output for structured data storage *)
  let command := command ++ " --output json" in
  let command :=
    append_if (truthy_str (selector parameters))
      (" --selector " ++ str_or_empty (selector parameters)) command in
  let command := append_if (with_doc parameters) " --with-doc" command in
  command ++ " --kubeconfig " ++ kubeconfig_path.

(** [app/models.py]. *)
Record AnalysisResult : Type := {
  ar_id : Z;
  ar_user_id : Z;
  ar_cluster_name : string;
  ar_namespace : option string;
  result_id : string;
  result_json : json_text;
  ar_created_at : Z;
  ar_parameters : json_text
}.

Record AIBackendConfig : Type := {
  bc_id : Z;
  bc_user_id : Z;
  backend_name : string;
  is_default : bool;
  config_json : json_text;
  bc_created_at : Z;
  bc_updated_at : Z
}.

(** The service's state: its two tables and the content of the fast
    tier, each entry with the instant it expires at. *)
Record state : Type := {
  analysis_results : list AnalysisResult;
  backends : list AIBackendConfig;
  cache : gmap string (Z * pydict)
}.

Definition init : state :=
  {| analysis_results := []; backends := []; cache := ∅ |}.

Definition with_cache (c : gmap string (Z * pydict)) (s : state) : state :=
  {| analysis_results := analysis_results s; backends := backends s; cache := c |}.

Definition with_backends (rows : list AIBackendConfig) (s : state) : state :=
  {| analysis_results := analysis_results s; backends := rows; cache := cache s |}.

(** *** The fast tier *)

(** Modelled from the spec: [k8sgpt_service/app/cache.py], from which
    [services.py] imports [cache_get] and [cache_set], is not among the
    sources.  The fast tier is the spec's external key-value store: keys
    of the pattern [user:{id}:{key}], values that expire (one hour unless
    told otherwise), every operation best-effort.  [up] says whether the
    store answers this call; when it does not, a read misses and a write
    is dropped, and neither raises.  How a value is turned into the stored
    string is not looked into: a read gives back what was written. *)
Definition get_cache_key (user_id : Z) (key : string) : string :=
  "user:" ++ str_of_Z user_id ++ ":" ++ key.

(** Modelled from the spec: the read of the fast tier (see [get_cache_key]). *)
Definition cache_get (up : bool) (now : Z) (user_id : Z) (key : string)
    (c : gmap string (Z * pydict)) : option pydict :=
  if up then
    match c !! get_cache_key user_id key with
    | Some (expires_at, data) => if (now <? expires_at)%Z then Some data else None
    | None => None
    end
  else None.

Definition default_expiry : Z := 3600.

(** Modelled from the spec: the best-effort write of the fast tier (see
    [get_cache_key]). *)
Definition cache_set (up : bool) (now : Z) (user_id : Z) (key : string)
    (value : pydict) (expiry : Z) (c : gmap string (Z * pydict))
  : gmap string (Z * pydict) :=
  if up then <[get_cache_key user_id key := (now + expiry, value)]> c else c.

(** *** Analysis results *)

Definition next_result_pk (rows : list AnalysisResult) : Z :=
  1 + fold_right Z.max 0 (map ar_id rows).

Definition analysis_cache_key (rid : string) : string := "analysis_result:" ++ rid.

(** The dictionary [run_k8sgpt_analysis] leaves in the fast tier. *)
Definition analysis_cache_entry (rid : string) (result parameters : json) : pydict :=
  [("result_id", Doc (JStr rid));
   ("result", Doc result);
   ("parameters", Doc parameters)].

(** What the kubeconfig service answers to [get_active_kubeconfig_path]:
    the path and the cluster name of the caller's active credential, or
    the error passed on. *)
Definition active_answer := res (string * string).

(** [run_k8sgpt_analysis].  [on_disk] is [os.path.exists(kubeconfig_path)],
    [uuid] the value of [uuid.uuid4()], [now] the clock. *)
Definition run_k8sgpt_analysis (active_kubeconfig : active_answer) (on_disk : bool)
    (run : Exec.world) (up : bool) (uuid : string) (now : Z)
    (user_id : Z) (parameters : AnalysisRequest) (s : state)
  : res AnalysisResult * state :=
  match active_kubeconfig with
  | Raise e => (Raise e, s)
  | Ok (kubeconfig_path, cluster_name) =>
      if negb on_disk then
        (Raise (HTTPException 404 "Active kubeconfig file not found on disk"), s)
      else
        let command := analyze_command parameters kubeconfig_path in
        match Exec.execute_command run command with
        | Raise e =>
            (Raise (if is_http e then e
                    else HTTPException 500 ("Error during analysis: " ++ str_exn e)), s)
        | Ok result =>
            let analysis_result :=
              {| ar_id := next_result_pk (analysis_results s);
                 ar_user_id := user_id;
                 ar_cluster_name := cluster_name;
                 ar_namespace := namespace parameters;
                 result_id := uuid;
                 result_json := json_dumps result;
                 ar_created_at := now;
                 ar_parameters := json_dumps (parameters_dict parameters) |} in
            let rows := (analysis_results s ++ [analysis_result])%list in
            let c :=
              cache_set up now user_id (analysis_cache_key uuid)
                (analysis_cache_entry uuid result (parameters_dict parameters))
                default_expiry (cache s) in
            (Ok analysis_result,
             {| analysis_results := rows; backends := backends s; cache := c |})
        end
  end.

Definition owns_result (uid : Z) (rid : string) (ar : AnalysisResult) : bool :=
  ((ar_user_id ar =? uid)%Z && String.eqb (result_id ar) rid)%bool.

Definition result_view (ar : AnalysisResult) : pydict :=
  [("result_id", Doc (JStr (result_id ar)));
   ("cluster_name", Doc (JStr (ar_cluster_name ar)));
   ("namespace", Doc (opt_str (ar_namespace ar)));
   ("result", Doc (json_loads (result_json ar)));
   ("created_at", Datetime (ar_created_at ar));
   ("parameters", Doc (json_loads (ar_parameters ar)))].

(** [get_analysis_result]. *)
Definition get_analysis_result (up : bool) (now : Z) (user_id : Z) (rid : string)
    (s : state) : res pydict * state :=
  let cache_key := analysis_cache_key rid in
  let cached_result := cache_get up now user_id cache_key (cache s) in
  match cached_result with
  | Some ((_ :: _) as d) => (Ok d, s)
  | _ =>
      match find (owns_result user_id rid) (analysis_results s) with
      | None =>
          (Raise (HTTPException 404 ("Analysis result " ++ rid ++ " not found")), s)
      | Some analysis_result =>
          let result := result_view analysis_result in
          (Ok result,
           with_cache (cache_set up now user_id cache_key result default_expiry (cache s)) s)
      end
  end.

(** [.order_by(AnalysisResult.created_at.desc())]: rows with equal time
    stamps stay in table order. *)
Fixpoint insert_desc (x : AnalysisResult) (l : list AnalysisResult)
  : list AnalysisResult :=
  match l with
  | [] => [x]
  | y :: l' =>
      if (ar_created_at y <=? ar_created_at x)%Z then x :: l
      else y :: insert_desc x l'
  end.

Definition order_by_created_desc (rows : list AnalysisResult) : list AnalysisResult :=
  fold_right insert_desc [] rows.

(** The query of [list_analysis_results]. *)
Definition select_results (user_id : Z) (limit offset : nat)
    (rows : list AnalysisResult) : list AnalysisResult :=
  firstn limit
    (skipn offset
       (order_by_created_desc
          (List.filter (fun ar => (ar_user_id ar =? user_id)%Z) rows))).

Definition result_summary (ar : AnalysisResult) : pydict :=
  [("result_id", Doc (JStr (result_id ar)));
   ("cluster_name", Doc (JStr (ar_cluster_name ar)));
   ("namespace", Doc (opt_str (ar_namespace ar)));
   ("created_at", Datetime (ar_created_at ar));
   ("parameters", Doc (json_loads (ar_parameters ar)))].

(** [list_analysis_results]. *)
Definition list_analysis_results (user_id : Z) (limit offset : nat) (s : state)
  : list pydict * state :=
  (map result_summary (select_results user_id limit offset (analysis_results s)), s).

(** *** The routes over them ([app/routes.py]) *)

Fixpoint map_res {A B : Type} (f : A -> res B) (l : list A) : res (list B) :=
  match l with
  | [] => Ok []
  | x :: l' => y ← f x; ys ← map_res f l'; Ok (y :: ys)
  end.

Definition item_view (item : json) : res json :=
  name ← dict_get item "name" (JStr "");
  kind ← dict_get item "kind" (JStr "");
  ns ← dict_get item "namespace" (JStr "");
  status ← dict_get item "status" (JStr "");
  severity ← dict_get item "severity" (JStr "");
  message ← dict_get item "message" (JStr "");
  hint ← dict_get item "hint" JNull;
  explanation ← dict_get item "explanation" JNull;
  docs ← dict_get item "docs" JNull;
  Ok (JDict [("name", name); ("kind", kind); ("namespace", ns);
             ("status", status); ("severity", severity); ("message", message);
             ("hint", hint); ("explanation", explanation); ("docs", docs)]).

(** [items], filled when the stored result is a list. *)
Definition extract_items (result_json : pyval) : res json :=
  match result_json with
  | Doc (JList l) => items ← map_res item_view l; Ok (JList items)
  | _ => Ok (JList [])
  end.

(** The response both routes build from what [get_analysis_result]
    returned. *)
Definition analysis_response (analysis_data : pydict) : res pydict :=
  result_json ← getitem analysis_data "result";
  items ← extract_items result_json;
  rid ← getitem analysis_data "result_id";
  cluster ← getitem analysis_data "cluster_name";
  ns ← getitem analysis_data "namespace";
  created ← getitem analysis_data "created_at";
  params ← getitem analysis_data "parameters";
  Ok [("result_id", rid); ("cluster_name", cluster); ("namespace", ns);
      ("items", Doc items); ("created_at", created); ("parameters", params)].

(** [GET /analysis/{result_id}]. *)
Definition get_analysis (up : bool) (now : Z) (user_id : Z) (rid : string) (s : state)
  : res pydict * state :=
  let (r, s1) := get_analysis_result up now user_id rid s in
  (r ≫= analysis_response, s1).

Definition summary_result_id (result : pydict) : res string :=
  v ← getitem result "result_id";
  match v with
  | Doc (JStr rid) => Ok rid
  | _ => Raise (PyError "TypeError" "result_id is not a string")
  end.

(** The loop of [list_analyses]: every listed result is fetched again
    through [get_analysis_result]. *)
Fixpoint transform_results (up : bool) (now : Z) (user_id : Z)
    (results : list pydict) (s : state) : res (list pydict) * state :=
  match results with
  | [] => (Ok [], s)
  | result :: rest =>
      match summary_result_id result with
      | Raise e => (Raise e, s)
      | Ok rid =>
          match get_analysis_result up now user_id rid s with
          | (Raise e, s1) => (Raise e, s1)
          | (Ok detailed_result, s1) =>
              match analysis_response detailed_result with
              | Raise e => (Raise e, s1)
              | Ok t =>
                  match transform_results up now user_id rest s1 with
                  | (Raise e, s2) => (Raise e, s2)
                  | (Ok ts, s2) => (Ok (t :: ts), s2)
                  end
              end
          end
      end
  end.

(** [GET /analyses]. *)
Definition list_analyses (up : bool) (now : Z) (user_id : Z) (limit offset : nat)
    (s : state) : res (list pydict) * state :=
  let (results, s0) := list_analysis_results user_id limit offset s in
  transform_results up now user_id results s0.

(** *** AI backends *)

Definition owns_backend (uid : Z) (name : string) (b : AIBackendConfig) : bool :=
  ((bc_user_id b =? uid)%Z && String.eqb (backend_name b) name)%bool.

Definition with_default (d : bool) (b : AIBackendConfig) : AIBackendConfig :=
  {| bc_id := bc_id b; bc_user_id := bc_user_id b; backend_name := backend_name b;
     is_default := d; config_json := config_json b;
     bc_created_at := bc_created_at b; bc_updated_at := bc_updated_at b |}.

Definition with_config (c : json_text) (d : bool) (b : AIBackendConfig)
  : AIBackendConfig :=
  {| bc_id := bc_id b; bc_user_id := bc_user_id b; backend_name := backend_name b;
     is_default := d; config_json := c;
     bc_created_at := bc_created_at b; bc_updated_at := bc_updated_at b |}.

Definition next_backend_pk (rows : list AIBackendConfig) : Z :=
  1 + fold_right Z.max 0 (map bc_id rows).

(** The flush of the changed backend: an update by primary key. *)
Definition put_config (pk : Z) (c : json_text) (d : bool) (b : AIBackendConfig)
  : AIBackendConfig :=
  if (bc_id b =? pk)%Z then with_config c d b else b.

(** [update(AIBackendConfig).where(user_id == uid, backend_name != name)
    .values(is_default=False)], on one row. *)
Definition clear_others (uid : Z) (name : string) (b : AIBackendConfig)
  : AIBackendConfig :=
  if ((bc_user_id b =? uid)%Z && negb (String.eqb (backend_name b) name))%bool
  then with_default false b else b.

(** [add_ai_backend]; [name] and [default] are the two keys popped from
    the request, [config] is what is left of it. *)
Definition add_ai_backend (now : Z) (user_id : Z) (name : string) (default : bool)
    (config : json) (s : state) : option AIBackendConfig * state :=
  let rows :=
    match find (owns_backend user_id name) (backends s) with
    | Some existing_backend =>
        map (put_config (bc_id existing_backend) (json_dumps config) default)
            (backends s)
    | None =>
        (backends s ++
         [{| bc_id := next_backend_pk (backends s);
             bc_user_id := user_id;
             backend_name := name;
             is_default := default;
             config_json := json_dumps config;
             bc_created_at := now; bc_updated_at := now |}])%list
    end in
  let rows := if default then map (clear_others user_id name) rows else rows in
  (find (owns_backend user_id name) rows, with_backends rows s).

Definition backend_view (b : AIBackendConfig) : pydict :=
  [("id", Doc (JInt (bc_id b)));
   ("backend_name", Doc (JStr (backend_name b)));
   ("is_default", Doc (JBool (is_default b)));
   ("config", Doc (json_loads (config_json b)));
   ("created_at", Datetime (bc_created_at b));
   ("updated_at", Datetime (bc_updated_at b))].

Definition backend_not_found (name : string) : exn :=
  HTTPException 404 ("AI backend " ++ name ++ " not found").

(** [get_ai_backend]. *)
Definition get_ai_backend (user_id : Z) (name : string) (s : state) : res pydict :=
  match find (owns_backend user_id name) (backends s) with
  | None => Raise (backend_not_found name)
  | Some b => Ok (backend_view b)
  end.

(** [delete_ai_backend]. *)
Definition delete_ai_backend (user_id : Z) (name : string) (s : state)
  : res bool * state :=
  match find (owns_backend user_id name) (backends s) with
  | None => (Raise (backend_not_found name), s)
  | Some b =>
      (Ok true,
       with_backends (List.filter (fun r => negb (bc_id r =? bc_id b)%Z) (backends s)) s)
  end.

(** [set_default_ai_backend]. *)
Definition set_default_ai_backend (user_id : Z) (name : string) (s : state)
  : res bool * state :=
  match find (owns_backend user_id name) (backends s) with
  | None => (Raise (backend_not_found name), s)
  | Some b =>
      let rows :=
        map (fun r => if (bc_user_id r =? user_id)%Z then with_default false r else r)
            (backends s) in
      let rows :=
        map (fun r => if (bc_id r =? bc_id b)%Z then with_default true r else r) rows in
      (Ok true, with_backends rows s)
  end.

(** *** The states the service can be in

    Any sequence of requests, with the fast tier free to lose entries in
    between.  The one assumption on the world is that [uuid.uuid4()] does
    not repeat. *)
Inductive reachable : state -> Prop :=
| reach_init : reachable init
| reach_analyze s active on_disk run up uuid now uid params :
    reachable s ->
    Forall (fun ar => result_id ar <> uuid) (analysis_results s) ->
    reachable (snd (run_k8sgpt_analysis active on_disk run up uuid now uid params s))
| reach_fetch s up now uid rid :
    reachable s -> reachable (snd (get_analysis_result up now uid rid s))
| reach_list s up now uid limit offset :
    reachable s -> reachable (snd (list_analyses up now uid limit offset s))
| reach_add_backend s now uid name default config :
    reachable s -> reachable (snd (add_ai_backend now uid name default config s))
| reach_delete_backend s uid name :
    reachable s -> reachable (snd (delete_ai_backend uid name s))
| reach_set_default s uid name :
    reachable s -> reachable (snd (set_default_ai_backend uid name s))
| reach_cache_loss s c :
    reachable s -> c ⊆ cache s -> reachable (with_cache c s).

End K8sgpt.

(** ** More of the Python library *)

(** [str.split()] without argument: the runs of characters that are not
    white, in order. *)
Definition flush (word : string) (rest : list string) : list string :=
  if String.eqb word "" then rest else word :: rest.

Fixpoint split_ws_from (s : string) (word : string) : list string :=
  match s with
  | EmptyString => flush word []
  | String c1 s1 =>
      if is_space c1 then flush word (split_ws_from s1 "")
      else match s1 with
           | String c2 s2 =>
               if is_space2 c1 c2 then flush word (split_ws_from s2 "")
               else match s2 with
                    | String c3 s3 =>
                        if is_space3 c1 c2 c3 then flush word (split_ws_from s3 "")
                        else split_ws_from s1 (word ++ String c1 "")
                    | EmptyString => split_ws_from s1 (word ++ String c1 "")
                    end
           | EmptyString => split_ws_from s1 (word ++ String c1 "")
           end
  end.

Definition split_ws (s : string) : list string := split_ws_from s "".

(** [str.split("\n")]: the pieces between line feeds, empty ones too. *)
Fixpoint split_lines_from (s : string) (line : string) : list string :=
  match s with
  | EmptyString => [line]
  | String c s' =>
      if Ascii.eqb c "010" then line :: split_lines_from s' ""
      else split_lines_from s' (line ++ String c "")
  end.

Definition split_lines (s : string) : list string := split_lines_from s "".

(** [needle in text] on two strings. *)
Fixpoint contains (needle text : string) : bool :=
  (String.prefix needle text
   || match text with
      | EmptyString => false
      | String _ text' => contains needle text'
      end)%bool.

(** [e.detail] of the exception a handler caught. *)
Definition detail_of (e : exn) : string :=
  match e with
  | HTTPException _ d => d
  | PyError _ m => m
  end.

(** [.order_by(column.desc())] on a time stamp: rows with equal stamps
    stay in table order. *)
Fixpoint insert_by_desc {A : Type} (key : A -> Z) (x : A) (l : list A) : list A :=
  match l with
  | [] => [x]
  | y :: l' => if (key y <=? key x)%Z then x :: l else y :: insert_by_desc key x l'
  end.

Definition sort_by_desc {A : Type} (key : A -> Z) (rows : list A) : list A :=
  fold_right (insert_by_desc key) [] rows.

(** ** The other routes and tasks of [kubeconfig_service] *)

Module Credentials.
Import Kubeconfig.

(** [get_active_kubeconfig]. *)
Definition get_active_kubeconfig (uid : Z) (s : state) : res Kubeconf :=
  match find (fun k => ((user_id k =? uid)%Z && active k)%bool) (kubeconfs s) with
  | Some active_kubeconf => Ok active_kubeconf
  | None => Raise (HTTPException 404 "No active kubeconfig found")
  end.

(** [GET /list]. *)
Definition list_kubeconfigs (uid : Z) (s : state) : list Kubeconf :=
  sort_by_desc created_at (List.filter (fun k => (user_id k =? uid)%Z) (kubeconfs s)).

Definition with_cluster_name (name : string) (k : Kubeconf) : Kubeconf :=
  {| kc_id := kc_id k; filename := filename k;
     original_filename := original_filename k; user_id := user_id k;
     active := active k; path := path k; cluster_name := Some name;
     context_name := context_name k;
     is_operator_installed := is_operator_installed k;
     created_at := created_at k; updated_at := updated_at k |}.

Definition with_operator_installed (b : bool) (k : Kubeconf) : Kubeconf :=
  {| kc_id := kc_id k; filename := filename k;
     original_filename := original_filename k; user_id := user_id k;
     active := active k; path := path k; cluster_name := cluster_name k;
     context_name := context_name k; is_operator_installed := b;
     created_at := created_at k; updated_at := updated_at k |}.

(** The flush of a learned cluster name: an update by primary key. *)
Definition set_cluster_name (rows : list Kubeconf) (learned : Z * string)
  : list Kubeconf :=
  map (fun k => if (kc_id k =? fst learned)%Z then with_cluster_name (snd learned) k
                else k) rows.

Definition cluster_entry (k : Kubeconf) (name : string) : json :=
  JDict [("filename", JStr (filename k));
         ("cluster_name", JStr name);
         ("active", JBool (active k));
         ("operator_installed", JBool (is_operator_installed k))].

Definition cluster_error (k : Kubeconf) (msg : string) : json :=
  JDict [("filename", JStr (filename k)); ("error", JStr msg)].

(** What one turn of the loop of [get_cluster_names] adds: an entry of
    [cluster_names], with the name to persist if it was just learned, or
    an entry of [errors]. *)
Inductive probed : Type :=
| Listed (entry : json) (learned : option (Z * string))
| Errored (err : json).

(** One turn of the loop.  A failing command is caught ([except
    HTTPException]); an output that has no [.get] or no [.strip] is not. *)
Definition probe_cluster (run : Exec.world) (s : state) (kubeconf : Kubeconf)
  : res probed :=
  match cluster_name kubeconf with
  | Some (String c n) => Ok (Listed (cluster_entry kubeconf (String c n)) None)
  | _ =>
      if negb (path_exists s (path kubeconf)) then
        Ok (Errored (cluster_error kubeconf "Kubeconfig file not found on disk"))
      else
        match Exec.execute_command run (probe_cluster_command (path kubeconf)) with
        | Raise e => Ok (Errored (cluster_error kubeconf (detail_of e)))
        | Ok result =>
            name ← stdout_stripped result;
            match name with
            | String _ _ =>
                Ok (Listed (cluster_entry kubeconf name) (Some (kc_id kubeconf, name)))
            | EmptyString =>
                Ok (Errored (cluster_error kubeconf "Unable to retrieve cluster name"))
            end
        end
  end.

(** The loop: [cluster_names], [errors] and the names to persist. *)
Fixpoint probe_all (run : Exec.world) (s : state) (kubeconfs : list Kubeconf)
  : res (list json * list json * list (Z * string)) :=
  match kubeconfs with
  | [] => Ok ([], [], [])
  | kubeconf :: rest =>
      p ← probe_cluster run s kubeconf;
      '(names, errors, learned) ← probe_all run s rest;
      match p with
      | Listed entry None => Ok (entry :: names, errors, learned)
      | Listed entry (Some l) => Ok (entry :: names, errors, l :: learned)
      | Errored err => Ok (names, err :: errors, learned)
      end
  end.

Definition cluster_names_response (names errors : list json) : json :=
  JDict (("cluster_names", JList names)
         :: match errors with [] => [] | _ => [("errors", JList errors)] end).

(** [GET /clusters].  Nothing is committed when the loop raises. *)
Definition get_cluster_names (run : Exec.world) (uid : Z) (s : state)
  : res json * state :=
  let kubeconfs := List.filter (fun k => (user_id k =? uid)%Z) (kubeconfs s) in
  match probe_all run s kubeconfs with
  | Raise e => (Raise e, s)
  | Ok (names, errors, learned) =>
      (Ok (cluster_names_response names errors),
       with_rows (fold_left set_cluster_name learned (Kubeconfig.kubeconfs s)) s)
  end.

Definition helm_commands (kubeconfig_path : string) : list string :=
  ["helm repo add k8sgpt https://charts.k8sgpt.ai/ --kubeconfig " ++ kubeconfig_path;
   "helm repo update --kubeconfig " ++ kubeconfig_path;
   "helm install release k8sgpt/k8sgpt-operator -n k8sgpt-operator-system --create-namespace --kubeconfig "
     ++ kubeconfig_path].

(** The loop of [install_operator]: it stops at the first command that
    fails. *)
Fixpoint run_commands (run : Exec.world) (commands : list string) : list json * bool :=
  match commands with
  | [] => ([], true)
  | command :: rest =>
      match Exec.execute_command run command with
      | Ok result =>
          let (results, success) := run_commands run rest in
          (JDict [("command", JStr command); ("result", result)] :: results, success)
      | Raise e =>
          ([JDict [("command", JStr command); ("error", JStr (detail_of e))]], false)
      end
  end.

Definition set_operator_installed (pk : Z) (rows : list Kubeconf) : list Kubeconf :=
  map (fun k => if (kc_id k =? pk)%Z then with_operator_installed true k else k) rows.

(** [POST /install-operator]. *)
Definition install_operator (run : Exec.world) (uid : Z) (s : state)
  : res json * state :=
  match get_active_kubeconfig uid s with
  | Raise e => (Raise e, s)
  | Ok active_kubeconf =>
      let kubeconfig_path := path active_kubeconf in
      if negb (path_exists s kubeconfig_path) then
        (Raise (HTTPException 404 "Active kubeconfig file not found on disk"), s)
      else
        let (results, success) := run_commands run (helm_commands kubeconfig_path) in
        (Ok (JDict [("results", JList results); ("operator_installed", JBool success)]),
         if success
         then with_rows (set_operator_installed (kc_id active_kubeconf) (kubeconfs s)) s
         else s)
  end.

Definition namespaces_command (kubeconfig_path : string) : string :=
  "kubectl get namespaces -o jsonpath='{.items[*].metadata.name}' --kubeconfig "
  ++ kubeconfig_path.

Definition namespaces_failed (msg : string) : exn :=
  HTTPException 500 ("Error fetching namespaces: " ++ msg).

(** [GET /namespaces]. *)
Definition get_namespaces (run : Exec.world) (uid : Z) (s : state) : res json :=
  active_kubeconf ← get_active_kubeconfig uid s;
  let kubeconfig_path := path active_kubeconf in
  if negb (path_exists s kubeconfig_path) then
    Raise (HTTPException 404 "Active kubeconfig file not found on disk")
  else
    result ← Exec.execute_command run (namespaces_command kubeconfig_path);
    match result with
    | JDict d =>
        match assoc "stdout" d with
        | Some (JStr out) =>
            Ok (JDict [("namespaces", JList (map JStr (split_ws (strip out))))])
        | Some _ => Raise (namespaces_failed "object has no attribute 'strip'")
        | None => Raise (namespaces_failed "Unexpected result format from execute_command")
        end
    | _ => Raise (namespaces_failed "Unexpected result format from execute_command")
    end.

(** *** [tasks.py]: the orphan sweep *)

Fixpoint no_slash (s : string) : bool :=
  match s with
  | EmptyString => true
  | String c s' => (negb (Ascii.eqb c "/") && no_slash s')%bool
  end.

Fixpoint strip_prefix (pre s : string) : option string :=
  match pre with
  | EmptyString => Some s
  | String a pre' =>
      match s with
      | String b s' => if Ascii.eqb a b then strip_prefix pre' s' else None
      | EmptyString => None
      end
  end.

(** The name under which [os.listdir(UPLOAD_DIR)] shows a path that is a
    regular file of the directory itself. *)
Definition listed_file (p : string) : option string :=
  match strip_prefix (UPLOAD_DIR ++ "/") p with
  | Some name =>
      if (negb (String.eqb name "") && no_slash name)%bool then Some name else None
  | None => None
  end.

(** Whether the sweep removes the file at [p]: it is a file of the upload
    directory, no row bears its name, and [os.remove] does not fail on
    it ([stuck]); a failure is logged and the sweep goes on. *)
Definition swept (stuck : string -> bool) (rows : list Kubeconf) (p : string) : bool :=
  match listed_file p with
  | Some name =>
      (negb (existsb (String.eqb name) (map filename rows)) && negb (stuck p))%bool
  | None => false
  end.

(** [cleanup_old_kubeconfigs]; the upload directory exists, [config.py]
    creates it. *)
Definition cleanup_old_kubeconfigs (stuck : string -> bool) (s : state) : state :=
  {| kubeconfs := kubeconfs s;
     disk := filter (fun entry => swept stuck (kubeconfs s) (fst entry) = false) (disk s) |}.

(** One turn of [background_tasks]. *)
Definition background_cycle (stuck : string -> bool) (s : state) : state :=
  validate_kubeconfigs (cleanup_old_kubeconfigs stuck s).

(** *** The states the service can be in

    Any sequence of its requests and tasks, and files vanishing behind
    its back.  The one assumption on the world is that [uuid.uuid4()]
    gives a text that is not empty and has no slash. *)
Definition uuid_like (u : string) : bool :=
  (negb (String.eqb u "") && no_slash u)%bool.

Inductive reachable : state -> Prop :=
| reach_init : reachable init
| reach_upload s run uuid now save commit_error file_filename content uid :
    reachable s -> uuid_like uuid = true ->
    reachable
      (snd (upload_kubeconfig run uuid now save commit_error file_filename content
              uid s))
| reach_activate s fname uid :
    reachable s -> reachable (snd (set_active_kubeconfig fname uid s))
| reach_remove s fname uid os_error :
    reachable s -> reachable (snd (remove_kubeconfig fname uid os_error s))
| reach_clusters s run uid :
    reachable s -> reachable (snd (get_cluster_names run uid s))
| reach_install s run uid :
    reachable s -> reachable (snd (install_operator run uid s))
| reach_cleanup s stuck :
    reachable s -> reachable (cleanup_old_kubeconfigs stuck s)
| reach_validate s :
    reachable s -> reachable (validate_kubeconfigs s)
| reach_unlink s p :
    reachable s -> reachable {| kubeconfs := kubeconfs s; disk := delete p (disk s) |}.

End Credentials.

(** ** The other functions and routes of [k8sgpt_service] *)

Module Service.
Import K8sgpt.

(** ["stdout" in result]: a key of a dictionary, an element of a list, a
    part of a text; nothing else can be searched. *)
Definition stdout_in (result : json) : res bool :=
  match result with
  | JDict d => Ok (match assoc "stdout" d with Some _ => true | None => false end)
  | JList l =>
      Ok (existsb (fun x => match x with JStr t => String.eqb t "stdout" | _ => false end) l)
  | JStr t => Ok (contains "stdout" t)
  | _ => Raise (PyError "TypeError" "argument is not iterable")
  end.

(** [result["stdout"]]. *)
Definition stdout_of (result : json) : res json :=
  match result with
  | JDict d =>
      match assoc "stdout" d with
      | Some v => Ok v
      | None => Raise (PyError "KeyError" "'stdout'")
      end
  | _ => Raise (PyError "TypeError" "indices must be integers")
  end.

(** [[line.strip() for line in text.split("\n") if line.strip()]]. *)
Definition stripped_lines (text : json) : res (list string) :=
  match text with
  | JStr t =>
      Ok (map strip
            (List.filter (fun line => negb (String.eqb (strip line) "")) (split_lines t)))
  | _ => Raise (PyError "AttributeError" "object has no attribute 'split'")
  end.

Definition analyzers_command (kubeconfig_path : string) : string :=
  "k8sgpt filters list --kubeconfig " ++ kubeconfig_path.

(** [get_available_analyzers]. *)
Definition get_available_analyzers (active_kubeconfig : active_answer)
    (run : Exec.world) : res (list string) :=
  match active_kubeconfig with
  | Raise e => Raise e
  | Ok (kubeconfig_path, _) =>
      let body : res (list string) :=
        result ← Exec.execute_command run (analyzers_command kubeconfig_path);
        found ← stdout_in result;
        if (found : bool) then (out ← stdout_of result; stripped_lines out)
        else Ok [] in
      match body with
      | Ok analyzers => Ok analyzers
      | Raise e => Raise (HTTPException 500 ("Error getting analyzers: " ++ str_exn e))
      end
  end.

(** [POST /analyze]: the analysis, then the response built from the row
    it stored. *)
Definition analyze_cluster (active_kubeconfig : active_answer) (on_disk : bool)
    (run : Exec.world) (up : bool) (uuid : string) (now : Z)
    (user_id : Z) (analysis_request : AnalysisRequest) (s : state)
  : res pydict * state :=
  match run_k8sgpt_analysis active_kubeconfig on_disk run up uuid now user_id
          analysis_request s with
  | (Raise e, s1) => (Raise e, s1)
  | (Ok analysis_result, s1) =>
      (items ← extract_items (Doc (json_loads (result_json analysis_result)));
       Ok [("result_id", Doc (JStr (result_id analysis_result)));
           ("cluster_name", Doc (JStr (ar_cluster_name analysis_result)));
           ("namespace", Doc (opt_str (ar_namespace analysis_result)));
           ("items", Doc items);
           ("created_at", Datetime (ar_created_at analysis_result));
           ("parameters", Doc (json_loads (ar_parameters analysis_result)))],
       s1)
  end.

(** [POST /backends]. *)
Definition create_backend (now : Z) (user_id : Z) (name : string) (default : bool)
    (config : json) (s : state) : res pydict * state :=
  match add_ai_backend now user_id name default config s with
  | (Some backend, s1) => (Ok (backend_view backend), s1)
  | (None, s1) => (Raise (PyError "AttributeError" "object has no attribute 'id'"), s1)
  end.

End Service.

(** ** The cache of [kubeconfig_service]: [app/cache.py] *)

Module UserCache.

(** A value handed to [cache_set]: a document, a dictionary that may hold
    a [datetime], or a [datetime]. *)
Inductive pyobj : Type :=
| Obj (j : json)
| ObjDict (d : pydict)
| ObjDatetime (t : Z).

Fixpoint docs_of (d : pydict) : option (list (string * json)) :=
  match d with
  | [] => Some []
  | (k, Doc j) :: d' =>
      match docs_of d' with Some l => Some ((k, j) :: l) | None => None end
  | (_, Datetime _) :: _ => None
  end.

(** [json.dumps(value)]: a [datetime] is not serialisable. *)
Definition dumps (value : pyobj) : res json_text :=
  match value with
  | Obj j => Ok (json_dumps j)
  | ObjDict d =>
      match docs_of d with
      | Some l => Ok (json_dumps (JDict l))
      | None => Raise (PyError "TypeError" "Object of type datetime is not JSON serializable")
      end
  | ObjDatetime _ =>
      Raise (PyError "TypeError" "Object of type datetime is not JSON serializable")
  end.

(** [redis_cache]: [None] when the connection failed at start, else the
    store with the instant each key expires at. *)
Definition redis := option (gmap string (Z * json_text)).

Definition get_cache_key (user_id : Z) (key : string) : string :=
  "user:" ++ str_of_Z user_id ++ ":" ++ key.

(** [cache_get]; the [None] it returns is [JNull].  [fault] says that the
    call to Redis raises. *)
Definition cache_get (fault : bool) (now : Z) (user_id : Z) (key : string)
    (redis_cache : redis) : json :=
  match redis_cache with
  | Some store =>
      if fault then JNull
      else
        match store !! get_cache_key user_id key with
        | Some (expires_at, data) =>
            if (now <? expires_at)%Z then json_loads data else JNull
        | None => JNull
        end
  | None => JNull
  end.

(** [cache_set]; [SETEX] refuses an expiry that is not positive. *)
Definition cache_set (fault : bool) (now : Z) (user_id : Z) (key : string)
    (value : pyobj) (expiry : Z) (redis_cache : redis) : bool * redis :=
  match redis_cache with
  | Some store =>
      match dumps value with
      | Ok data =>
          if (fault || (expiry <=? 0)%Z)%bool then (false, redis_cache)
          else (true, Some (<[get_cache_key user_id key := (now + expiry, data)]> store))
      | Raise _ => (false, redis_cache)
      end
  | None => (false, redis_cache)
  end.

(** [cache_delete]. *)
Definition cache_delete (fault : bool) (user_id : Z) (key : string)
    (redis_cache : redis) : bool * redis :=
  match redis_cache with
  | Some store =>
      if fault then (false, redis_cache)
      else (true, Some (delete (get_cache_key user_id key) store))
  | None => (false, redis_cache)
  end.

(** [cache_flush_user]: the keys matching [user:{id}:*] are deleted. *)
Definition cache_flush_user (fault : bool) (user_id : Z) (redis_cache : redis)
  : bool * redis :=
  match redis_cache with
  | Some store =>
      if fault then (false, redis_cache)
      else
        (true,
         Some (filter
                 (fun entry =>
                    String.prefix ("user:" ++ str_of_Z user_id ++ ":") (fst entry) = false)
                 store))
  | None => (false, redis_cache)
  end.

End UserCache.

(** ** The vocabulary of the properties *)

(** A table has a primary key. *)
Definition primary_key {A : Type} (pk : A -> Z) (rows : list A) : Prop :=
  List.NoDup (map pk rows).

(** *** The single-flag primitive

    Activation of a credential and selection of a default backend are the
    same two statements on different tables: clear the flag on all rows of
    the owner, then set it on one row by primary key.  [owner], [flag] and
    [set_flag] are the columns of whichever table it is. *)
Definition clear_owner {A : Type} (owner : A -> Z) (set_flag : bool -> A -> A)
    (uid : Z) (rows : list A) : list A :=
  map (fun a => if (owner a =? uid)%Z then set_flag false a else a) rows.

Definition set_by_key {A : Type} (pk : A -> Z) (set_flag : bool -> A -> A)
    (key : Z) (b : bool) (rows : list A) : list A :=
  map (fun a => if (pk a =? key)%Z then set_flag b a else a) rows.

Definition flagged_of {A : Type} (owner : A -> Z) (flag : A -> bool)
    (uid : Z) (rows : list A) : list A :=
  List.filter (fun a => ((owner a =? uid)%Z && flag a)%bool) rows.

Definition activate {A : Type} (pk owner : A -> Z) (set_flag : bool -> A -> A)
    (uid : Z) (target : A) (rows : list A) : list A :=
  set_by_key pk set_flag (pk target) true (clear_owner owner set_flag uid rows).

(** The rows of owner [uid] that carry the flag. *)
Definition active_of (uid : Z) (rows : list Kubeconfig.Kubeconf)
  : list Kubeconfig.Kubeconf :=
  flagged_of Kubeconfig.user_id Kubeconfig.active uid rows.

Definition default_of (uid : Z) (rows : list K8sgpt.AIBackendConfig)
  : list K8sgpt.AIBackendConfig :=
  flagged_of K8sgpt.bc_user_id K8sgpt.is_default uid rows.

(** The invariant of the credential table, and of the backend table,
    where a name is also unique for its owner. *)
Definition kubeconf_inv (rows : list Kubeconfig.Kubeconf) : Prop :=
  primary_key Kubeconfig.kc_id rows
  /\ forall uid, (length (active_of uid rows) <= 1)%nat.

Definition backend_inv (rows : list K8sgpt.AIBackendConfig) : Prop :=
  primary_key K8sgpt.bc_id rows
  /\ List.NoDup (map (fun b => (K8sgpt.bc_user_id b, K8sgpt.backend_name b)) rows)
  /\ forall uid, (length (default_of uid rows) <= 1)%nat.

(** What a fast-tier entry under the key of ([uid], [rid]) is: one of the
    two dictionaries the service writes for a row of that owner and
    identifier. *)
Definition entry_of (ar : K8sgpt.AnalysisResult) (d : pydict) : Prop :=
  d = K8sgpt.analysis_cache_entry (K8sgpt.result_id ar)
        (json_loads (K8sgpt.result_json ar)) (json_loads (K8sgpt.ar_parameters ar))
  \/ d = K8sgpt.result_view ar.

Definition cache_coherent (s : K8sgpt.state) : Prop :=
  forall uid rid expires_at d,
    K8sgpt.cache s !! K8sgpt.get_cache_key uid (K8sgpt.analysis_cache_key rid)
    = Some (expires_at, d) ->
    exists ar, In ar (K8sgpt.analysis_results s)
               /\ K8sgpt.ar_user_id ar = uid /\ K8sgpt.result_id ar = rid
               /\ entry_of ar d.

Definition k8sgpt_inv (s : K8sgpt.state) : Prop :=
  List.NoDup (map K8sgpt.result_id (K8sgpt.analysis_results s))
  /\ cache_coherent s
  /\ backend_inv (K8sgpt.backends s).

(** A word [shlex.split] leaves alone: not empty, and without white
    space, quote or backslash. *)
Definition plain_char (c : ascii) : bool :=
  negb (Exec.is_whitespace c || Exec.is_quote c || Exec.is_escape c).

Fixpoint plain_chars (s : string) : bool :=
  match s with
  | EmptyString => true
  | String c s' => (plain_char c && plain_chars s')%bool
  end.

Definition plain (s : string) : bool :=
  (negb (String.eqb s "") && plain_chars s)%bool.

(** A command grown by appending a space and a word at a time. *)
Definition snoc_words (command : string) (ws : list string) : string :=
  fold_left (fun c w => c ++ " " ++ w) ws command.

(** The flags and values of [analyze_command], one word each, after the
    program name. *)
Definition analyze_words (p : K8sgpt.AnalysisRequest) (kubeconfig_path : string)
  : list string :=
  ((if truthy_str (K8sgpt.backend p)
    then ["--backend"; K8sgpt.str_or_empty (K8sgpt.backend p)] else [])
   ++ (if K8sgpt.custom_analysis p then ["--custom-analysis"] else [])
   ++ flat_map (fun h => ["--custom-headers"; h])
        (K8sgpt.list_or_empty (K8sgpt.custom_headers p))
   ++ (if K8sgpt.explain p then ["--explain"] else [])
   ++ flat_map (fun f => ["--filter"; f])
        (K8sgpt.list_or_empty (K8sgpt.filter_analyzers p))
   ++ (if K8sgpt.interactive p then ["--interactive"] else [])
   ++ (if (negb (String.eqb (K8sgpt.language p) "")
           && negb (String.eqb (K8sgpt.language p) "english"))%bool
       then ["--language"; K8sgpt.language p] else [])
   ++ (if (negb (K8sgpt.max_concurrency p =? 0)%Z
           && negb (K8sgpt.max_concurrency p =? 10)%Z)%bool
       then ["--max-concurrency"; str_of_Z (K8sgpt.max_concurrency p)] else [])
   ++ (if truthy_str (K8sgpt.namespace p)
       then ["--namespace"; K8sgpt.str_or_empty (K8sgpt.namespace p)] else [])
   ++ (if K8sgpt.no_cache p then ["--no-cache"] else [])
   ++ ["--output"; "json"]
   ++ (if truthy_str (K8sgpt.selector p)
       then ["--selector"; K8sgpt.str_or_empty (K8sgpt.selector p)] else [])
   ++ (if K8sgpt.with_doc p then ["--with-doc"] else [])
   ++ ["--kubeconfig"; kubeconfig_path])%list.

(** A text without a colon, as the decimal of a user id is. *)
Fixpoint no_colon (s : string) : bool :=
  match s with
  | EmptyString => true
  | String c s' => (negb (Ascii.eqb c ":") && no_colon s')%bool
  end.

(** The payload of a dictionary returned by a fetch. *)
Definition payload (d : pydict) : res pyval := getitem d "result".

(** A request with other display options. *)
Definition with_display (a : bool) (o : string) (p : K8sgpt.AnalysisRequest)
  : K8sgpt.AnalysisRequest :=
  {| K8sgpt.anonymize := a; K8sgpt.backend := K8sgpt.backend p;
     K8sgpt.custom_analysis := K8sgpt.custom_analysis p;
     K8sgpt.custom_headers := K8sgpt.custom_headers p;
     K8sgpt.explain := K8sgpt.explain p;
     K8sgpt.filter_analyzers := K8sgpt.filter_analyzers p;
     K8sgpt.interactive := K8sgpt.interactive p; K8sgpt.language := K8sgpt.language p;
     K8sgpt.max_concurrency := K8sgpt.max_concurrency p;
     K8sgpt.namespace := K8sgpt.namespace p; K8sgpt.no_cache := K8sgpt.no_cache p;
     K8sgpt.output_format := o; K8sgpt.selector := K8sgpt.selector p;
     K8sgpt.with_doc := K8sgpt.with_doc p |}.

Definition is_dict (v : json) : bool :=
  match v with JDict _ => true | _ => false end.

(** The keys of an item of a response. *)
Definition item_keys : list string :=
  ["name"; "kind"; "namespace"; "status"; "severity"; "message"; "hint";
   "explanation"; "docs"].

(** The name a probe of [upload_kubeconfig] gives: what [execute_command]
    returns for the command, then [.get("stdout", "")] and [.strip()]. *)
Definition probed_name (run : Exec.world) (command : string) : res string :=
  result ← Exec.execute_command run command; Kubeconfig.stdout_stripped result.

(** A word of [str.split()]: not empty, no white character. *)
Fixpoint no_space (s : string) : bool :=
  match s with
  | EmptyString => true
  | String _ s' => ((white_at s =? 0)%nat && no_space s')%bool
  end.

Definition is_word (w : string) : bool :=
  (negb (String.eqb w "") && no_space w)%bool.

(** A credential whose file is a file of the upload directory, under the
    name the row bears. *)
Definition stored_under_upload_dir (k : Kubeconfig.Kubeconf) : Prop :=
  Kubeconfig.path k = path_join Kubeconfig.UPLOAD_DIR (Kubeconfig.filename k)
  /\ Credentials.listed_file (Kubeconfig.path k) = Some (Kubeconfig.filename k).

Definition credentials_inv (s : Kubeconfig.state) : Prop :=
  kubeconf_inv (Kubeconfig.kubeconfs s)
  /\ Forall stored_under_upload_dir (Kubeconfig.kubeconfs s).

(** *** Concrete inputs *)

Module Samples.

Definition request_in (ns : option string) : K8sgpt.AnalysisRequest :=
  {| K8sgpt.anonymize := false; K8sgpt.backend := None;
     K8sgpt.custom_analysis := false; K8sgpt.custom_headers := None;
     K8sgpt.explain := false; K8sgpt.filter_analyzers := None;
     K8sgpt.interactive := false; K8sgpt.language := "english";
     K8sgpt.max_concurrency := 10; K8sgpt.namespace := ns;
     K8sgpt.no_cache := false; K8sgpt.output_format := "text";
     K8sgpt.selector := None; K8sgpt.with_doc := false |}.

Definition some_path : string := "uploaded_kubeconfigs/abc.yaml".

(** A world in which [kubectl] prints a name, and one in which it fails. *)
Definition kubectl_prints (name : string) : Exec.world :=
  fun _ => Exec.Completed 0 name "" None.

Definition kubectl_fails : Exec.world :=
  fun _ => Exec.Completed 1 "" "error: invalid configuration" None.

(** U+00A0, the no-break space, in UTF-8. *)
Definition nbsp : string :=
  String (ascii_of_nat 194) (String (ascii_of_nat 160) EmptyString).

(** A world in which [kubectl] prints the JSON number 123. *)
Definition kubectl_prints_number : Exec.world :=
  fun _ => Exec.Completed 0 "123" "" (Some (JInt 123)).

(** A world in which [k8sgpt] reports one problem. *)
Definition one_problem : json :=
  JList [JDict [("name", JStr "default/web"); ("kind", JStr "Pod")]].

Definition k8sgpt_reports : Exec.world :=
  fun _ => Exec.Completed 0 "[...]" "" (Some one_problem).

(** Two owners, the second holding the credential [a.yaml]. *)
Definition cred (pk uid : Z) (fname : string) (flag : bool) : Kubeconfig.Kubeconf :=
  {| Kubeconfig.kc_id := pk; Kubeconfig.filename := fname;
     Kubeconfig.original_filename := "config"; Kubeconfig.user_id := uid;
     Kubeconfig.active := flag;
     Kubeconfig.path := path_join Kubeconfig.UPLOAD_DIR fname;
     Kubeconfig.cluster_name := Some "prod"; Kubeconfig.context_name := Some "prod";
     Kubeconfig.is_operator_installed := false;
     Kubeconfig.created_at := 0; Kubeconfig.updated_at := 0 |}.

Definition two_owners : Kubeconfig.state :=
  {| Kubeconfig.kubeconfs := [cred 1 1 "a.yaml" true; cred 2 2 "b.yaml" true;
                               cred 3 1 "c.yaml" false];
     Kubeconfig.disk := {[ "uploaded_kubeconfigs/c.yaml" := "apiVersion: v1" ]} |}.

(** The row an upload stores. *)
Definition uploaded (pk : Z) (uuid fname cluster : string) (now uid : Z)
  : Kubeconfig.Kubeconf :=
  {| Kubeconfig.kc_id := pk;
     Kubeconfig.filename := uuid ++ splitext_ext fname;
     Kubeconfig.original_filename := fname; Kubeconfig.user_id := uid;
     Kubeconfig.active := false;
     Kubeconfig.path := path_join Kubeconfig.UPLOAD_DIR (uuid ++ splitext_ext fname);
     Kubeconfig.cluster_name := Some cluster; Kubeconfig.context_name := Some cluster;
     Kubeconfig.is_operator_installed := false;
     Kubeconfig.created_at := now; Kubeconfig.updated_at := now |}.

(** Owner 1 uploaded two credentials and activated the first. *)
Definition uploaded_twice : Kubeconfig.state :=
  snd (Kubeconfig.set_active_kubeconfig "u-1.yaml" 1
         (snd (Kubeconfig.upload_kubeconfig (kubectl_prints "test") "u-2" 1
                 Kubeconfig.Written None "b.yaml" "apiVersion: v1" 1
                 (snd (Kubeconfig.upload_kubeconfig (kubectl_prints "prod") "u-1" 0
                         Kubeconfig.Written None "a.yaml" "apiVersion: v1" 1
                         Kubeconfig.init))))).

Definition bconf (pk uid : Z) (name : string) (flag : bool) : K8sgpt.AIBackendConfig :=
  {| K8sgpt.bc_id := pk; K8sgpt.bc_user_id := uid; K8sgpt.backend_name := name;
     K8sgpt.is_default := flag; K8sgpt.config_json := json_dumps (JDict []);
     K8sgpt.bc_created_at := 0; K8sgpt.bc_updated_at := 0 |}.

(** Owner 1 ran one analysis at time 0, with the fast tier up. *)
Definition after_analysis : K8sgpt.state :=
  snd (K8sgpt.run_k8sgpt_analysis (Ok (some_path, "prod")) true k8sgpt_reports
         true "r-1" 0 1 (request_in None) K8sgpt.init).

(** The row that analysis stored. *)
Definition stored_row : K8sgpt.AnalysisResult :=
  {| K8sgpt.ar_id := 1; K8sgpt.ar_user_id := 1; K8sgpt.ar_cluster_name := "prod";
     K8sgpt.ar_namespace := None; K8sgpt.result_id := "r-1";
     K8sgpt.result_json := json_dumps one_problem; K8sgpt.ar_created_at := 0;
     K8sgpt.ar_parameters := json_dumps (K8sgpt.parameters_dict (request_in None)) |}.

Definition with_two_backends : K8sgpt.state :=
  K8sgpt.with_backends [bconf 1 1 "openai" true; bconf 2 2 "openai" false;
                        bconf 3 1 "localai" false] K8sgpt.init.

End Samples.

(** * Properties *)

Local Open Scope list_scope.

(** ** The command executor *)

(** C1, evaluated on the code.  The property: a namespace holding shell
    metacharacters reaches the external program as one literal token and
    the argument count is what it is for any other namespace.  What the
    code does with the namespace [; rm -rf /]: the value is appended to the
    command string and [shlex.split] cuts that string at white space, so
    the program is started with eleven arguments, four of them from the
    value, where a plain namespace gives eight. *)
Theorem analyze_argv_splits_namespace :
  Exec.shlex_split
    (K8sgpt.analyze_command (Samples.request_in (Some "; rm -rf /")) Samples.some_path)
  = Ok ["k8sgpt"; "analyze"; "--namespace"; ";"; "rm"; "-rf"; "/";
        "--output"; "json"; "--kubeconfig"; "uploaded_kubeconfigs/abc.yaml"]
  /\ Exec.shlex_split
       (K8sgpt.analyze_command (Samples.request_in (Some "default")) Samples.some_path)
     = Ok ["k8sgpt"; "analyze"; "--namespace"; "default";
           "--output"; "json"; "--kubeconfig"; "uploaded_kubeconfigs/abc.yaml"].
Proof. split; reflexivity. Qed.

(** What does hold of the executor: words that are plain come out of
    [shlex.split] as they went in. *)
Section ExecFacts.
Import Exec.

Lemma append_cons (c : ascii) (a b : string) :
  (String c a ++ b)%string = String c (a ++ b)%string.
Proof. reflexivity. Qed.

Lemma append_assoc (a b c : string) : ((a ++ b) ++ c)%string = (a ++ (b ++ c))%string.
Proof.
  induction a as [|x a IH]; [reflexivity|]. rewrite !append_cons. now f_equal.
Qed.

Lemma append_nil_r (a : string) : (a ++ "")%string = a.
Proof.
  induction a as [|x a IH]; [reflexivity|]. rewrite append_cons. now f_equal.
Qed.

Lemma plain_char_cases c :
  plain_char c = true ->
  is_whitespace c = false /\ is_quote c = false /\ is_escape c = false.
Proof.
  unfold plain_char. rewrite negb_true_iff, !orb_false_iff. tauto.
Qed.

(** Inside a word, plain characters are appended to the token. *)
Lemma lex_plain_chars w rest tok quoted acc :
  plain_chars w = true ->
  lex (w ++ rest)%string St_word tok quoted acc
  = lex rest St_word (tok ++ w)%string quoted acc.
Proof.
  revert tok. induction w as [|c w IH]; intros tok H.
  - now rewrite append_nil_r.
  - cbn [plain_chars] in H. apply andb_true_iff in H as [Hc Hw].
    apply plain_char_cases in Hc as (H1 & H2 & H3).
    rewrite append_cons. cbn [lex]. rewrite H1, H2, H3, (IH _ Hw). unfold push.
    now rewrite append_assoc.
Qed.

(** A plain word met between words starts a token and fills it. *)
Lemma lex_plain_word w rest acc :
  plain w = true ->
  lex (w ++ rest)%string St_ws "" false acc = lex rest St_word w false acc.
Proof.
  unfold plain. intros H. apply andb_true_iff in H as [Hne Hw].
  destruct w as [|c w]; [discriminate|].
  cbn [plain_chars] in Hw. apply andb_true_iff in Hw as [Hc Hw].
  apply plain_char_cases in Hc as (H1 & H2 & H3).
  rewrite append_cons. cbn [lex]. rewrite H1, H2, H3.
  now rewrite (lex_plain_chars w rest (String c "") false acc Hw).
Qed.

(** A space after a word closes the token. *)
Lemma lex_space_after w rest acc :
  plain w = true ->
  lex (String " " rest) St_word w false acc = lex rest St_ws "" false (w :: acc).
Proof.
  unfold plain. intros H. apply andb_true_iff in H as [Hne _].
  cbn [lex]. change (is_whitespace " ") with true. cbn [orb]. now rewrite Hne.
Qed.

Lemma snoc_words_app command l1 l2 :
  snoc_words command (l1 ++ l2) = snoc_words (snoc_words command l1) l2.
Proof. apply List.fold_left_app. Qed.

Lemma snoc_words_from command ws :
  snoc_words command ws = (command ++ snoc_words "" ws)%string.
Proof.
  unfold snoc_words. revert command.
  induction ws as [|z ws IH]; intros command; cbn [fold_left].
  - now rewrite append_nil_r.
  - rewrite (IH (command ++ " " ++ z)%string), (IH ("" ++ " " ++ z)%string).
    now rewrite !append_assoc.
Qed.

Lemma snoc_words_cons command x ws :
  snoc_words command (x :: ws)
  = (command ++ String " " (x ++ snoc_words "" ws))%string.
Proof.
  rewrite snoc_words_from. f_equal.
  change (snoc_words "" (x :: ws)) with (snoc_words (String " " x) ws).
  rewrite snoc_words_from. apply append_cons.
Qed.

(** The words of a command are its tokens. *)
Lemma lex_snoc_words ws w acc :
  plain w = true -> forallb plain ws = true ->
  lex (snoc_words "" ws) St_word w false acc = Ok (rev acc ++ w :: ws).
Proof.
  revert w acc. induction ws as [|x ws IH]; intros w acc Hw Hws.
  - cbn. unfold plain in Hw. apply andb_true_iff in Hw as [-> _]. reflexivity.
  - cbn [forallb] in Hws. apply andb_true_iff in Hws as [Hx Hws].
    rewrite snoc_words_cons. change ("" ++ ?t)%string with t.
    rewrite (lex_space_after w _ acc Hw), (lex_plain_word x _ _ Hx), (IH x _ Hx Hws).
    cbn [rev]. now rewrite <- List.app_assoc.
Qed.

Lemma shlex_split_words w ws :
  forallb plain (w :: ws) = true -> shlex_split (snoc_words w ws) = Ok (w :: ws).
Proof.
  cbn [forallb]. intros H. apply andb_true_iff in H as [Hw Hws].
  unfold shlex_split. rewrite snoc_words_from, (lex_plain_word w _ [] Hw).
  exact (lex_snoc_words ws w [] Hw Hws).
Qed.

(** The steps of a command builder, as words. *)
Lemma step_if cond suffix ws command command' :
  suffix = snoc_words "" ws -> command = command' ->
  K8sgpt.append_if cond suffix command
  = snoc_words command' (if cond then ws else []).
Proof.
  intros -> <-. unfold K8sgpt.append_if. destruct cond; [|reflexivity].
  symmetry. apply snoc_words_from.
Qed.

Lemma step_always suffix ws command command' :
  suffix = snoc_words "" ws -> command = command' ->
  (command ++ suffix)%string = snoc_words command' ws.
Proof. intros -> <-. symmetry. apply snoc_words_from. Qed.

Lemma step_each (flag : string) vs command command' :
  command = command' ->
  fold_left (fun command v => (command ++ String " " (flag ++ String " " v))%string)
    vs command
  = snoc_words command' (flat_map (fun v => [flag; v]) vs).
Proof.
  intros <-. revert command. induction vs as [|v vs IH]; intros command; [reflexivity|].
  cbn [fold_left flat_map]. rewrite IH.
  change (snoc_words command ([flag; v] ++ flat_map (fun v => [flag; v]) vs))
    with (snoc_words ((command ++ " " ++ flag) ++ " " ++ v)
            (flat_map (fun v => [flag; v]) vs)).
  now rewrite append_assoc.
Qed.

Lemma analyze_command_words p kubeconfig_path :
  K8sgpt.analyze_command p kubeconfig_path
  = snoc_words "k8sgpt" ("analyze" :: analyze_words p kubeconfig_path).
Proof.
  unfold analyze_words.
  change (snoc_words "k8sgpt" ("analyze" :: ?l)) with (snoc_words "k8sgpt analyze" l).
  rewrite !snoc_words_app.
  unfold K8sgpt.analyze_command. cbv zeta.
  apply step_always; [reflexivity|].
  apply step_if; [reflexivity|].
  apply step_if; [reflexivity|].
  apply step_always; [reflexivity|].
  apply step_if; [reflexivity|].
  apply step_if; [reflexivity|].
  apply step_if; [reflexivity|].
  apply step_if; [reflexivity|].
  apply step_if; [reflexivity|].
  apply (step_each "--filter").
  apply step_if; [reflexivity|].
  apply (step_each "--custom-headers").
  apply step_if; [reflexivity|].
  apply step_if; [reflexivity|].
  reflexivity.
Qed.

End ExecFacts.

(** X1.  When every value is a plain word, the program is started with
    exactly the flags and values of the request, each value one
    argument. *)
Theorem analyze_argv_of_plain_values
    (p : K8sgpt.AnalysisRequest) (kubeconfig_path : string) :
  forallb plain (analyze_words p kubeconfig_path) = true ->
  Exec.shlex_split (K8sgpt.analyze_command p kubeconfig_path)
  = Ok ("k8sgpt" :: "analyze" :: analyze_words p kubeconfig_path).
Proof.
  intros H. rewrite analyze_command_words. apply shlex_split_words.
  cbn [forallb]. now rewrite H.
Qed.

(** ** The single-flag primitive *)

Lemma max_bound (l : list Z) (x : Z) : In x l -> x <= fold_right Z.max 0 l.
Proof.
  induction l as [|y l IH]; simpl; [tauto|].
  intros [->|H]; [lia|]. specialize (IH H). lia.
Qed.

Lemma nodup_snoc {A : Type} (l : list A) (x : A) :
  List.NoDup l -> ~ In x l -> List.NoDup (l ++ [x]).
Proof.
  induction l as [|y l IH]; cbn; intros Hl Hx.
  - constructor; [tauto|constructor].
  - apply List.NoDup_cons_iff in Hl as [Hy Hl]. constructor.
    + rewrite List.in_app_iff. cbn. intros [H|[H|[]]]; [tauto|]. apply Hx. now left.
    + apply IH; tauto.
Qed.

Lemma nodup_map_filter {A B : Type} (f : A -> B) (keep : A -> bool) rows :
  List.NoDup (map f rows) -> List.NoDup (map f (List.filter keep rows)).
Proof.
  induction rows as [|k rows IH]; [trivial|].
  cbn [map List.filter]. intros H. apply List.NoDup_cons_iff in H as [Hk H].
  destruct (keep k); [|now apply IH].
  cbn [map]. apply List.NoDup_cons; [|now apply IH].
  intros Hin. apply Hk. apply List.in_map_iff in Hin as (x & Hx & Hin).
  apply List.filter_In in Hin as [Hin _]. apply List.in_map_iff. eauto.
Qed.

Lemma primary_key_filter {A : Type} (pk : A -> Z) (keep : A -> bool) rows :
  primary_key pk rows -> primary_key pk (List.filter keep rows).
Proof. apply nodup_map_filter. Qed.

(** Two rows of a table with the same key are the same row. *)
Lemma nodup_map_inj {A B : Type} (f : A -> B) rows a a' :
  List.NoDup (map f rows) -> In a rows -> In a' rows -> f a = f a' -> a = a'.
Proof.
  induction rows as [|k rows IH]; cbn [map In]; [tauto|].
  intros H. apply List.NoDup_cons_iff in H as [Hk H].
  intros [->|Ha] [->|Ha'] E; auto.
  - destruct Hk. rewrite E. now apply List.in_map.
  - destruct Hk. rewrite <- E. now apply List.in_map.
Qed.

(** At most one row has a given key. *)
Lemma nodup_key_once {A B : Type} (f : A -> B) (is_key : A -> bool) (k : B) rows :
  List.NoDup (map f rows) -> (forall a, is_key a = true -> f a = k) ->
  (length (List.filter is_key rows) <= 1)%nat.
Proof.
  intros Hnd Hkey. induction rows as [|a rows IH]; [cbn; lia|].
  cbn [map] in Hnd. apply List.NoDup_cons_iff in Hnd as [Ha Hnd].
  cbn [List.filter]. destruct (is_key a) eqn:E; [|now apply IH].
  assert (List.filter is_key rows = []) as ->; [|cbn; lia].
  destruct (List.filter is_key rows) as [|x l] eqn:Ef; [reflexivity|].
  assert (In x (List.filter is_key rows)) as Hx by (rewrite Ef; now left).
  apply List.filter_In in Hx as [Hx Hkx]. destruct Ha.
  rewrite (Hkey a E), <- (Hkey x Hkx). now apply List.in_map.
Qed.

Lemma filter_length_le {A : Type} (f g : A -> bool) rows :
  (forall a, In a rows -> f a = true -> g a = true) ->
  (length (List.filter f rows) <= length (List.filter g rows))%nat.
Proof.
  induction rows as [|a rows IH]; [reflexivity|].
  intros H. cbn [List.filter].
  assert (length (List.filter f rows) <= length (List.filter g rows))%nat as IH'
    by (apply IH; intros; apply H; [now right|assumption]).
  destruct (f a) eqn:Ef.
  - rewrite (H a (or_introl eq_refl) Ef). cbn [length]. lia.
  - destruct (g a); cbn [length]; lia.
Qed.

Section SingleFlag.
Context {A : Type} (pk owner : A -> Z) (flag : A -> bool) (set_flag : bool -> A -> A).
Hypothesis pk_set : forall b a, pk (set_flag b a) = pk a.
Hypothesis owner_set : forall b a, owner (set_flag b a) = owner a.
Hypothesis flag_set : forall b a, flag (set_flag b a) = b.
Hypothesis set_set : forall b b' a, set_flag b (set_flag b' a) = set_flag b a.

Local Abbreviation clear := (clear_owner owner set_flag).
Local Abbreviation set_key := (set_by_key pk set_flag).
Local Abbreviation flagged := (flagged_of owner flag).

Lemma flagged_cons uid a rows :
  flagged uid (a :: rows)
  = if ((owner a =? uid)%Z && flag a)%bool then a :: flagged uid rows else flagged uid rows.
Proof. reflexivity. Qed.

Lemma flagged_app uid l1 l2 : flagged uid (l1 ++ l2) = flagged uid l1 ++ flagged uid l2.
Proof. apply List.filter_app. Qed.

Lemma clear_cons uid a rows :
  clear uid (a :: rows)
  = (if (owner a =? uid)%Z then set_flag false a else a) :: clear uid rows.
Proof. reflexivity. Qed.

Lemma clear_app uid l1 l2 : clear uid (l1 ++ l2) = clear uid l1 ++ clear uid l2.
Proof. apply List.map_app. Qed.

Lemma clear_keys uid rows : map pk (clear uid rows) = map pk rows.
Proof.
  unfold clear_owner. rewrite List.map_map. apply List.map_ext.
  intros a. destruct (owner a =? uid)%Z; [apply pk_set|reflexivity].
Qed.

Lemma flagged_clear uid rows : flagged uid (clear uid rows) = [].
Proof.
  induction rows as [|a rows IH]; [reflexivity|].
  rewrite clear_cons, flagged_cons, IH.
  destruct (owner a =? uid)%Z eqn:E.
  - now rewrite flag_set, andb_false_r.
  - now rewrite E.
Qed.

Lemma flagged_clear_other uid uid' rows :
  uid' <> uid -> flagged uid' (clear uid rows) = flagged uid' rows.
Proof.
  intros Hne. induction rows as [|a rows IH]; [reflexivity|].
  rewrite clear_cons, !flagged_cons, IH.
  destruct (Z.eqb_spec (owner a) uid) as [E|E]; [|reflexivity].
  rewrite owner_set.
  assert ((owner a =? uid')%Z = false) as -> by (apply Z.eqb_neq; lia).
  reflexivity.
Qed.

Lemma set_key_absent key b rows : ~ In key (map pk rows) -> set_key key b rows = rows.
Proof.
  unfold set_by_key.
  induction rows as [|a rows IH]; [reflexivity|].
  cbn [map In]. intros H.
  destruct (Z.eqb_spec (pk a) key) as [E|_]; [tauto|].
  f_equal. apply IH. tauto.
Qed.

Lemma set_key_split b l1 t l2 :
  primary_key pk (l1 ++ t :: l2) ->
  set_key (pk t) b (l1 ++ t :: l2) = l1 ++ set_flag b t :: l2.
Proof.
  unfold primary_key. rewrite List.map_app. cbn [map]. intros H.
  apply List.NoDup_remove in H as [_ H]. rewrite List.in_app_iff in H.
  unfold set_by_key. rewrite List.map_app. cbn [map]. rewrite Z.eqb_refl.
  fold (set_key (pk t) b l1). fold (set_key (pk t) b l2).
  rewrite !set_key_absent by tauto. reflexivity.
Qed.

(** The table after the primitive: the owner's rows cleared, the target
    set, every row where it was. *)
Lemma activate_split uid l1 t l2 :
  primary_key pk (l1 ++ t :: l2) ->
  activate pk owner set_flag uid t (l1 ++ t :: l2)
  = clear uid l1 ++ set_flag true t :: clear uid l2.
Proof.
  intros Hpk. unfold activate. rewrite clear_app, clear_cons.
  set (t' := if (owner t =? uid)%Z then set_flag false t else t).
  assert (pk t' = pk t) as Hid
    by (unfold t'; destruct (owner t =? uid)%Z; [apply pk_set|reflexivity]).
  assert (set_flag true t' = set_flag true t) as <-
    by (unfold t'; destruct (owner t =? uid)%Z; [apply set_set|reflexivity]).
  rewrite <- Hid. apply set_key_split.
  unfold primary_key. rewrite List.map_app. cbn [map]. rewrite !clear_keys, Hid.
  unfold primary_key in Hpk. now rewrite List.map_app in Hpk.
Qed.

Lemma activate_keys uid t rows :
  primary_key pk rows -> In t rows ->
  map pk (activate pk owner set_flag uid t rows) = map pk rows.
Proof.
  intros Hpk Hin. destruct (List.in_split _ _ Hin) as (l1 & l2 & ->).
  rewrite activate_split by exact Hpk.
  rewrite !List.map_app. cbn [map]. now rewrite !clear_keys, pk_set.
Qed.

Lemma activate_flagged uid t rows :
  primary_key pk rows -> In t rows -> owner t = uid ->
  flagged uid (activate pk owner set_flag uid t rows) = [set_flag true t].
Proof.
  intros Hpk Hin Hown. destruct (List.in_split _ _ Hin) as (l1 & l2 & ->).
  rewrite activate_split by exact Hpk.
  rewrite flagged_app, flagged_cons, !flagged_clear.
  now rewrite owner_set, flag_set, Hown, Z.eqb_refl.
Qed.

Lemma activate_flagged_other uid uid' t rows :
  primary_key pk rows -> In t rows -> owner t = uid -> uid' <> uid ->
  flagged uid' (activate pk owner set_flag uid t rows) = flagged uid' rows.
Proof.
  intros Hpk Hin Hown Hne. destruct (List.in_split _ _ Hin) as (l1 & l2 & ->).
  rewrite activate_split by exact Hpk.
  rewrite !flagged_app, !flagged_cons, !flagged_clear_other by exact Hne.
  rewrite owner_set.
  assert ((owner t =? uid')%Z = false) as -> by (apply Z.eqb_neq; lia).
  reflexivity.
Qed.

(** The frame: a row of another owner is, at its place, what it was. *)
Lemma clear_frame uid rows :
  Forall2 (fun a a' => owner a <> uid -> a' = a) rows (clear uid rows).
Proof.
  induction rows as [|a rows IH]; [constructor|].
  rewrite clear_cons. constructor; [|exact IH].
  destruct (Z.eqb_spec (owner a) uid); tauto.
Qed.

Lemma activate_frame uid t rows :
  primary_key pk rows -> In t rows -> owner t = uid ->
  Forall2 (fun a a' => owner a <> uid -> a' = a) rows
    (activate pk owner set_flag uid t rows).
Proof.
  intros Hpk Hin Hown. destruct (List.in_split _ _ Hin) as (l1 & l2 & ->).
  rewrite activate_split by exact Hpk.
  apply List.Forall2_app; [apply clear_frame|].
  constructor; [tauto|apply clear_frame].
Qed.

Lemma flagged_filter_le uid keep rows :
  (length (flagged uid (List.filter keep rows)) <= length (flagged uid rows))%nat.
Proof.
  induction rows as [|a rows IH]; [reflexivity|].
  cbn [List.filter]. destruct (keep a); rewrite !flagged_cons;
    destruct (_ && _)%bool; cbn [length]; lia.
Qed.

(** Clearing flags, on whatever rows, does not add flagged rows. *)
Lemma flagged_cleared_le uid (sel : A -> bool) rows :
  (length (flagged uid (map (fun a => if sel a then set_flag false a else a) rows))
   <= length (flagged uid rows))%nat.
Proof.
  induction rows as [|a rows IH]; [reflexivity|].
  cbn [map]. rewrite !flagged_cons.
  destruct (sel a); rewrite ?owner_set, ?flag_set, ?andb_false_r;
    destruct (_ && _)%bool; cbn [length]; lia.
Qed.

Lemma cleared_keys (sel : A -> bool) rows :
  map pk (map (fun a => if sel a then set_flag false a else a) rows) = map pk rows.
Proof.
  rewrite List.map_map. apply List.map_ext. intros a.
  destruct (sel a); [apply pk_set|reflexivity].
Qed.

Lemma flagged_snoc_unflagged uid a rows :
  flag a = false -> flagged uid (rows ++ [a]) = flagged uid rows.
Proof.
  intros H. rewrite flagged_app, flagged_cons, H, andb_false_r. apply List.app_nil_r.
Qed.

(** A column the flag setter does not write is not changed by the
    primitive. *)
Lemma activate_column {B : Type} (col : A -> B) uid t rows :
  (forall b a, col (set_flag b a) = col a) ->
  map col (activate pk owner set_flag uid t rows) = map col rows.
Proof.
  intros Hcol. unfold activate, set_by_key, clear_owner.
  rewrite !List.map_map. apply List.map_ext. intros a.
  destruct (owner a =? uid)%Z; destruct (pk _ =? pk t)%Z; now rewrite ?Hcol.
Qed.

(** A rewriting of rows that keeps the owner and never raises a flag. *)
Lemma flagged_map_le uid (g : A -> A) rows :
  (forall a, In a rows -> owner (g a) = owner a /\ (flag (g a) = true -> flag a = true)) ->
  (length (flagged uid (map g rows)) <= length (flagged uid rows))%nat.
Proof.
  induction rows as [|a rows IH]; [reflexivity|].
  intros H. cbn [map]. rewrite !flagged_cons.
  assert (length (flagged uid (map g rows)) <= length (flagged uid rows))%nat as IH'
    by (apply IH; intros; apply H; now right).
  destruct (H a (or_introl eq_refl)) as [-> Hf].
  destruct (owner a =? uid)%Z; cbn [andb]; [|exact IH'].
  destruct (flag (g a)); [rewrite Hf by reflexivity|destruct (flag a)];
    cbn [length]; lia.
Qed.

(** A rewriting of rows that touches only rows of [uid] leaves the
    flagged rows of everybody else alone. *)
Lemma flagged_map_other uid uid' (g : A -> A) rows :
  uid' <> uid ->
  (forall a, In a rows -> owner (g a) = owner a /\ (owner a <> uid -> g a = a)) ->
  flagged uid' (map g rows) = flagged uid' rows.
Proof.
  intros Hne. induction rows as [|a rows IH]; [reflexivity|].
  intros H. cbn [map]. rewrite !flagged_cons, IH by (intros; apply H; now right).
  destruct (H a (or_introl eq_refl)) as [Ho Hg]. rewrite Ho.
  destruct (Z.eqb_spec (owner a) uid') as [E|E]; [|reflexivity].
  rewrite Hg by lia. reflexivity.
Qed.

End SingleFlag.

(** ** The credential store *)

Section KubeconfigFacts.
Import Kubeconfig.

Local Abbreviation kc_activate := (activate kc_id user_id with_active).

Lemma next_id_fresh rows : ~ In (next_id rows) (map kc_id rows).
Proof.
  intros H. apply max_bound in H. unfold next_id in H. lia.
Qed.

Lemma lookup_kubeconf_owner fname uid rows t :
  lookup_kubeconf fname uid rows = Some t ->
  In t rows /\ filename t = fname /\ user_id t = uid.
Proof.
  intros H. destruct (List.find_some _ _ H) as [Hin Hb].
  unfold owned_by_name in Hb. apply andb_true_iff in Hb as [Hf Hu].
  apply String.eqb_eq in Hf. apply Z.eqb_eq in Hu. auto.
Qed.

Lemma lookup_kubeconf_none fname uid rows :
  (forall k, In k rows -> filename k = fname -> user_id k <> uid) ->
  lookup_kubeconf fname uid rows = None.
Proof.
  intros H. unfold lookup_kubeconf.
  destruct (find _ rows) as [t|] eqn:E; [|reflexivity].
  apply lookup_kubeconf_owner in E as (Hin & Hf & Hu).
  now destruct (H t Hin Hf).
Qed.

(** A successful activation is the primitive on the row looked up. *)
Lemma set_active_found fname uid s t :
  lookup_kubeconf fname uid (kubeconfs s) = Some t ->
  set_active_kubeconfig fname uid s
  = (Ok ("Kubeconfig '" ++ fname ++ "' set as active")%string,
     with_rows (kc_activate uid t (kubeconfs s)) s).
Proof. intros H. unfold set_active_kubeconfig. now rewrite H. Qed.

Lemma set_active_missing fname uid s :
  lookup_kubeconf fname uid (kubeconfs s) = None ->
  set_active_kubeconfig fname uid s
  = (Raise (HTTPException 404 ("Kubeconfig '" ++ fname ++ "' not found")%string), s).
Proof. intros H. unfold set_active_kubeconfig. now rewrite H. Qed.

(** What an upload does, whatever the world answers: either a row with
    a fresh key and no flag is appended, the file holding the bytes, or
    the request fails with status 500 and the table is as before. *)
Lemma upload_cases run uuid now save commit_error fn content uid s :
  let file_path := path_join UPLOAD_DIR (uuid ++ splitext_ext fn)%string in
  let out := upload_kubeconfig run uuid now save commit_error fn content uid s in
  disk (snd out)
  = match save with
    | Written => <[file_path := content]> (disk s)
    | OpenFailed _ => disk s
    | WriteFailed _ partial => <[file_path := partial]> (disk s)
    end
  /\ match fst out with
     | Ok k =>
         save = Written /\ commit_error = None
         /\ kubeconfs (snd out) = kubeconfs s ++ [k]
         /\ kc_id k = next_id (kubeconfs s)
         /\ user_id k = uid /\ active k = false /\ path k = file_path
         /\ filename k = (uuid ++ splitext_ext fn)%string
         /\ original_filename k = fn /\ is_operator_installed k = false
         /\ exists result1 result2 cluster context,
              Exec.execute_command run (probe_cluster_command file_path) = Ok result1
              /\ stdout_stripped result1 = Ok cluster
              /\ Exec.execute_command run (probe_context_command file_path) = Ok result2
              /\ stdout_stripped result2 = Ok context
              /\ cluster_name k = Some cluster /\ context_name k = Some context
     | Raise e =>
         (exists detail, e = HTTPException 500 detail)
         /\ kubeconfs (snd out) = kubeconfs s
     end.
Proof.
  cbv zeta. unfold upload_kubeconfig.
  set (file_path := path_join UPLOAD_DIR (uuid ++ splitext_ext fn)%string).
  destruct save as [|e0|e0 partial]; cbn; [|eauto|eauto].
  destruct (Exec.execute_command run (probe_cluster_command file_path))
    as [result1|e1] eqn:E1; cbn; [|eauto].
  destruct (stdout_stripped result1) as [cluster|e2] eqn:E2; cbn; [|eauto].
  destruct (Exec.execute_command run (probe_context_command file_path))
    as [result2|e3] eqn:E3; cbn; [|eauto].
  destruct (stdout_stripped result2) as [context|e4] eqn:E4; cbn; [|eauto].
  destruct commit_error as [e5|]; cbn; [eauto|].
  split; [reflexivity|]. repeat (split; [reflexivity|]).
  exists result1, result2, cluster, context. auto 10.
Qed.

Lemma kubeconf_inv_step s o :
  kubeconf_inv (kubeconfs s) -> kubeconf_inv (kubeconfs (step s o)).
Proof.
  intros [Hpk Hone].
  destruct o as [run uuid now save cerr fn content uid|fn uid|fn uid err| |p];
    cbn [step].
  - pose proof (upload_cases run uuid now save cerr fn content uid s) as [_ H].
    cbv zeta in H.
    destruct (fst (upload_kubeconfig run uuid now save cerr fn content uid s)) as [k|e].
    + destruct H as (_ & _ & -> & Hid & _ & Hact & _). split.
      * unfold primary_key. rewrite List.map_app. cbn [map].
        rewrite Hid. apply nodup_snoc; [exact Hpk|apply next_id_fresh].
      * intros u. unfold active_of.
        rewrite (flagged_snoc_unflagged user_id active u k _ Hact). apply Hone.
    + destruct H as [_ ->]. split; assumption.
  - destruct (lookup_kubeconf fn uid (kubeconfs s)) as [t|] eqn:E.
    + rewrite (set_active_found _ _ _ _ E).
      apply lookup_kubeconf_owner in E as (Hin & _ & Hu).
      cbn [snd with_rows kubeconfs]. split.
      * unfold primary_key. now rewrite activate_keys.
      * intros u. destruct (Z.eq_dec u uid) as [->|Hne].
        -- unfold active_of.
           rewrite (activate_flagged kc_id user_id active with_active) by auto.
           cbn. lia.
        -- unfold active_of.
           rewrite (activate_flagged_other kc_id user_id active with_active)
             by auto.
           apply Hone.
    + rewrite (set_active_missing _ _ _ E). split; assumption.
  - unfold remove_kubeconfig.
    destruct (lookup_kubeconf fn uid (kubeconfs s)) as [t|]; [|split; assumption].
    assert (kubeconf_inv (delete_row (kc_id t) (kubeconfs s))) as Hdel.
    { split; [now apply primary_key_filter|].
      intros u. etransitivity; [apply flagged_filter_le|apply Hone]. }
    destruct (negb (path_exists s (path t))); [exact Hdel|].
    destruct err; [split; assumption|exact Hdel].
  - cbn [validate_kubeconfigs with_rows kubeconfs]. split.
    + unfold primary_key.
      now rewrite (cleared_keys kc_id with_active (fun b a => eq_refl)
                     (fun k => negb (path_exists s (path k)))).
    + intros u. etransitivity; [|apply Hone].
      apply (flagged_cleared_le user_id active with_active
               (fun b a => eq_refl) (fun b a => eq_refl) u
               (fun k => negb (path_exists s (path k)))).
  - split; assumption.
Qed.

Lemma kubeconf_inv_run ops s :
  kubeconf_inv (kubeconfs s) -> kubeconf_inv (kubeconfs (run_ops ops s)).
Proof.
  revert s. induction ops as [|o ops IH]; intros s H; [exact H|].
  cbn. apply IH. now apply kubeconf_inv_step.
Qed.

Lemma kubeconf_inv_init : kubeconf_inv (kubeconfs init).
Proof. split; [constructor|]. intros u. cbn. lia. Qed.

End KubeconfigFacts.

(** ** The backend registry *)

Section BackendFacts.
Import K8sgpt.

Local Abbreviation bc_activate := (activate bc_id bc_user_id with_default).
Local Abbreviation bc_key := (fun b => (bc_user_id b, backend_name b)).

Lemma next_backend_pk_fresh rows : ~ In (next_backend_pk rows) (map bc_id rows).
Proof.
  intros H. apply max_bound in H. unfold next_backend_pk in H. lia.
Qed.

Lemma find_backend_owner uid name rows b :
  find (owns_backend uid name) rows = Some b ->
  In b rows /\ bc_user_id b = uid /\ backend_name b = name.
Proof.
  intros H. destruct (List.find_some _ _ H) as [Hin Hb].
  unfold owns_backend in Hb. apply andb_true_iff in Hb as [Hu Hn].
  apply String.eqb_eq in Hn. apply Z.eqb_eq in Hu. auto.
Qed.

Lemma find_backend_none uid name rows :
  (forall b, In b rows -> backend_name b = name -> bc_user_id b <> uid) ->
  find (owns_backend uid name) rows = None.
Proof.
  intros H. destruct (find _ rows) as [b|] eqn:E; [|reflexivity].
  apply find_backend_owner in E as (Hin & Hu & Hn). now destruct (H b Hin Hn).
Qed.

Lemma find_backend_none_key uid name rows :
  find (owns_backend uid name) rows = None -> ~ In (uid, name) (map bc_key rows).
Proof.
  intros H Hin. apply List.in_map_iff in Hin as (b & Hk & Hin).
  apply (List.find_none _ _ H) in Hin. injection Hk as Hu Hn.
  unfold owns_backend in Hin. now rewrite Hu, Hn, Z.eqb_refl, String.eqb_refl in Hin.
Qed.

Lemma set_default_found uid name s b :
  find (owns_backend uid name) (backends s) = Some b ->
  set_default_ai_backend uid name s
  = (Ok true, with_backends (bc_activate uid b (backends s)) s).
Proof. intros H. unfold set_default_ai_backend. now rewrite H. Qed.

Lemma set_default_missing uid name s :
  find (owns_backend uid name) (backends s) = None ->
  set_default_ai_backend uid name s = (Raise (backend_not_found name), s).
Proof. intros H. unfold set_default_ai_backend. now rewrite H. Qed.

(** The flagged rows of an owner all bear one name: there is at most one. *)
Lemma default_of_named uid name rows :
  List.NoDup (map bc_key rows) ->
  (forall b, In b rows -> bc_user_id b = uid -> is_default b = true ->
             backend_name b = name) ->
  (length (default_of uid rows) <= 1)%nat.
Proof.
  intros Hnd Hname. etransitivity.
  - apply (filter_length_le _ (owns_backend uid name)). intros b Hin Hb.
    apply andb_true_iff in Hb as [Hu Hd]. apply Z.eqb_eq in Hu.
    unfold owns_backend. rewrite Hu, Z.eqb_refl, (Hname b Hin Hu Hd).
    now rewrite String.eqb_refl.
  - apply (nodup_key_once bc_key _ (uid, name)); [exact Hnd|].
    intros b Hb. unfold owns_backend in Hb. apply andb_true_iff in Hb as [Hu Hn].
    apply Z.eqb_eq in Hu. apply String.eqb_eq in Hn. now rewrite Hu, Hn.
Qed.

Lemma put_config_columns pk c d b :
  bc_id (put_config pk c d b) = bc_id b /\ bc_key (put_config pk c d b) = bc_key b.
Proof. unfold put_config. now destruct (bc_id b =? pk)%Z. Qed.

Lemma clear_others_columns uid name b :
  bc_id (clear_others uid name b) = bc_id b
  /\ bc_key (clear_others uid name b) = bc_key b.
Proof. unfold clear_others. now destruct (_ && _)%bool. Qed.

Lemma clear_others_flag uid name b :
  bc_user_id b = uid -> is_default (clear_others uid name b) = true ->
  backend_name b = name.
Proof.
  unfold clear_others. intros ->. rewrite Z.eqb_refl. cbn [andb].
  destruct (String.eqb_spec (backend_name b) name); [trivial|discriminate].
Qed.

Lemma backend_inv_add now uid name default config s :
  backend_inv (backends s) ->
  backend_inv (backends (snd (add_ai_backend now uid name default config s))).
Proof.
  intros (Hpk & Hkey & Hone).
  unfold add_ai_backend. cbn [snd with_backends backends].
  set (new := {| bc_id := next_backend_pk (backends s); bc_user_id := uid;
                 backend_name := name; is_default := default;
                 config_json := json_dumps config;
                 bc_created_at := now; bc_updated_at := now |}).
  set (rows1 := match find (owns_backend uid name) (backends s) with
                | Some e => map (put_config (bc_id e) (json_dumps config) default)
                              (backends s)
                | None => backends s ++ [new]
                end).
  fold rows1.
  (* the table after the first statement *)
  assert (primary_key bc_id rows1 /\ List.NoDup (map bc_key rows1)
          /\ (forall u, u <> uid -> default_of u rows1 = default_of u (backends s))
          /\ (default = false -> (length (default_of uid rows1) <= 1)%nat))
    as (Hpk1 & Hkey1 & Hother1 & Hoff1).
  { unfold rows1. destruct (find _ (backends s)) as [e|] eqn:E.
    - apply find_backend_owner in E as (Hin & Hu & Hn).
      assert (map bc_id (map (put_config (bc_id e) (json_dumps config) default)
                           (backends s)) = map bc_id (backends s)) as Hids
        by (rewrite List.map_map; apply List.map_ext; intros; apply put_config_columns).
      assert (map bc_key (map (put_config (bc_id e) (json_dumps config) default)
                            (backends s)) = map bc_key (backends s)) as Hkeys
        by (rewrite List.map_map; apply List.map_ext; intros; apply put_config_columns).
      unfold primary_key. rewrite Hids, Hkeys. repeat split; try assumption.
      + intros u Hne. unfold default_of.
        apply (flagged_map_other bc_user_id is_default uid u); [exact Hne|].
        intros b Hb. unfold put_config.
        destruct (Z.eqb_spec (bc_id b) (bc_id e)) as [Eid|_]; [|tauto].
        split; [reflexivity|]. intros Hb'.
        rewrite (nodup_map_inj bc_id _ b e Hpk Hb Hin Eid) in Hb'. tauto.
      + intros ->. etransitivity; [|apply (Hone uid)]. unfold default_of.
        apply flagged_map_le. intros b _. unfold put_config.
        destruct (bc_id b =? bc_id e)%Z; cbn; split; trivial; discriminate.
    - unfold primary_key. rewrite !List.map_app. cbn [map]. repeat split.
      + apply nodup_snoc; [exact Hpk|apply next_backend_pk_fresh].
      + apply nodup_snoc; [exact Hkey|now apply find_backend_none_key].
      + intros u Hne. unfold default_of. rewrite flagged_app, flagged_cons.
        cbn [bc_user_id new].
        assert ((uid =? u)%Z = false) as -> by (apply Z.eqb_neq; lia).
        apply List.app_nil_r.
      + intros ->. unfold default_of.
        rewrite (flagged_snoc_unflagged bc_user_id is_default uid new _ eq_refl).
        apply Hone. }
  destruct default.
  - assert (map bc_id (map (clear_others uid name) rows1) = map bc_id rows1) as Hids
      by (rewrite List.map_map; apply List.map_ext; intros; apply clear_others_columns).
    assert (map bc_key (map (clear_others uid name) rows1) = map bc_key rows1) as Hkeys
      by (rewrite List.map_map; apply List.map_ext; intros; apply clear_others_columns).
    unfold backend_inv, primary_key. rewrite Hids, Hkeys. repeat split; try assumption.
    intros u. destruct (Z.eq_dec u uid) as [->|Hne].
    + apply (default_of_named uid name); [now rewrite Hkeys|].
      intros b Hb Hu Hd. apply List.in_map_iff in Hb as (b0 & <- & _).
      destruct (clear_others_columns uid name b0) as [_ Hk].
      injection Hk as Hu0 Hn0. rewrite Hn0. rewrite Hu0 in Hu.
      now apply (clear_others_flag uid name b0).
    + unfold default_of.
      rewrite (flagged_map_other bc_user_id is_default uid u); [|exact Hne|].
      * fold (default_of u rows1). rewrite Hother1 by exact Hne. apply Hone.
      * intros b _. unfold clear_others.
        destruct (Z.eqb_spec (bc_user_id b) uid); cbn [andb]; [|tauto].
        destruct (negb _); tauto.
  - repeat split; try assumption.
    intros u. destruct (Z.eq_dec u uid) as [->|Hne]; [now apply Hoff1|].
    rewrite Hother1 by exact Hne. apply Hone.
Qed.

Lemma backend_inv_delete uid name s :
  backend_inv (backends s) -> backend_inv (backends (snd (delete_ai_backend uid name s))).
Proof.
  intros (Hpk & Hkey & Hone). unfold delete_ai_backend.
  destruct (find _ (backends s)) as [b|]; [|repeat split; assumption].
  cbn [snd with_backends backends]. repeat split.
  - now apply primary_key_filter.
  - now apply nodup_map_filter.
  - intros u. etransitivity; [apply flagged_filter_le|apply Hone].
Qed.

Lemma backend_inv_set_default uid name s :
  backend_inv (backends s) ->
  backend_inv (backends (snd (set_default_ai_backend uid name s))).
Proof.
  intros (Hpk & Hkey & Hone).
  destruct (find (owns_backend uid name) (backends s)) as [b|] eqn:E.
  - rewrite (set_default_found _ _ _ _ E).
    apply find_backend_owner in E as (Hin & Hu & _).
    cbn [snd with_backends backends]. repeat split.
    + unfold primary_key. now rewrite activate_keys.
    + now rewrite (activate_column bc_id bc_user_id with_default bc_key).
    + intros u. unfold default_of. destruct (Z.eq_dec u uid) as [->|Hne].
      * rewrite (activate_flagged bc_id bc_user_id is_default with_default) by auto.
        cbn. lia.
      * rewrite (activate_flagged_other bc_id bc_user_id is_default with_default)
          by auto.
        apply Hone.
  - rewrite (set_default_missing _ _ _ E). repeat split; assumption.
Qed.

End BackendFacts.

(** ** The fast tier and the analysis results *)

Section CacheKeys.

Lemma no_colon_uint d : no_colon (NilEmpty.string_of_uint d) = true.
Proof. induction d; cbn; auto. Qed.

Lemma no_colon_str_of_Z n : no_colon (str_of_Z n) = true.
Proof.
  unfold str_of_Z. destruct n as [|p|p]; cbn [Z.to_int NilZero.string_of_int].
  - reflexivity.
  - unfold NilZero.string_of_uint. destruct (Pos.to_uint p); try reflexivity;
      apply (no_colon_uint (_ _)).
  - cbn [no_colon]. unfold NilZero.string_of_uint.
    destruct (Pos.to_uint p); try reflexivity; apply (no_colon_uint (_ _)).
Qed.

Lemma str_of_Z_inj n n' : str_of_Z n = str_of_Z n' -> n = n'.
Proof.
  unfold str_of_Z. intros H. apply DecimalZ.to_int_inj.
  assert (forall z, NilZero.int_of_string (NilZero.string_of_int (Z.to_int z))
                    = Some (Z.to_int z)) as Hisi.
  { intros z. apply NilZero.isi; destruct z; cbn; try discriminate;
      intros [= E]; now apply DecimalPos.Unsigned.to_uint_nonnil in E. }
  pose proof (Hisi n) as Hn. rewrite H, Hisi in Hn. now injection Hn.
Qed.

(** Up to the first colon, two texts that agree have the same head and
    tail. *)
Lemma colon_split a a' k k' :
  no_colon a = true -> no_colon a' = true ->
  (a ++ String ":" k)%string = (a' ++ String ":" k')%string -> a = a' /\ k = k'.
Proof.
  revert a'. induction a as [|c a IH]; intros [|c' a'] Ha Ha'; cbn in *.
  - intros [= ->]. auto.
  - intros [= <- _]. now rewrite Ascii.eqb_refl in Ha'.
  - intros [= -> _]. now rewrite Ascii.eqb_refl in Ha.
  - intros [= -> E]. apply andb_true_iff in Ha as [_ Ha].
    apply andb_true_iff in Ha' as [_ Ha'].
    destruct (IH a' Ha Ha' E) as [-> ->]. auto.
Qed.

(** No two owners, and no two results, share a key of the fast tier. *)
Lemma cache_key_inj uid uid' rid rid' :
  K8sgpt.get_cache_key uid (K8sgpt.analysis_cache_key rid)
  = K8sgpt.get_cache_key uid' (K8sgpt.analysis_cache_key rid') ->
  uid = uid' /\ rid = rid'.
Proof.
  unfold K8sgpt.get_cache_key, K8sgpt.analysis_cache_key. cbn. intros [= E].
  apply colon_split in E as [Eu Er]; try apply no_colon_str_of_Z.
  apply str_of_Z_inj in Eu. now injection Er.
Qed.

End CacheKeys.

Section AnalysisFacts.
Import K8sgpt.

Lemma next_result_pk_fresh rows : ~ In (next_result_pk rows) (map ar_id rows).
Proof.
  intros H. apply max_bound in H. unfold next_result_pk in H. lia.
Qed.

Lemma find_result_owner uid rid rows ar :
  find (owns_result uid rid) rows = Some ar ->
  In ar rows /\ ar_user_id ar = uid /\ result_id ar = rid.
Proof.
  intros H. destruct (List.find_some _ _ H) as [Hin Hb].
  unfold owns_result in Hb. apply andb_true_iff in Hb as [Hu Hr].
  apply String.eqb_eq in Hr. apply Z.eqb_eq in Hu. auto.
Qed.

(** With identifiers that do not repeat, the query finds the row. *)
Lemma find_result_unique rows ar :
  List.NoDup (map result_id rows) -> In ar rows ->
  find (owns_result (ar_user_id ar) (result_id ar)) rows = Some ar.
Proof.
  intros Hnd Hin.
  destruct (find _ rows) as [x|] eqn:E.
  - apply find_result_owner in E as (Hx & _ & Hr).
    f_equal. exact (nodup_map_inj result_id rows x ar Hnd Hx Hin Hr).
  - apply (List.find_none _ _ E) in Hin. unfold owns_result in Hin.
    now rewrite Z.eqb_refl, String.eqb_refl in Hin.
Qed.

(** The three ways of [get_analysis_result]. *)
Lemma fetch_hit up now uid rid s d :
  cache_get up now uid (analysis_cache_key rid) (cache s) = Some d -> d <> [] ->
  get_analysis_result up now uid rid s = (Ok d, s).
Proof.
  intros H Hd. unfold get_analysis_result. rewrite H.
  destruct d; [now destruct Hd|reflexivity].
Qed.

Lemma fetch_durable up now uid rid s ar :
  cache_get up now uid (analysis_cache_key rid) (cache s) = None ->
  find (owns_result uid rid) (analysis_results s) = Some ar ->
  get_analysis_result up now uid rid s
  = (Ok (result_view ar),
     with_cache (cache_set up now uid (analysis_cache_key rid) (result_view ar)
                   default_expiry (cache s)) s).
Proof. intros H Hf. unfold get_analysis_result. now rewrite H, Hf. Qed.

Lemma fetch_absent up now uid rid s :
  cache_get up now uid (analysis_cache_key rid) (cache s) = None ->
  find (owns_result uid rid) (analysis_results s) = None ->
  get_analysis_result up now uid rid s
  = (Raise (HTTPException 404 ("Analysis result " ++ rid ++ " not found")%string), s).
Proof. intros H Hf. unfold get_analysis_result. now rewrite H, Hf. Qed.

Lemma cache_get_entry up now uid key c d :
  cache_get up now uid key c = Some d ->
  exists expires_at, c !! get_cache_key uid key = Some (expires_at, d).
Proof.
  unfold cache_get. destruct up; [|discriminate].
  destruct (c !! get_cache_key uid key) as [[e x]|]; [|discriminate].
  destruct (now <? e)%Z; [|discriminate]. intros [= ->]. eauto.
Qed.

Lemma cache_coherent_set up now uid rid d expiry s ar :
  cache_coherent s -> In ar (analysis_results s) ->
  ar_user_id ar = uid -> result_id ar = rid -> entry_of ar d ->
  cache_coherent
    (with_cache (cache_set up now uid (analysis_cache_key rid) d expiry (cache s)) s).
Proof.
  intros Hc Hin Hu Hr Hd u r e x. unfold cache_set. cbn [cache with_cache].
  destruct up; [|apply Hc].
  rewrite lookup_insert. case_decide as E.
  - apply cache_key_inj in E as [<- <-]. intros [= _ <-]. eauto.
  - apply Hc.
Qed.

Lemma k8sgpt_inv_fetch up now uid rid s :
  k8sgpt_inv s -> k8sgpt_inv (snd (get_analysis_result up now uid rid s)).
Proof.
  intros Hinv. pose proof Hinv as (Hnd & Hc & Hb).
  assert (forall ar, find (owns_result uid rid) (analysis_results s) = Some ar ->
            k8sgpt_inv
              (with_cache (cache_set up now uid (analysis_cache_key rid)
                             (result_view ar) default_expiry (cache s)) s)) as Hset.
  { intros ar E. apply find_result_owner in E as (Hin & Hu & Hr).
    split; [exact Hnd|split; [|exact Hb]].
    apply (cache_coherent_set _ _ _ _ _ _ _ ar); auto. now right. }
  unfold get_analysis_result.
  destruct (cache_get _ _ _ _ _) as [[|x d]|]; try exact Hinv;
    (destruct (find _ (analysis_results s)) as [ar|] eqn:E;
     [now apply Hset|exact Hinv]).
Qed.

Lemma k8sgpt_inv_transform up now uid results s :
  k8sgpt_inv s -> k8sgpt_inv (snd (transform_results up now uid results s)).
Proof.
  revert s. induction results as [|r results IH]; intros s H; [exact H|].
  cbn [transform_results]. destruct (summary_result_id r) as [rid|e]; [|exact H].
  pose proof (k8sgpt_inv_fetch up now uid rid s H) as H1.
  destruct (get_analysis_result up now uid rid s) as [[d|e] s1]; [|exact H1].
  cbn [snd] in H1. destruct (analysis_response d); [|exact H1].
  specialize (IH s1 H1).
  destruct (transform_results up now uid results s1) as [[ts|e] s2]; exact IH.
Qed.

Lemma k8sgpt_inv_analyze active on_disk run up uuid now uid params s :
  k8sgpt_inv s ->
  Forall (fun ar => result_id ar <> uuid) (analysis_results s) ->
  k8sgpt_inv (snd (run_k8sgpt_analysis active on_disk run up uuid now uid params s)).
Proof.
  intros Hinv Hfresh. pose proof Hinv as (Hnd & Hc & Hb). unfold run_k8sgpt_analysis.
  destruct active as [[kp cn]|e]; [|exact Hinv].
  destruct on_disk; cbn [negb]; [|exact Hinv].
  destruct (Exec.execute_command run _) as [result|e]; [|exact Hinv].
  cbn [snd].
  set (ar := {| ar_id := next_result_pk (analysis_results s); ar_user_id := uid;
                ar_cluster_name := cn; ar_namespace := namespace params;
                result_id := uuid; result_json := json_dumps result;
                ar_created_at := now;
                ar_parameters := json_dumps (parameters_dict params) |}).
  set (s1 := {| analysis_results := analysis_results s ++ [ar];
                backends := backends s; cache := cache s |}).
  assert (k8sgpt_inv s1) as (Hnd1 & Hc1 & Hb1).
  { split; [|split; [|exact Hb]].
    - cbn [analysis_results s1]. rewrite List.map_app. apply nodup_snoc; [exact Hnd|].
      intros Hin. apply List.in_map_iff in Hin as (x & Hx & Hin).
      rewrite List.Forall_forall in Hfresh. now apply (Hfresh x Hin).
    - intros u r e d H. destruct (Hc u r e d H) as (x & Hin & Hx).
      exists x. split; [|exact Hx]. cbn [analysis_results s1].
      apply List.in_app_iff. now left. }
  split; [exact Hnd1|split; [|exact Hb1]].
  apply (cache_coherent_set up now uid uuid _ default_expiry s1 ar); auto.
  - cbn [analysis_results s1]. apply List.in_app_iff. right. now left.
  - now left.
Qed.

(** The invariant of the service holds in every state it can be in. *)
Lemma reachable_inv s : reachable s -> k8sgpt_inv s.
Proof.
  induction 1 as [|s active on_disk run up uuid now uid params _ IH Hfresh
                  |s up now uid rid _ IH|s up now uid limit offset _ IH
                  |s now uid name default config _ IH|s uid name _ IH
                  |s uid name _ IH|s c _ IH Hsub].
  - split; [constructor|split].
    + intros u r e d H. cbn in H. now rewrite lookup_empty in H.
    + split; [constructor|split; [constructor|]]. intros u. cbn. lia.
  - now apply k8sgpt_inv_analyze.
  - now apply k8sgpt_inv_fetch.
  - unfold list_analyses, list_analysis_results. now apply k8sgpt_inv_transform.
  - destruct IH as (Hnd & Hc & Hb). split; [exact Hnd|split; [exact Hc|]].
    now apply backend_inv_add.
  - destruct IH as (Hnd & Hc & Hb). pose proof (backend_inv_delete uid name s Hb) as H.
    unfold delete_ai_backend in *.
    destruct (find _ (backends s)); exact (conj Hnd (conj Hc H)).
  - destruct IH as (Hnd & Hc & Hb).
    pose proof (backend_inv_set_default uid name s Hb) as H.
    unfold set_default_ai_backend in *.
    destruct (find _ (backends s)); exact (conj Hnd (conj Hc H)).
  - destruct IH as (Hnd & Hc & Hb). split; [exact Hnd|split; [|exact Hb]].
    intros u r e d H. cbn [cache with_cache] in H.
    apply (lookup_weaken _ _ _ _ H) in Hsub. exact (Hc u r e d Hsub).
Qed.

End AnalysisFacts.

(** ** The properties of the specification *)

Lemma frame_refl {A : Type} (P : A -> Prop) (l : list A) :
  Forall2 (fun a a' => P a -> a' = a) l l.
Proof. induction l; constructor; auto. Qed.

(** C2.  For every owner, after any sequence of uploads, activations,
    removals and sweeps at most one of the owner's credentials has
    [active = true], and after any sequence of backend upserts, deletions
    and set-default calls at most one of the owner's backends has
    [is_default = true]; a successful activation (or set-default) leaves
    exactly the row it looked up flagged among the owner's rows. *)
Theorem single_flag_per_owner :
  (forall ops uid,
      (length (active_of uid (Kubeconfig.kubeconfs
                                (Kubeconfig.run_ops ops Kubeconfig.init))) <= 1)%nat)
  /\ (forall s uid,
         K8sgpt.reachable s -> (length (default_of uid (K8sgpt.backends s)) <= 1)%nat)
  /\ (forall ops fname uid msg s',
         Kubeconfig.set_active_kubeconfig fname uid
           (Kubeconfig.run_ops ops Kubeconfig.init) = (Ok msg, s') ->
         exists target,
           Kubeconfig.lookup_kubeconf fname uid
             (Kubeconfig.kubeconfs (Kubeconfig.run_ops ops Kubeconfig.init))
           = Some target
           /\ active_of uid (Kubeconfig.kubeconfs s')
              = [Kubeconfig.with_active true target])
  /\ (forall s uid name r s',
         K8sgpt.reachable s ->
         K8sgpt.set_default_ai_backend uid name s = (Ok r, s') ->
         exists target,
           find (K8sgpt.owns_backend uid name) (K8sgpt.backends s) = Some target
           /\ default_of uid (K8sgpt.backends s') = [K8sgpt.with_default true target]).
Proof.
  split; [|split; [|split]].
  - intros ops uid.
    apply (kubeconf_inv_run ops Kubeconfig.init kubeconf_inv_init).
  - intros s uid Hs. apply reachable_inv in Hs as (_ & _ & _ & _ & H). apply H.
  - intros ops fname uid msg s' H.
    destruct (kubeconf_inv_run ops Kubeconfig.init kubeconf_inv_init) as [Hpk _].
    set (s := Kubeconfig.run_ops ops Kubeconfig.init) in *.
    destruct (Kubeconfig.lookup_kubeconf fname uid (Kubeconfig.kubeconfs s))
      as [t|] eqn:E.
    + exists t. split; [reflexivity|].
      rewrite (set_active_found _ _ _ _ E) in H. injection H as _ <-.
      apply lookup_kubeconf_owner in E as (Hin & _ & Hu).
      cbn [Kubeconfig.kubeconfs Kubeconfig.with_rows]. unfold active_of.
      now rewrite (activate_flagged Kubeconfig.kc_id Kubeconfig.user_id
                     Kubeconfig.active Kubeconfig.with_active).
    + rewrite (set_active_missing _ _ _ E) in H. discriminate.
  - intros s uid name r s' Hs H.
    apply reachable_inv in Hs as (_ & _ & Hpk & _ & _).
    destruct (find (K8sgpt.owns_backend uid name) (K8sgpt.backends s)) as [t|] eqn:E.
    + exists t. split; [reflexivity|].
      rewrite (set_default_found _ _ _ _ E) in H. injection H as _ <-.
      apply find_backend_owner in E as (Hin & Hu & _).
      cbn [K8sgpt.backends K8sgpt.with_backends]. unfold default_of.
      now rewrite (activate_flagged K8sgpt.bc_id K8sgpt.bc_user_id
                     K8sgpt.is_default K8sgpt.with_default).
    + rewrite (set_default_missing _ _ _ E) in H. discriminate.
Qed.

(** C3.  An activation, or a set-default, whose identifier names no row
    of the caller (there is none of that name, or it is another owner's)
    fails with 404 and leaves the whole state as it was. *)
Theorem unknown_target_not_found
    (s : Kubeconfig.state) (t : K8sgpt.state) (fname name : string) (uid : Z) :
  (forall k, In k (Kubeconfig.kubeconfs s) ->
             Kubeconfig.filename k = fname -> Kubeconfig.user_id k <> uid) ->
  (forall b, In b (K8sgpt.backends t) ->
             K8sgpt.backend_name b = name -> K8sgpt.bc_user_id b <> uid) ->
  Kubeconfig.set_active_kubeconfig fname uid s
  = (Raise (HTTPException 404 ("Kubeconfig '" ++ fname ++ "' not found")%string), s)
  /\ K8sgpt.set_default_ai_backend uid name t
     = (Raise (HTTPException 404 ("AI backend " ++ name ++ " not found")%string), t).
Proof.
  intros Hk Hb. split.
  - apply set_active_missing. now apply lookup_kubeconf_none.
  - apply set_default_missing. now apply find_backend_none.
Qed.

(** C10.  Activating a credential, or setting a default backend, for one
    owner leaves every row of every other owner as it was, at its place
    in the table; nothing outside the table is written. *)
Theorem activation_frames_other_owners
    (s : Kubeconfig.state) (t : K8sgpt.state) (fname name : string) (uid : Z) :
  primary_key Kubeconfig.kc_id (Kubeconfig.kubeconfs s) ->
  primary_key K8sgpt.bc_id (K8sgpt.backends t) ->
  let s' := snd (Kubeconfig.set_active_kubeconfig fname uid s) in
  let t' := snd (K8sgpt.set_default_ai_backend uid name t) in
  Forall2 (fun k k' => Kubeconfig.user_id k <> uid -> k' = k)
    (Kubeconfig.kubeconfs s) (Kubeconfig.kubeconfs s')
  /\ Kubeconfig.disk s' = Kubeconfig.disk s
  /\ Forall2 (fun b b' => K8sgpt.bc_user_id b <> uid -> b' = b)
       (K8sgpt.backends t) (K8sgpt.backends t')
  /\ K8sgpt.analysis_results t' = K8sgpt.analysis_results t
  /\ K8sgpt.cache t' = K8sgpt.cache t.
Proof.
  intros Hs Ht. cbv zeta. split; [|split; [|split; [|split]]].
  - destruct (Kubeconfig.lookup_kubeconf fname uid (Kubeconfig.kubeconfs s))
      as [k|] eqn:E.
    + rewrite (set_active_found _ _ _ _ E).
      apply lookup_kubeconf_owner in E as (Hin & _ & Hu).
      now apply activate_frame.
    + rewrite (set_active_missing _ _ _ E). apply frame_refl.
  - unfold Kubeconfig.set_active_kubeconfig.
    now destruct (Kubeconfig.lookup_kubeconf _ _ _).
  - destruct (find (K8sgpt.owns_backend uid name) (K8sgpt.backends t)) as [b|] eqn:E.
    + rewrite (set_default_found _ _ _ _ E).
      apply find_backend_owner in E as (Hin & Hu & _).
      now apply activate_frame.
    + rewrite (set_default_missing _ _ _ E). apply frame_refl.
  - unfold K8sgpt.set_default_ai_backend. now destruct (find _ _).
  - unfold K8sgpt.set_default_ai_backend. now destruct (find _ _).
Qed.

(** C7.  Removing a credential whose file is already gone from the disk
    succeeds: the row is deleted (and only that row), the disk is not
    touched.  Removing an identifier that names no row of the caller
    fails with 404 and changes nothing. *)
Theorem remove_tolerates_absent_file
    (s : Kubeconfig.state) (fname : string) (uid : Z) (os_error : option string) :
  (forall k,
      Kubeconfig.lookup_kubeconf fname uid (Kubeconfig.kubeconfs s) = Some k ->
      Kubeconfig.path_exists s (Kubeconfig.path k) = false ->
      exists msg s',
        Kubeconfig.remove_kubeconfig fname uid os_error s = (Ok msg, s')
        /\ Kubeconfig.disk s' = Kubeconfig.disk s
        /\ forall k', In k' (Kubeconfig.kubeconfs s')
                      <-> In k' (Kubeconfig.kubeconfs s)
                          /\ Kubeconfig.kc_id k' <> Kubeconfig.kc_id k)
  /\ ((forall k, In k (Kubeconfig.kubeconfs s) ->
                 Kubeconfig.filename k = fname -> Kubeconfig.user_id k <> uid) ->
      exists detail,
        Kubeconfig.remove_kubeconfig fname uid os_error s
        = (Raise (HTTPException 404 detail), s)).
Proof.
  split.
  - intros k Hk Hgone. unfold Kubeconfig.remove_kubeconfig. rewrite Hk, Hgone.
    cbn [negb]. eexists. eexists. split; [reflexivity|]. split; [reflexivity|].
    intros k'. cbn [Kubeconfig.kubeconfs Kubeconfig.with_rows].
    unfold Kubeconfig.delete_row. rewrite List.filter_In, negb_true_iff, Z.eqb_neq.
    tauto.
  - intros H. apply lookup_kubeconf_none in H.
    unfold Kubeconfig.remove_kubeconfig. rewrite H. eauto.
Qed.

(** C8.  One liveness sweep keeps every row, at its place and with all
    its other columns: the credential whose file is missing on disk has
    [active = false] afterwards, the credential whose file exists is
    the row it was.  No row is deleted or added and the disk is not
    touched. *)
Theorem validate_deactivates_missing (s : Kubeconfig.state) :
  let s' := Kubeconfig.validate_kubeconfigs s in
  Kubeconfig.disk s' = Kubeconfig.disk s
  /\ length (Kubeconfig.kubeconfs s') = length (Kubeconfig.kubeconfs s)
  /\ Forall2
       (fun k k' =>
          (Kubeconfig.path_exists s (Kubeconfig.path k) = false ->
           Kubeconfig.active k' = false)
          /\ (Kubeconfig.path_exists s (Kubeconfig.path k) = true -> k' = k)
          /\ Kubeconfig.active k'
             = (Kubeconfig.active k && Kubeconfig.path_exists s (Kubeconfig.path k))%bool
          /\ Kubeconfig.kc_id k' = Kubeconfig.kc_id k
          /\ Kubeconfig.user_id k' = Kubeconfig.user_id k
          /\ Kubeconfig.filename k' = Kubeconfig.filename k
          /\ Kubeconfig.original_filename k' = Kubeconfig.original_filename k
          /\ Kubeconfig.path k' = Kubeconfig.path k
          /\ Kubeconfig.cluster_name k' = Kubeconfig.cluster_name k
          /\ Kubeconfig.context_name k' = Kubeconfig.context_name k
          /\ Kubeconfig.is_operator_installed k' = Kubeconfig.is_operator_installed k
          /\ Kubeconfig.created_at k' = Kubeconfig.created_at k
          /\ Kubeconfig.updated_at k' = Kubeconfig.updated_at k)
       (Kubeconfig.kubeconfs s) (Kubeconfig.kubeconfs s')
  /\ (forall uid,
        active_of uid (Kubeconfig.kubeconfs s')
        = List.filter (fun k => Kubeconfig.path_exists s (Kubeconfig.path k))
            (active_of uid (Kubeconfig.kubeconfs s))).
Proof.
  cbv zeta. split; [reflexivity|].
  cbn [Kubeconfig.validate_kubeconfigs Kubeconfig.with_rows Kubeconfig.kubeconfs].
  split; [apply List.length_map|]. split.
  - induction (Kubeconfig.kubeconfs s) as [|k rows IH]; constructor; [|exact IH].
    destruct (Kubeconfig.path_exists s (Kubeconfig.path k)); cbn [negb];
      cbn [Kubeconfig.with_active Kubeconfig.active Kubeconfig.kc_id
           Kubeconfig.user_id Kubeconfig.filename Kubeconfig.original_filename
           Kubeconfig.path Kubeconfig.cluster_name Kubeconfig.context_name
           Kubeconfig.is_operator_installed Kubeconfig.created_at
           Kubeconfig.updated_at];
      rewrite ?andb_true_r, ?andb_false_r; repeat split; (reflexivity || discriminate).
  - intros uid. unfold active_of, flagged_of.
    induction (Kubeconfig.kubeconfs s) as [|k rows IH]; [reflexivity|].
    cbn [map List.filter]. rewrite IH.
    destruct (Kubeconfig.path_exists s (Kubeconfig.path k)) eqn:E; cbn [negb].
    + destruct (_ && _)%bool; [cbn [List.filter]; now rewrite E|reflexivity].
    + cbn [Kubeconfig.with_active Kubeconfig.active Kubeconfig.user_id].
      rewrite andb_false_r.
      destruct (_ && _)%bool; [cbn [List.filter]; now rewrite E|reflexivity].
Qed.

(** C6, as the code has it.  An upload opens a file under the generated
    name and writes the bytes; when the file cannot be opened nothing is
    stored, when the write fails what was written stays.  It then probes
    the file for its cluster name and its context name; a probe gives a
    name exactly when its command line splits into arguments, the
    command exits 0 and its output is no JSON document (the name is the
    stripped output), or a JSON object whose [stdout] is a text or
    absent (the name is the stripped text, or empty).  The
    record is committed exactly when the file was written, both probes
    give a name and the database takes the row; it has [active = false]
    and the two names, never null.  In every other case the upload fails
    with status 500, no record is committed, and a file that was written
    stays on disk. *)
Theorem upload_commits_after_both_probes
    (run : Exec.world) (uuid : string) (now : Z) (save : Kubeconfig.saved)
    (commit_error : option exn) (fn content : string) (uid : Z)
    (s : Kubeconfig.state) :
  let file_path :=
    path_join Kubeconfig.UPLOAD_DIR (uuid ++ splitext_ext fn)%string in
  let name1 := probed_name run (Kubeconfig.probe_cluster_command file_path) in
  let name2 := probed_name run (Kubeconfig.probe_context_command file_path) in
  let out :=
    Kubeconfig.upload_kubeconfig run uuid now save commit_error fn content uid s in
  Kubeconfig.disk (snd out)
  = match save with
    | Kubeconfig.Written => <[file_path := content]> (Kubeconfig.disk s)
    | Kubeconfig.OpenFailed _ => Kubeconfig.disk s
    | Kubeconfig.WriteFailed _ partial => <[file_path := partial]> (Kubeconfig.disk s)
    end
  /\ ((exists k, fst out = Ok k)
      <-> save = Kubeconfig.Written
          /\ (exists cluster, name1 = Ok cluster)
          /\ (exists context, name2 = Ok context)
          /\ commit_error = None)
  /\ (forall k,
        fst out = Ok k ->
        Kubeconfig.kubeconfs (snd out) = Kubeconfig.kubeconfs s ++ [k]
        /\ Kubeconfig.active k = false /\ Kubeconfig.user_id k = uid
        /\ Kubeconfig.filename k = (uuid ++ splitext_ext fn)%string
        /\ Kubeconfig.original_filename k = fn
        /\ Kubeconfig.path k = file_path
        /\ Kubeconfig.is_operator_installed k = false
        /\ ~ In (Kubeconfig.kc_id k) (map Kubeconfig.kc_id (Kubeconfig.kubeconfs s))
        /\ exists cluster context,
             name1 = Ok cluster /\ name2 = Ok context
             /\ Kubeconfig.cluster_name k = Some cluster
             /\ Kubeconfig.context_name k = Some context)
  /\ (forall e,
        fst out = Raise e ->
        (exists detail, e = HTTPException 500 detail)
        /\ Kubeconfig.kubeconfs (snd out) = Kubeconfig.kubeconfs s)
  /\ (forall command name,
        probed_name run command = Ok name
        <-> exists args stdout stderr stdout_json,
              Exec.shlex_split command = Ok args
              /\ run args = Exec.Completed 0 stdout stderr stdout_json
              /\ (stdout_json = None /\ name = strip stdout
                  \/ exists d,
                       stdout_json = Some (JDict d)
                       /\ (assoc "stdout" d = None /\ name = ""%string
                           \/ exists t, assoc "stdout" d = Some (JStr t)
                                        /\ name = strip t))).
Proof.
  cbv zeta.
  pose proof (upload_cases run uuid now save commit_error fn content uid s)
    as [Hdisk H]. cbv zeta in H.
  split; [exact Hdisk|]. split; [|split; [|split]].
  - split.
    + intros [k Hk]. rewrite Hk in H.
      destruct H as (Hs & Hc & _ & _ & _ & _ & _ & _ & _ & _
                     & r1 & r2 & c & x & E1 & E2 & E3 & E4 & _).
      unfold probed_name. rewrite E1, E3. cbn. rewrite E2, E4.
      split; [exact Hs|]. split; [eauto|]. split; [eauto|exact Hc].
    + intros (-> & [c Hc] & [x Hx] & ->). unfold probed_name in Hc, Hx.
      unfold Kubeconfig.upload_kubeconfig.
      destruct (Exec.execute_command run (Kubeconfig.probe_cluster_command _))
        as [r1|]; [|discriminate].
      cbn in Hc |- *. rewrite Hc. cbn.
      destruct (Exec.execute_command run (Kubeconfig.probe_context_command _))
        as [r2|]; [|discriminate].
      cbn in Hx |- *. rewrite Hx. cbn. eauto.
  - intros k Hk. rewrite Hk in H.
    destruct H as (_ & _ & Hrows & Hid & Hu & Ha & Hp & Hf & Ho & Hi
                   & r1 & r2 & c & x & E1 & E2 & E3 & E4 & Hc & Hx).
    repeat (split; [assumption|]). split.
    + rewrite Hid. apply next_id_fresh.
    + exists c, x. unfold probed_name. rewrite E1, E3. cbn. now rewrite E2, E4.
  - intros e He. now rewrite He in H.
  - intros command name. unfold probed_name, Exec.execute_command. split.
    + destruct (Exec.shlex_split command) as [args|]; [|discriminate].
      destruct (run args) as [rc out err js|] eqn:Er; [|discriminate].
      destruct (Z.eqb_spec rc 0) as [->|]; [|discriminate].
      intros Hn. exists args, out, err, js. split; [reflexivity|].
      split; [exact Er|]. destruct js as [output|].
      * right. cbn in Hn. unfold Kubeconfig.stdout_stripped, dict_get in Hn.
        destruct output as [| | | | | |d]; try discriminate.
        exists d. split; [reflexivity|]. cbn in Hn.
        destruct (assoc "stdout" d) as [v|]; [|left; split; [reflexivity|]].
        -- right. destruct v; try discriminate. cbn in Hn. injection Hn as <-. eauto.
        -- cbn in Hn. now injection Hn as <-.
      * left. cbn in Hn. injection Hn as <-. now split.
    + intros (args & out & err & js & -> & -> & Hjs). cbn.
      destruct Hjs as [[-> ->]|(d & -> & [[Hd ->]|(t & Hd & ->)])]; cbn;
        unfold Kubeconfig.stdout_stripped, dict_get; cbn; rewrite ?Hd; reflexivity.
Qed.

(** C6, the counterexample: with a [kubectl] that exits with an error the
    probe fails, and so does the upload; no row is written, with null
    names or otherwise. *)
Lemma upload_fails_when_probe_fails :
  let out :=
    Kubeconfig.upload_kubeconfig Samples.kubectl_fails "u-1" 0 Kubeconfig.Written None
      "config.yaml" "apiVersion: v1" 1 Kubeconfig.init in
  Exec.execute_command Samples.kubectl_fails
    (Kubeconfig.probe_cluster_command "uploaded_kubeconfigs/u-1.yaml")
  = Raise (HTTPException 500 "Command execution failed: error: invalid configuration")
  /\ (exists detail, fst out = Raise (HTTPException 500 detail))
  /\ (forall k, fst out <> Ok k)
  /\ Kubeconfig.kubeconfs (snd out) = [].
Proof.
  cbv zeta. split; [reflexivity|]. split; [eexists; reflexivity|].
  split; [|reflexivity]. intros k. vm_compute. discriminate.
Qed.

Section FetchFacts.
Import K8sgpt.

(** In a state the service can be in, a caller without a row of that
    identifier finds nothing in the fast tier either. *)
Lemma no_row_no_entry s up now uid rid :
  k8sgpt_inv s ->
  find (owns_result uid rid) (analysis_results s) = None ->
  cache_get up now uid (analysis_cache_key rid) (cache s) = None.
Proof.
  intros (_ & Hc & _) Hnone.
  destruct (cache_get _ _ _ _ _) as [d|] eqn:E; [|reflexivity].
  apply cache_get_entry in E as [e E].
  destruct (Hc uid rid e d E) as (ar & Hin & Hu & Hr & _).
  apply (List.find_none _ _ Hnone) in Hin. unfold owns_result in Hin.
  now rewrite Hu, Hr, Z.eqb_refl, String.eqb_refl in Hin.
Qed.

Lemma find_result_none uid rid rows :
  (forall ar, In ar rows -> result_id ar = rid -> ar_user_id ar <> uid) ->
  find (owns_result uid rid) rows = None.
Proof.
  intros H. destruct (find _ rows) as [ar|] eqn:E; [|reflexivity].
  apply find_result_owner in E as (Hin & Hu & Hr). now destruct (H ar Hin Hr).
Qed.

Lemma find_snoc {A : Type} (f : A -> bool) (l : list A) (x : A) :
  find f l = None -> f x = true -> find f (l ++ [x]) = Some x.
Proof.
  intros Hnone Hx. induction l as [|y l IH]; cbn in *; [now rewrite Hx|].
  destruct (f y); [discriminate|auto].
Qed.

Lemma entry_payload ar d :
  entry_of ar d -> d <> [] /\ payload d = Ok (Doc (json_loads (result_json ar))).
Proof. intros [->| ->]; split; (discriminate || reflexivity). Qed.

Lemma cache_get_fresh now later uid key d expiry c :
  later < now + expiry ->
  cache_get true later uid key (cache_set true now uid key d expiry c) = Some d.
Proof.
  intros H. unfold cache_get, cache_set. rewrite lookup_insert_eq.
  now apply Z.ltb_lt in H as ->.
Qed.

Lemma cache_get_expired up now later uid key d expiry c :
  now + expiry <= later ->
  cache_get up later uid key (cache_set true now uid key d expiry c) = None.
Proof.
  intros H. unfold cache_get, cache_set. destruct up; [|reflexivity].
  rewrite lookup_insert_eq. now apply Z.ltb_ge in H as ->.
Qed.

End FetchFacts.

(** C4.  A fetch looks in the fast tier first: an entry found there is
    the answer, whatever the durable store holds, and nothing is
    written.  On a miss it reads the durable store.  A row of the caller
    is returned as the record of its six fields and, the fast tier
    answering, that record is in the fast tier under the caller's key
    when the fetch returns, for one hour, so that the next fetch within
    the hour is served from it; no other key is written, and a fast tier
    that does not answer leaves the state as it was.  Without such a row
    the fetch fails with 404 and changes nothing.  A caller who asks
    for a result, or names a backend, that exists but is another
    owner's gets 404 as well. *)
Theorem fetch_reads_through
    (s : K8sgpt.state) (up : bool) (now uid : Z) (rid name : string) :
  let key := K8sgpt.analysis_cache_key rid in
  (forall d rows,
      K8sgpt.cache_get up now uid key (K8sgpt.cache s) = Some d -> d <> [] ->
      K8sgpt.get_analysis_result up now uid rid
        {| K8sgpt.analysis_results := rows; K8sgpt.backends := K8sgpt.backends s;
           K8sgpt.cache := K8sgpt.cache s |}
      = (Ok d,
         {| K8sgpt.analysis_results := rows; K8sgpt.backends := K8sgpt.backends s;
            K8sgpt.cache := K8sgpt.cache s |}))
  /\ (forall ar,
         K8sgpt.cache_get up now uid key (K8sgpt.cache s) = None ->
         find (K8sgpt.owns_result uid rid) (K8sgpt.analysis_results s) = Some ar ->
         let record :=
           [("result_id", Doc (JStr (K8sgpt.result_id ar)));
            ("cluster_name", Doc (JStr (K8sgpt.ar_cluster_name ar)));
            ("namespace", Doc (K8sgpt.opt_str (K8sgpt.ar_namespace ar)));
            ("result", Doc (json_loads (K8sgpt.result_json ar)));
            ("created_at", Datetime (K8sgpt.ar_created_at ar));
            ("parameters", Doc (json_loads (K8sgpt.ar_parameters ar)))] in
         exists s',
           K8sgpt.get_analysis_result up now uid rid s = (Ok record, s')
           /\ K8sgpt.result_id ar = rid /\ K8sgpt.ar_user_id ar = uid
           /\ K8sgpt.analysis_results s' = K8sgpt.analysis_results s
           /\ K8sgpt.backends s' = K8sgpt.backends s
           /\ (up = true ->
               K8sgpt.cache s' !! K8sgpt.get_cache_key uid key
               = Some (now + 3600, record)
               /\ (forall other, other <> K8sgpt.get_cache_key uid key ->
                                 K8sgpt.cache s' !! other = K8sgpt.cache s !! other)
               /\ forall later, later < now + 3600 ->
                    K8sgpt.cache_get true later uid key (K8sgpt.cache s') = Some record
                    /\ K8sgpt.get_analysis_result true later uid rid s'
                       = (Ok record, s'))
           /\ (up = false -> s' = s))
  /\ (K8sgpt.cache_get up now uid key (K8sgpt.cache s) = None ->
      (forall ar, In ar (K8sgpt.analysis_results s) ->
                  K8sgpt.result_id ar = rid -> K8sgpt.ar_user_id ar <> uid) ->
      K8sgpt.get_analysis_result up now uid rid s
      = (Raise (HTTPException 404 ("Analysis result " ++ rid ++ " not found")%string), s))
  /\ (K8sgpt.reachable s ->
      forall ar, In ar (K8sgpt.analysis_results s) ->
                 K8sgpt.result_id ar = rid -> K8sgpt.ar_user_id ar <> uid ->
      K8sgpt.get_analysis_result up now uid rid s
      = (Raise (HTTPException 404 ("Analysis result " ++ rid ++ " not found")%string), s))
  /\ ((forall b, In b (K8sgpt.backends s) ->
                 K8sgpt.backend_name b = name -> K8sgpt.bc_user_id b <> uid) ->
      K8sgpt.get_ai_backend uid name s
      = Raise (HTTPException 404 ("AI backend " ++ name ++ " not found")%string)
      /\ K8sgpt.delete_ai_backend uid name s
         = (Raise (HTTPException 404 ("AI backend " ++ name ++ " not found")%string), s)).
Proof.
  cbv zeta. split; [|split; [|split; [|split]]].
  - intros d rows H Hd. now apply fetch_hit.
  - intros ar Hmiss Hfind.
    destruct (find_result_owner _ _ _ _ Hfind) as (_ & Hu & Hr).
    eexists. split; [eapply fetch_durable; eassumption|].
    split; [exact Hr|]. split; [exact Hu|]. split; [reflexivity|].
    split; [reflexivity|]. split.
    + intros ->. cbn [K8sgpt.cache K8sgpt.with_cache]. unfold K8sgpt.cache_set.
      split; [apply lookup_insert_eq|].
      split; [intros other Hne; now apply lookup_insert_ne|].
      intros later Hlater.
      assert (K8sgpt.cache_get true later uid (K8sgpt.analysis_cache_key rid)
                (<[K8sgpt.get_cache_key uid (K8sgpt.analysis_cache_key rid) :=
                     (now + K8sgpt.default_expiry, K8sgpt.result_view ar)]>
                   (K8sgpt.cache s))
              = Some (K8sgpt.result_view ar)) as Hget
        by (now apply (cache_get_fresh now later uid _ _ K8sgpt.default_expiry)).
      split; [exact Hget|]. apply fetch_hit; [exact Hget|discriminate].
    + intros ->. cbn [K8sgpt.cache_set]. now destruct s.
  - intros Hmiss Hnone. apply fetch_absent; [exact Hmiss|].
    now apply find_result_none.
  - intros Hs ar Hin Hr Hu. apply reachable_inv in Hs.
    assert (find (K8sgpt.owns_result uid rid) (K8sgpt.analysis_results s) = None)
      as Hnone.
    { apply find_result_none. intros x Hx Hxr Hxu.
      destruct Hs as (Hnd & _).
      assert (x = ar) as -> by (apply (nodup_map_inj K8sgpt.result_id _ x ar Hnd Hx Hin);
                                congruence).
      contradiction. }
    apply fetch_absent; [|exact Hnone]. now apply no_row_no_entry.
  - intros H. apply find_backend_none in H.
    unfold K8sgpt.get_ai_backend, K8sgpt.delete_ai_backend. now rewrite H.
Qed.

(** C5.  In every state the service can be in, a fetch of a stored
    result by its owner succeeds and returns the stored payload, at any
    time and whether or not the fast tier answers.  In particular after
    a store: within the hour and with the fast tier up the answer is the
    entry the store wrote, after the hour it is read from the row, and
    the payload of both is the result that was stored. *)
Theorem fetch_after_store_same_payload :
  (forall s ar up now,
      K8sgpt.reachable s -> In ar (K8sgpt.analysis_results s) ->
      exists d s',
        K8sgpt.get_analysis_result up now (K8sgpt.ar_user_id ar) (K8sgpt.result_id ar) s
        = (Ok d, s')
        /\ payload d = Ok (Doc (json_loads (K8sgpt.result_json ar))))
  /\ (forall s active on_disk run up uuid now uid params ar s1,
         K8sgpt.reachable s ->
         Forall (fun x => K8sgpt.result_id x <> uuid) (K8sgpt.analysis_results s) ->
         K8sgpt.run_k8sgpt_analysis active on_disk run up uuid now uid params s
         = (Ok ar, s1) ->
         let fast :=
           K8sgpt.analysis_cache_entry uuid (json_loads (K8sgpt.result_json ar))
             (K8sgpt.parameters_dict params) in
         (up = true -> forall later, later < now + 3600 ->
            K8sgpt.get_analysis_result true later uid uuid s1 = (Ok fast, s1))
         /\ (forall up' later, now + 3600 <= later ->
               exists s2,
                 K8sgpt.get_analysis_result up' later uid uuid s1
                 = (Ok (K8sgpt.result_view ar), s2))
         /\ payload fast = payload (K8sgpt.result_view ar)).
Proof.
  split.
  - intros s ar up now Hs Hin. apply reachable_inv in Hs.
    pose proof Hs as (Hnd & Hc & _).
    pose proof (find_result_unique _ ar Hnd Hin) as Hfind.
    destruct (K8sgpt.cache_get up now (K8sgpt.ar_user_id ar)
                (K8sgpt.analysis_cache_key (K8sgpt.result_id ar)) (K8sgpt.cache s))
      as [d|] eqn:E.
    + pose proof E as Hget. apply cache_get_entry in E as [e E].
      destruct (Hc _ _ _ _ E) as (x & Hx & _ & Hr & Hd).
      assert (x = ar) as -> by exact (nodup_map_inj K8sgpt.result_id _ x ar Hnd Hx Hin Hr).
      apply entry_payload in Hd as [Hne Hp].
      exists d, s. split; [now apply fetch_hit|exact Hp].
    + eexists. eexists. split; [eapply fetch_durable; eassumption|reflexivity].
  - intros s active on_disk run up uuid now uid params ar s1 Hs Hfresh Hrun.
    apply reachable_inv in Hs. pose proof Hs as (Hnd & Hc & _).
    unfold K8sgpt.run_k8sgpt_analysis in Hrun.
    destruct active as [[kp cn]|e]; [|discriminate].
    destruct on_disk; cbn [negb] in Hrun; [|discriminate].
    destruct (Exec.execute_command run _) as [result|e]; [|discriminate].
    injection Hrun as <- <-. cbv zeta. cbn [K8sgpt.result_json json_loads json_dumps].
    set (ar := {| K8sgpt.ar_id := _ |}).
    (* the caller had no row, hence no entry, under the new identifier *)
    assert (find (K8sgpt.owns_result uid uuid) (K8sgpt.analysis_results s) = None)
      as Hnone.
    { apply find_result_none. intros x Hx Hxr.
      rewrite List.Forall_forall in Hfresh. now destruct (Hfresh x Hx). }
    assert (find (K8sgpt.owns_result uid uuid) (K8sgpt.analysis_results s ++ [ar])
            = Some ar) as Hfind.
    { apply find_snoc; [exact Hnone|].
      unfold K8sgpt.owns_result. cbn. now rewrite Z.eqb_refl, String.eqb_refl. }
    split; [|split; [|reflexivity]].
    + intros -> later Hlater. apply fetch_hit; [|discriminate].
      cbn [K8sgpt.cache]. now apply cache_get_fresh.
    + intros up' later Hlater. eexists. apply fetch_durable; [|exact Hfind].
      cbn [K8sgpt.cache]. destruct up.
      * now apply cache_get_expired.
      * cbn [K8sgpt.cache_set].
        apply (no_row_no_entry s up' later uid uuid Hs Hnone).
Qed.

Section ListingFacts.
Import K8sgpt.

Local Abbreviation newer_first := (fun a b => ar_created_at b <= ar_created_at a).












End ListingFacts.



(** ** The properties on concrete states *)

Ltac in_cases H :=
  repeat (destruct H as [H|H]; [subst|]); try contradiction.

Ltac distinct_keys :=
  repeat (constructor; [cbn; let H := fresh in intros H; in_cases H; discriminate|]);
  constructor.

Lemma after_analysis_reachable : K8sgpt.reachable Samples.after_analysis.
Proof.
  exact (K8sgpt.reach_analyze K8sgpt.init _ _ _ _ _ _ _ _ K8sgpt.reach_init
           (List.Forall_nil _)).
Defined.

(** The route [GET /analysis/{result_id}] served the entry the analysis
    wrote: the entry has no [cluster_name] for the response. *)
Example get_analysis_on_store_entry :
  fst (K8sgpt.get_analysis true 1 1 "r-1" Samples.after_analysis)
  = Raise (PyError "KeyError" "'cluster_name'").
Proof. vm_compute. reflexivity. Qed.

Lemma single_flag_per_owner_witness :
  let ops :=
    [Kubeconfig.Upload (Samples.kubectl_prints "prod") "u-1" 0
       Kubeconfig.Written None "a.yaml" "v1" 1;
     Kubeconfig.Upload (Samples.kubectl_prints "test") "u-2" 1
       Kubeconfig.Written None "b.yaml" "v1" 1;
     Kubeconfig.Activate "u-1.yaml" 1] in
  let s := Kubeconfig.run_ops ops Kubeconfig.init in
  let t :=
    snd (K8sgpt.add_ai_backend 1 1 "localai" true (JDict [])
           (snd (K8sgpt.add_ai_backend 0 1 "openai" true (JDict []) K8sgpt.init))) in
  (length (active_of 1 (Kubeconfig.kubeconfs s)) <= 1)%nat
  /\ (length (default_of 1 (K8sgpt.backends t)) <= 1)%nat
  /\ (exists target,
         Kubeconfig.lookup_kubeconf "u-2.yaml" 1 (Kubeconfig.kubeconfs s) = Some target
         /\ active_of 1 (Kubeconfig.kubeconfs
                           (snd (Kubeconfig.set_active_kubeconfig "u-2.yaml" 1 s)))
            = [Kubeconfig.with_active true target])
  /\ (exists target,
         find (K8sgpt.owns_backend 1 "openai") (K8sgpt.backends t) = Some target
         /\ default_of 1 (K8sgpt.backends
                            (snd (K8sgpt.set_default_ai_backend 1 "openai" t)))
            = [K8sgpt.with_default true target]).
Proof.
  cbv zeta. destruct single_flag_per_owner as (H1 & H2 & H3 & H4).
  assert (K8sgpt.reachable
            (snd (K8sgpt.add_ai_backend 1 1 "localai" true (JDict [])
                    (snd (K8sgpt.add_ai_backend 0 1 "openai" true (JDict [])
                            K8sgpt.init))))) as Ht
    by (do 2 apply K8sgpt.reach_add_backend; apply K8sgpt.reach_init).
  split; [apply H1|]. split; [apply H2, Ht|]. split.
  - eapply H3. vm_compute. reflexivity.
  - eapply H4; [exact Ht|]. vm_compute. reflexivity.
Defined.

Lemma unknown_target_not_found_witness :
  Kubeconfig.set_active_kubeconfig "c.yaml" 2 Samples.two_owners
  = (Raise (HTTPException 404 "Kubeconfig 'c.yaml' not found"), Samples.two_owners)
  /\ K8sgpt.set_default_ai_backend 2 "localai" Samples.with_two_backends
     = (Raise (HTTPException 404 "AI backend localai not found"),
        Samples.with_two_backends).
Proof.
  apply (unknown_target_not_found Samples.two_owners Samples.with_two_backends
           "c.yaml" "localai" 2).
  - intros k H. cbn in H. in_cases H; cbn; intros; (discriminate || lia).
  - intros b H. cbn in H. in_cases H; cbn; intros; (discriminate || lia).
Defined.

Lemma activation_frames_other_owners_witness :
  Forall2 (fun k k' => Kubeconfig.user_id k <> 1 -> k' = k)
    (Kubeconfig.kubeconfs Samples.two_owners)
    (Kubeconfig.kubeconfs
       (snd (Kubeconfig.set_active_kubeconfig "c.yaml" 1 Samples.two_owners)))
  /\ Forall2 (fun b b' => K8sgpt.bc_user_id b <> 1 -> b' = b)
       (K8sgpt.backends Samples.with_two_backends)
       (K8sgpt.backends
          (snd (K8sgpt.set_default_ai_backend 1 "localai" Samples.with_two_backends))).
Proof.
  destruct (activation_frames_other_owners Samples.two_owners
              Samples.with_two_backends "c.yaml" "localai" 1) as (H1 & _ & H2 & _).
  - unfold primary_key. cbn. distinct_keys.
  - unfold primary_key. cbn. distinct_keys.
  - split; [exact H1|exact H2].
Defined.

Lemma remove_tolerates_absent_file_witness :
  (exists msg s',
      Kubeconfig.remove_kubeconfig "a.yaml" 1 None Samples.two_owners = (Ok msg, s')
      /\ Kubeconfig.disk s' = Kubeconfig.disk Samples.two_owners
      /\ forall k', In k' (Kubeconfig.kubeconfs s')
                    <-> In k' (Kubeconfig.kubeconfs Samples.two_owners)
                        /\ Kubeconfig.kc_id k' <> 1)
  /\ (exists detail,
         Kubeconfig.remove_kubeconfig "b.yaml" 1 None Samples.two_owners
         = (Raise (HTTPException 404 detail), Samples.two_owners)).
Proof.
  split.
  - destruct (remove_tolerates_absent_file Samples.two_owners "a.yaml" 1 None)
      as [H _].
    apply (H (Samples.cred 1 1 "a.yaml" true)); vm_compute; reflexivity.
  - destruct (remove_tolerates_absent_file Samples.two_owners "b.yaml" 1 None)
      as [_ H].
    apply H. intros k Hk. cbn in Hk. in_cases Hk; cbn; intros; (discriminate || lia).
Defined.

Lemma validate_deactivates_missing_witness :
  exists a b c,
    Kubeconfig.kubeconfs (Kubeconfig.validate_kubeconfigs Samples.two_owners) = [a; b; c]
    /\ Kubeconfig.active a = false /\ Kubeconfig.active b = false
    /\ c = Samples.cred 3 1 "c.yaml" false.
Proof.
  destruct (validate_deactivates_missing Samples.two_owners) as (_ & _ & Hall & _).
  change (Kubeconfig.kubeconfs Samples.two_owners)
    with [Samples.cred 1 1 "a.yaml" true; Samples.cred 2 2 "b.yaml" true;
          Samples.cred 3 1 "c.yaml" false] in Hall.
  apply Forall2_cons_inv_l in Hall as (a & rows1 & [Ha _] & Hall & ->).
  apply Forall2_cons_inv_l in Hall as (b & rows2 & [Hb _] & Hall & ->).
  apply Forall2_cons_inv_l in Hall as (c & rows3 & (_ & Hc & _) & Hall & ->).
  apply Forall2_nil_inv_l in Hall as ->.
  exists a, b, c. split; [reflexivity|].
  split; [apply Ha; reflexivity|]. split; [apply Hb; reflexivity|].
  apply Hc. reflexivity.
Defined.

Lemma upload_commits_after_both_probes_witness :
  (exists k,
      fst (Kubeconfig.upload_kubeconfig (Samples.kubectl_prints "prod ") "u-1" 0
             Kubeconfig.Written None "config.yaml" "apiVersion: v1" 1
             Kubeconfig.init) = Ok k
      /\ Kubeconfig.active k = false
      /\ Kubeconfig.cluster_name k = Some "prod")
  /\ (exists detail,
         fst (Kubeconfig.upload_kubeconfig Samples.kubectl_fails "u-1" 0
                Kubeconfig.Written None "config.yaml" "apiVersion: v1" 1
                Kubeconfig.init) = Raise (HTTPException 500 detail))
  /\ (forall k,
         fst (Kubeconfig.upload_kubeconfig Samples.kubectl_prints_number "u-1" 0
                Kubeconfig.Written None "config.yaml" "apiVersion: v1" 1
                Kubeconfig.init) <> Ok k).
Proof.
  split; [|split].
  - destruct (upload_commits_after_both_probes (Samples.kubectl_prints "prod ") "u-1" 0
                Kubeconfig.Written None "config.yaml" "apiVersion: v1" 1
                Kubeconfig.init) as (_ & [_ Hex] & Hfields & _).
    destruct Hex as [k Hk].
    { split; [reflexivity|]. split; [eexists; vm_compute; reflexivity|].
      split; [eexists; vm_compute; reflexivity|reflexivity]. }
    exists k. split; [exact Hk|].
    destruct (Hfields k Hk)
      as (_ & Ha & _ & _ & _ & _ & _ & _ & c & x & Hc & _ & Hcn & _).
    split; [exact Ha|]. rewrite Hcn. vm_compute in Hc. congruence.
  - destruct (upload_commits_after_both_probes Samples.kubectl_fails "u-1" 0
                Kubeconfig.Written None "config.yaml" "apiVersion: v1" 1
                Kubeconfig.init) as (_ & _ & _ & Hfail & _).
    destruct (Hfail (HTTPException 500
                       "An error occurred: 500: Command execution failed: error: invalid configuration"))
      as [[detail Hd] _]; [vm_compute; reflexivity|].
    exists detail. rewrite <- Hd. vm_compute. reflexivity.
  - destruct (upload_commits_after_both_probes Samples.kubectl_prints_number "u-1" 0
                Kubeconfig.Written None "config.yaml" "apiVersion: v1" 1
                Kubeconfig.init) as (_ & [Hex _] & _).
    intros k Hk. destruct (Hex (ex_intro _ k Hk)) as (_ & [c Hc] & _).
    vm_compute in Hc. discriminate.
Defined.

Lemma fetch_reads_through_witness :
  let warm := Samples.after_analysis in
  let cold := K8sgpt.with_cache ∅ Samples.after_analysis in
  (exists d, K8sgpt.get_analysis_result true 5 1 "r-1" warm = (Ok d, warm))
  /\ (exists ar s',
         K8sgpt.get_analysis_result true 5 1 "r-1" cold = (Ok (K8sgpt.result_view ar), s')
         /\ K8sgpt.get_analysis_result true 3604 1 "r-1" s'
            = (Ok (K8sgpt.result_view ar), s'))
  /\ K8sgpt.get_analysis_result true 5 1 "r-0" cold
     = (Raise (HTTPException 404 "Analysis result r-0 not found"), cold)
  /\ K8sgpt.get_analysis_result true 5 2 "r-1" warm
     = (Raise (HTTPException 404 "Analysis result r-1 not found"), warm)
  /\ K8sgpt.get_ai_backend 2 "localai" Samples.with_two_backends
     = Raise (HTTPException 404 "AI backend localai not found").
Proof.
  cbv zeta. split; [|split; [|split; [|split]]].
  - destruct (fetch_reads_through Samples.after_analysis true 5 1 "r-1" "")
      as (H & _).
    eexists.
    apply (H _ (K8sgpt.analysis_results Samples.after_analysis));
      [vm_compute; reflexivity|discriminate].
  - destruct (fetch_reads_through (K8sgpt.with_cache ∅ Samples.after_analysis)
                true 5 1 "r-1" "") as (_ & H & _).
    destruct (H Samples.stored_row)
      as (s' & H1 & _ & _ & _ & _ & H2 & _); try (vm_compute; reflexivity).
    destruct (H2 eq_refl) as (_ & _ & H3).
    eexists. exists s'. split; [exact H1|]. apply H3. lia.
  - destruct (fetch_reads_through (K8sgpt.with_cache ∅ Samples.after_analysis)
                true 5 1 "r-0" "") as (_ & _ & H & _).
    apply H; [vm_compute; reflexivity|].
    intros ar Hin. cbn in Hin. in_cases Hin. cbn. discriminate.
  - destruct (fetch_reads_through Samples.after_analysis true 5 2 "r-1" "")
      as (_ & _ & _ & H & _).
    apply (H after_analysis_reachable Samples.stored_row);
      [cbn; now left|reflexivity|cbn; lia].
  - destruct (fetch_reads_through Samples.with_two_backends true 5 2 "" "localai")
      as (_ & _ & _ & _ & H).
    apply H. intros b Hb. cbn in Hb. in_cases Hb; cbn; intros; (discriminate || lia).
Defined.

Lemma fetch_after_store_same_payload_witness :
  (exists d s',
      K8sgpt.get_analysis_result false 7200 1 "r-1" Samples.after_analysis = (Ok d, s')
      /\ payload d = Ok (Doc Samples.one_problem))
  /\ K8sgpt.get_analysis_result true 3599 1 "r-1" Samples.after_analysis
     = (Ok (K8sgpt.analysis_cache_entry "r-1" Samples.one_problem
              (K8sgpt.parameters_dict (Samples.request_in None))),
        Samples.after_analysis)
  /\ (exists s2,
         K8sgpt.get_analysis_result true 3600 1 "r-1" Samples.after_analysis
         = (Ok (K8sgpt.result_view Samples.stored_row), s2)).
Proof.
  destruct fetch_after_store_same_payload as [Hany Hstore]. split.
  - apply (Hany Samples.after_analysis Samples.stored_row false 7200
             after_analysis_reachable).
    cbn. now left.
  - destruct (Hstore K8sgpt.init (Ok (Samples.some_path, "prod")) true
                Samples.k8sgpt_reports true "r-1" 0 1 (Samples.request_in None)
                Samples.stored_row Samples.after_analysis K8sgpt.reach_init
                (List.Forall_nil _) eq_refl) as (Hfast & Hslow & _).
    split; [apply Hfast; [reflexivity|lia]|apply Hslow; lia].
Defined.


(** * More properties of the code *)

(** ** The analysis command and its results *)

Section AnalysisMore.
Import K8sgpt.

Lemma analyze_argv_of_plain_values_witness :
  Exec.shlex_split
    (analyze_command (Samples.request_in (Some "kube-system")) Samples.some_path)
  = Ok ("k8sgpt" :: "analyze"
        :: analyze_words (Samples.request_in (Some "kube-system")) Samples.some_path).
Proof.
  apply analyze_argv_of_plain_values. vm_compute. reflexivity.
Defined.

(** X2.  The caller's [anonymize] and [output_format] never reach the
    command, and with plain values the program is always asked for
    [--output json]. *)
Theorem output_is_always_json (p : AnalysisRequest) (kubeconfig_path : string)
    (a : bool) (o : string) :
  analyze_command (with_display a o p) kubeconfig_path = analyze_command p kubeconfig_path
  /\ (forallb plain (analyze_words p kubeconfig_path) = true ->
      exists before after,
        Exec.shlex_split (analyze_command (with_display a o p) kubeconfig_path)
        = Ok ("k8sgpt" :: "analyze" :: before ++ "--output" :: "json" :: after)).
Proof.
  split; [reflexivity|]. intros H.
  change (analyze_command (with_display a o p) kubeconfig_path)
    with (analyze_command p kubeconfig_path).
  rewrite analyze_command_words, shlex_split_words by (cbn [forallb]; now rewrite H).
  unfold analyze_words. do 9 rewrite List.app_assoc.
  eexists. eexists. reflexivity.
Qed.

Lemma output_is_always_json_witness :
  exists before after,
    Exec.shlex_split
      (analyze_command (with_display true "text" (Samples.request_in (Some "dev")))
         Samples.some_path)
    = Ok ("k8sgpt" :: "analyze" :: before ++ "--output" :: "json" :: after).
Proof.
  apply (output_is_always_json (Samples.request_in (Some "dev")) Samples.some_path
           true "text").
  vm_compute. reflexivity.
Defined.

Lemma analysis_stores_row active on_disk run up uuid now uid params s ar s1 :
  run_k8sgpt_analysis active on_disk run up uuid now uid params s = (Ok ar, s1) ->
  analysis_results s1 = analysis_results s ++ [ar] /\ result_id ar = uuid.
Proof.
  unfold run_k8sgpt_analysis.
  destruct active as [[kp cn]|e]; [|discriminate].
  destruct on_disk; cbn [negb]; [|discriminate].
  destruct (Exec.execute_command run _); [|discriminate].
  intros [= <- <-]. split; reflexivity.
Qed.

(** X3.  An analysis either stores exactly one row, the caller's, holding the
    result of the command, or fails and leaves the whole state as it was.
    Whether the fast tier answers changes neither the outcome nor the
    tables. *)
Theorem analysis_is_all_or_nothing
    (active : active_answer) (on_disk : bool) (run : Exec.world) (up : bool)
    (uuid : string) (now uid : Z) (params : AnalysisRequest) (s : state) :
  let out := run_k8sgpt_analysis active on_disk run up uuid now uid params s in
  match fst out with
  | Ok ar =>
      analysis_results (snd out) = analysis_results s ++ [ar]
      /\ ar_user_id ar = uid /\ result_id ar = uuid
      /\ ar_namespace ar = namespace params /\ ar_created_at ar = now
      /\ json_loads (ar_parameters ar) = parameters_dict params
      /\ exists kubeconfig_path cluster result,
           active = Ok (kubeconfig_path, cluster) /\ on_disk = true
           /\ Exec.execute_command run (analyze_command params kubeconfig_path)
              = Ok result
           /\ json_loads (result_json ar) = result
           /\ ar_cluster_name ar = cluster
  | Raise e => snd out = s
  end
  /\ backends (snd out) = backends s
  /\ fst out = fst (run_k8sgpt_analysis active on_disk run (negb up) uuid now uid params s)
  /\ analysis_results (snd out)
     = analysis_results
         (snd (run_k8sgpt_analysis active on_disk run (negb up) uuid now uid params s)).
Proof.
  cbv zeta. unfold run_k8sgpt_analysis.
  destruct active as [[kp cn]|e]; [|cbn; auto].
  destruct on_disk; cbn [negb]; [|cbn; auto].
  destruct (Exec.execute_command run (analyze_command params kp)) as [result|e] eqn:E;
    [|cbn; auto].
  cbn [fst snd analysis_results backends ar_user_id result_id ar_namespace
       ar_created_at ar_parameters result_json ar_cluster_name json_loads json_dumps].
  repeat split. exists kp, cn, result. auto.
Qed.

Lemma item_view_dict d :
  exists v, item_view (JDict d) = Ok (JDict v) /\ map fst v = item_keys.
Proof. eexists. split; reflexivity. Qed.

(** X4.  What the routes make of a stored result: a list of dictionaries gives
    as many items, each with the nine keys; a result that is no list
    gives no item; a list with an element that is no dictionary is an
    error. *)
Theorem items_follow_the_result :
  (forall l, forallb is_dict l = true ->
     exists items,
       extract_items (Doc (JList l)) = Ok (JList items)
       /\ length items = length l
       /\ Forall (fun i => exists d, i = JDict d /\ map fst d = item_keys) items)
  /\ (forall l, forallb is_dict l = false ->
        exists e, extract_items (Doc (JList l)) = Raise e)
  /\ (forall v, (forall l, v <> Doc (JList l)) -> extract_items v = Ok (JList [])).
Proof.
  split; [|split].
  - intros l H.
    assert (exists items, map_res item_view l = Ok items /\ length items = length l
              /\ Forall (fun i => exists d, i = JDict d /\ map fst d = item_keys) items)
      as (items & E & Hlen & Hall).
    { induction l as [|x l IH]; [exists []; repeat split; constructor|].
      cbn [forallb] in H. apply andb_true_iff in H as [Hx Hl].
      destruct (IH Hl) as (items & E & Hlen & Hall).
      destruct x as [| | | | | |d]; try discriminate.
      destruct (item_view_dict d) as (v & Ev & Hk).
      cbn [map_res]. rewrite Ev, E. cbn.
      eexists. split; [reflexivity|]. split; [cbn; now rewrite Hlen|].
      constructor; [|exact Hall]. exists v. now split. }
    exists items. split; [cbn; rewrite E; reflexivity|auto].
  - intros l H.
    assert (exists e, map_res item_view l = Raise e) as (e & E);
      [|exists e; cbn; rewrite E; reflexivity].
    induction l as [|x l IH]; [discriminate|].
    cbn [forallb] in H. cbn [map_res].
    destruct x as [| | | | | |d]; try (eexists; reflexivity).
    cbn [is_dict andb] in H. destruct (IH H) as (e & E).
    destruct (item_view_dict d) as (v & Ev & _).
    rewrite Ev, E. eexists. reflexivity.
  - intros v H. unfold extract_items. destruct v as [j|t]; [|reflexivity].
    destruct j; try reflexivity. now destruct (H l).
Qed.

Lemma items_follow_the_result_witness :
  (exists items,
      extract_items (Doc Samples.one_problem) = Ok (JList items)
      /\ length items = 1%nat)
  /\ (exists e, extract_items (Doc (JList [JStr "text"])) = Raise e)
  /\ extract_items (Doc (JDict [("stdout", JStr "No problems detected")]))
     = Ok (JList []).
Proof.
  destruct items_follow_the_result as (H1 & H2 & H3). split; [|split].
  - destruct (H1 [JDict [("name", JStr "default/web"); ("kind", JStr "Pod")]] eq_refl)
      as (items & E & Hlen & _).
    exists items. split; [exact E|exact Hlen].
  - apply H2. reflexivity.
  - apply H3. intros l. discriminate.
Defined.

(** X5.  For an hour after an analysis that reached the fast tier, the route
    [GET /analysis/{result_id}] does not answer for that result: it is
    served the entry the analysis wrote, which has no [cluster_name]. *)
Theorem fetch_route_fails_on_fresh_entry
    (active : active_answer) (on_disk : bool) (run : Exec.world)
    (uuid : string) (now uid later : Z) (params : AnalysisRequest)
    (s s1 : state) (ar : AnalysisResult) :
  run_k8sgpt_analysis active on_disk run true uuid now uid params s = (Ok ar, s1) ->
  later < now + 3600 ->
  exists e, get_analysis true later uid uuid s1 = (Raise e, s1).
Proof.
  intros Hrun Hlater. unfold run_k8sgpt_analysis in Hrun.
  destruct active as [[kp cn]|e]; [|discriminate].
  destruct on_disk; cbn [negb] in Hrun; [|discriminate].
  destruct (Exec.execute_command run _) as [result|e]; [|discriminate].
  injection Hrun as <- <-.
  unfold get_analysis.
  rewrite (fetch_hit true later uid uuid _
             (analysis_cache_entry uuid result (parameters_dict params)));
    [|cbn [cache]; now apply cache_get_fresh|discriminate].
  unfold analysis_response, analysis_cache_entry. cbn -[extract_items].
  destruct (extract_items (Doc result)); cbn; eexists; reflexivity.
Qed.

Lemma fetch_route_fails_on_fresh_entry_witness :
  exists e, get_analysis true 3599 1 "r-1" Samples.after_analysis
            = (Raise e, Samples.after_analysis).
Proof.
  apply (fetch_route_fails_on_fresh_entry (Ok (Samples.some_path, "prod")) true
           Samples.k8sgpt_reports "r-1" 0 1 3599 (Samples.request_in None)
           K8sgpt.init Samples.after_analysis Samples.stored_row eq_refl).
  lia.
Defined.

(** X6.  Served from the durable store (the fast tier not answering), the
    route answers for every stored result whose items can be built, with
    the fields of the row. *)
Theorem fetch_route_answers_from_the_row
    (s : state) (ar : AnalysisResult) (now : Z) (items : json) :
  reachable s -> In ar (analysis_results s) ->
  extract_items (Doc (json_loads (result_json ar))) = Ok items ->
  get_analysis false now (ar_user_id ar) (result_id ar) s
  = (Ok [("result_id", Doc (JStr (result_id ar)));
         ("cluster_name", Doc (JStr (ar_cluster_name ar)));
         ("namespace", Doc (opt_str (ar_namespace ar)));
         ("items", Doc items);
         ("created_at", Datetime (ar_created_at ar));
         ("parameters", Doc (json_loads (ar_parameters ar)))], s).
Proof.
  intros Hs Hin Hitems. apply reachable_inv in Hs as (Hnd & _).
  unfold get_analysis.
  rewrite (fetch_durable false now _ _ s ar eq_refl (find_result_unique _ ar Hnd Hin)).
  unfold analysis_response, result_view. cbn -[extract_items].
  rewrite Hitems. destruct s; reflexivity.
Qed.

Lemma fetch_route_answers_from_the_row_witness :
  exists response,
    get_analysis false 5 1 "r-1" Samples.after_analysis
    = (Ok response, Samples.after_analysis)
    /\ assoc "cluster_name" response = Some (Doc (JStr "prod")).
Proof.
  eexists. split.
  - eapply (fetch_route_answers_from_the_row Samples.after_analysis Samples.stored_row 5
              _ after_analysis_reachable).
    + cbn. now left.
    + reflexivity.
  - reflexivity.
Defined.

(** X7.  [POST /analyze] stores the row before it builds the response: when
    the items cannot be built the request fails and the row stays; when
    they can, the response carries the identifier of the stored row. *)
Theorem analyze_route_commits_first
    (active : active_answer) (on_disk : bool) (run : Exec.world) (up : bool)
    (uuid : string) (now uid : Z) (params : AnalysisRequest)
    (s s1 : state) (ar : AnalysisResult) :
  run_k8sgpt_analysis active on_disk run up uuid now uid params s = (Ok ar, s1) ->
  In ar (analysis_results s1)
  /\ snd (Service.analyze_cluster active on_disk run up uuid now uid params s) = s1
  /\ (forall e, extract_items (Doc (json_loads (result_json ar))) = Raise e ->
        fst (Service.analyze_cluster active on_disk run up uuid now uid params s)
        = Raise e)
  /\ (forall items, extract_items (Doc (json_loads (result_json ar))) = Ok items ->
        exists response,
          fst (Service.analyze_cluster active on_disk run up uuid now uid params s)
          = Ok response
          /\ assoc "result_id" response = Some (Doc (JStr uuid))
          /\ assoc "items" response = Some (Doc items)).
Proof.
  intros Hrun.
  destruct (analysis_stores_row _ _ _ _ _ _ _ _ _ _ _ Hrun) as (Hrows & Hrid).
  unfold Service.analyze_cluster. rewrite Hrun. cbn [fst snd].
  split; [rewrite Hrows; apply List.in_app_iff; right; now left|].
  split; [reflexivity|]. split.
  - intros e ->. reflexivity.
  - intros items ->. cbn -[extract_items]. eexists. split; [reflexivity|].
    rewrite Hrid. auto.
Qed.

Lemma analyze_route_commits_first_witness :
  let out :=
    Service.analyze_cluster (Ok (Samples.some_path, "prod")) true
      (fun _ => Exec.Completed 0 "" "" (Some (JList [JStr "text"])))
      true "r-2" 0 1 (Samples.request_in None) K8sgpt.init in
  (exists e, fst out = Raise e) /\ length (analysis_results (snd out)) = 1%nat.
Proof.
  cbv zeta.
  destruct (analyze_route_commits_first (Ok (Samples.some_path, "prod")) true
              (fun _ => Exec.Completed 0 "" "" (Some (JList [JStr "text"])))
              true "r-2" 0 1 (Samples.request_in None) K8sgpt.init _ _ eq_refl)
    as (_ & Hs & Hfail & _).
  split.
  - eexists. apply Hfail. vm_compute. reflexivity.
  - rewrite Hs. reflexivity.
Defined.

End AnalysisMore.

(** ** AI backends: upsert, deletion and the default *)

Section BackendMore.
Import K8sgpt.

Lemma find_map_same {A : Type} (f : A -> bool) (g : A -> A) (l : list A) :
  (forall x, f (g x) = f x) -> find f (map g l) = option_map g (find f l).
Proof.
  intros H. induction l as [|x l IH]; [reflexivity|].
  cbn [map find]. rewrite H. destruct (f x); [reflexivity|exact IH].
Qed.

Lemma owns_put_config uid name pk c d b :
  owns_backend uid name (put_config pk c d b) = owns_backend uid name b.
Proof. unfold put_config. now destruct (bc_id b =? pk)%Z. Qed.

Lemma owns_clear_others uid name uid' name' b :
  owns_backend uid name (clear_others uid' name' b) = owns_backend uid name b.
Proof. unfold clear_others. now destruct (_ && _)%bool. Qed.

Lemma clear_others_named uid name b :
  backend_name b = name -> clear_others uid name b = b.
Proof.
  intros H. unfold clear_others. now rewrite H, String.eqb_refl, andb_false_r.
Qed.

Lemma at_most_one_is {A : Type} (l : list A) (a : A) :
  (length l <= 1)%nat -> In a l -> l = [a].
Proof.
  destruct l as [|x [|y l]]; cbn; intros Hlen Hin; [tauto| |lia].
  now destruct Hin as [->|[]].
Qed.

Lemma filter_map_same {A : Type} (keep : A -> bool) (g : A -> A) (l : list A) :
  (forall a, In a l -> keep (g a) = keep a /\ (keep a = true -> g a = a)) ->
  List.filter keep (map g l) = List.filter keep l.
Proof.
  induction l as [|x l IH]; [reflexivity|]. intros H.
  cbn [map List.filter]. destruct (H x (or_introl eq_refl)) as [Hk Hg].
  rewrite Hk, IH by (intros; apply H; now right).
  destruct (keep x); [now rewrite Hg|reflexivity].
Qed.

(** The row [add_ai_backend] returns, in both of its cases. *)
Lemma add_ai_backend_row now uid name default config s :
  exists b,
    fst (add_ai_backend now uid name default config s) = Some b
    /\ find (owns_backend uid name)
         (backends (snd (add_ai_backend now uid name default config s))) = Some b
    /\ b = match find (owns_backend uid name) (backends s) with
           | Some old => with_config (json_dumps config) default old
           | None =>
               {| bc_id := next_backend_pk (backends s); bc_user_id := uid;
                  backend_name := name; is_default := default;
                  config_json := json_dumps config;
                  bc_created_at := now; bc_updated_at := now |}
           end.
Proof.
  unfold add_ai_backend. cbv zeta. cbn [fst snd with_backends backends].
  destruct (find (owns_backend uid name) (backends s)) as [old|] eqn:E.
  - destruct (find_backend_owner _ _ _ _ E) as (_ & Hu & Hn).
    assert (find (owns_backend uid name)
              (map (put_config (bc_id old) (json_dumps config) default) (backends s))
            = Some (with_config (json_dumps config) default old)) as E1.
    { rewrite find_map_same by (intros; apply owns_put_config). rewrite E.
      cbn [option_map]. unfold put_config. now rewrite Z.eqb_refl. }
    exists (with_config (json_dumps config) default old).
    destruct default.
    + rewrite find_map_same by (intros; apply owns_clear_others). rewrite E1.
      cbn [option_map]. now rewrite clear_others_named.
    + now rewrite E1.
  - set (new := {| bc_id := next_backend_pk (backends s); bc_user_id := uid;
                   backend_name := name; is_default := default;
                   config_json := json_dumps config;
                   bc_created_at := now; bc_updated_at := now |}).
    assert (find (owns_backend uid name) (backends s ++ [new]) = Some new) as E1.
    { apply find_snoc; [exact E|]. unfold owns_backend. cbn.
      now rewrite Z.eqb_refl, String.eqb_refl. }
    exists new. destruct default.
    + rewrite find_map_same by (intros; apply owns_clear_others). rewrite E1.
      cbn [option_map]. now rewrite clear_others_named.
    + now rewrite E1.
Qed.

(** X8.  Saving a backend and reading it back: [add_ai_backend] always
    returns a row, with the name, the owner, the flag and the
    configuration of the request; [get_ai_backend] then answers with that
    row, which is also the response of [POST /backends].  Saving an
    existing name keeps its identifier and both of its time stamps and
    adds no row; a new name adds one row. *)
Theorem upsert_then_get (now uid : Z) (name : string) (default : bool)
    (config : json) (s : state) :
  let out := add_ai_backend now uid name default config s in
  exists b,
    fst out = Some b
    /\ bc_user_id b = uid /\ backend_name b = name
    /\ is_default b = default /\ json_loads (config_json b) = config
    /\ get_ai_backend uid name (snd out) = Ok (backend_view b)
    /\ Service.create_backend now uid name default config s
       = (Ok (backend_view b), snd out)
    /\ match find (owns_backend uid name) (backends s) with
       | Some old =>
           bc_id b = bc_id old /\ bc_created_at b = bc_created_at old
           /\ bc_updated_at b = bc_updated_at old
           /\ length (backends (snd out)) = length (backends s)
       | None =>
           bc_id b = next_backend_pk (backends s) /\ bc_created_at b = now
           /\ length (backends (snd out)) = S (length (backends s))
       end.
Proof.
  cbv zeta.
  destruct (add_ai_backend_row now uid name default config s) as (b & Hfst & Hfind & Hb).
  exists b. split; [exact Hfst|].
  assert (bc_user_id b = uid /\ backend_name b = name) as [Hu Hn]
    by (destruct (find_backend_owner _ _ _ _ Hfind) as (_ & ? & ?); now split).
  split; [exact Hu|]. split; [exact Hn|].
  assert (length (backends (snd (add_ai_backend now uid name default config s)))
          = match find (owns_backend uid name) (backends s) with
            | Some _ => length (backends s)
            | None => S (length (backends s))
            end) as Hlen.
  { unfold add_ai_backend. cbv zeta. cbn [snd with_backends backends].
    destruct (find _ (backends s)); destruct default;
      rewrite ?List.length_map, ?List.length_app, ?List.length_map; cbn [length]; lia. }
  split; [|split; [|split; [|split]]].
  - rewrite Hb. now destruct (find _ (backends s)).
  - rewrite Hb. now destruct (find _ (backends s)).
  - unfold get_ai_backend. now rewrite Hfind.
  - unfold Service.create_backend.
    destruct (add_ai_backend now uid name default config s) as [r s1].
    cbn [fst snd] in *. now rewrite Hfst.
  - rewrite Hlen, Hb. now destruct (find _ (backends s)).
Qed.

(** X9.  Saving a backend with [is_default] set makes it the one default of
    its owner, and no row of another owner is changed. *)
Theorem upsert_sets_the_default (now uid : Z) (name : string) (config : json)
    (s : state) :
  reachable s ->
  let out := add_ai_backend now uid name true config s in
  (exists b, fst out = Some b /\ default_of uid (backends (snd out)) = [b])
  /\ List.filter (fun r => negb (bc_user_id r =? uid)%Z) (backends (snd out))
     = List.filter (fun r => negb (bc_user_id r =? uid)%Z) (backends s).
Proof.
  intros Hs. cbv zeta.
  pose proof (reachable_inv s Hs) as (_ & _ & Hinv).
  pose proof (backend_inv_add now uid name true config s Hinv) as (_ & _ & Hone).
  destruct (add_ai_backend_row now uid name true config s) as (b & Hfst & Hfind & Hb).
  split.
  - exists b. split; [exact Hfst|]. apply at_most_one_is; [apply Hone|].
    destruct (find_backend_owner _ _ _ _ Hfind) as (Hin & Hu & _).
    apply List.filter_In. split; [exact Hin|].
    rewrite Hu, Z.eqb_refl. rewrite Hb. now destruct (find _ (backends s)).
  - destruct Hinv as (Hpk & _ & _).
    unfold add_ai_backend. cbv zeta. cbn [snd with_backends backends].
    rewrite filter_map_same.
    + destruct (find (owns_backend uid name) (backends s)) as [old|] eqn:E.
      * destruct (find_backend_owner _ _ _ _ E) as (Hin & Hu & _).
        apply filter_map_same. intros a Ha. unfold put_config.
        destruct (Z.eqb_spec (bc_id a) (bc_id old)) as [Hid|]; [|now split].
        rewrite (nodup_map_inj bc_id _ a old Hpk Ha Hin Hid).
        cbn [with_config bc_user_id]. rewrite Hu, Z.eqb_refl. now split.
      * rewrite List.filter_app. cbn [List.filter bc_user_id].
        rewrite Z.eqb_refl. cbn [negb]. apply List.app_nil_r.
    + intros a _. unfold clear_others.
      destruct (bc_user_id a =? uid)%Z eqn:Hu; cbn [andb negb];
        [|rewrite ?Hu; now split].
      destruct (String.eqb (backend_name a) name);
        cbn [with_default bc_user_id negb]; rewrite ?Hu; cbn [negb];
        (split; [reflexivity|intros; (discriminate || reflexivity)]).
Qed.

Lemma upsert_sets_the_default_witness :
  let s := snd (add_ai_backend 0 1 "openai" true (JDict []) init) in
  exists b,
    fst (add_ai_backend 1 1 "localai" true (JDict []) s) = Some b
    /\ default_of 1 (backends (snd (add_ai_backend 1 1 "localai" true (JDict []) s)))
       = [b].
Proof.
  cbv zeta.
  apply (upsert_sets_the_default 1 1 "localai" (JDict [])
           (snd (add_ai_backend 0 1 "openai" true (JDict []) init))).
  apply reach_add_backend, reach_init.
Defined.

(** X10.  Saving again the backend that is the default, without [is_default]
    in the request, leaves its owner with no default at all. *)
Theorem upsert_can_drop_the_default (now uid : Z) (name : string) (config : json)
    (s : state) (old : AIBackendConfig) :
  reachable s ->
  find (owns_backend uid name) (backends s) = Some old ->
  is_default old = true ->
  default_of uid (backends (snd (add_ai_backend now uid name false config s))) = [].
Proof.
  intros Hs E Hd.
  pose proof (reachable_inv s Hs) as (_ & _ & (Hpk & _ & Hone)).
  destruct (find_backend_owner _ _ _ _ E) as (Hin & Hu & _).
  assert (default_of uid (backends s) = [old]) as Hold.
  { apply at_most_one_is; [apply Hone|]. apply List.filter_In.
    split; [exact Hin|]. now rewrite Hu, Z.eqb_refl, Hd. }
  unfold add_ai_backend. cbv zeta. rewrite E. cbn [snd with_backends backends].
  destruct (default_of uid (map _ (backends s))) as [|x l] eqn:Ex; [reflexivity|].
  assert (In x (default_of uid
                  (map (put_config (bc_id old) (json_dumps config) false) (backends s))))
    as Hx by (rewrite Ex; now left).
  apply List.filter_In in Hx as [Hx Hflag].
  apply List.in_map_iff in Hx as (r & <- & Hr).
  unfold put_config in Hflag.
  destruct (Z.eqb_spec (bc_id r) (bc_id old)) as [Hid|Hid].
  - cbn in Hflag. now rewrite andb_false_r in Hflag.
  - assert (In r (default_of uid (backends s))) as Hr'
      by (apply List.filter_In; now split).
    rewrite Hold in Hr'. destruct Hr' as [<-|[]]. now destruct Hid.
Qed.

Lemma upsert_can_drop_the_default_witness :
  default_of 1
    (backends
       (snd (add_ai_backend 5 1 "openai" false (JDict [])
               (snd (add_ai_backend 0 1 "openai" true (JDict []) init)))))
  = [].
Proof.
  apply (upsert_can_drop_the_default 5 1 "openai" (JDict [])
           (snd (add_ai_backend 0 1 "openai" true (JDict []) init))
           (Samples.bconf 1 1 "openai" true)).
  - apply reach_add_backend, reach_init.
  - reflexivity.
  - reflexivity.
Defined.

(** X11.  After a deletion the backend is gone for its owner: reading it and
    deleting it again answer 404.  The other backends, of this owner and
    of the others, are the rows they were, in their order; deleting the
    default leaves the owner without one. *)
Theorem delete_then_get (uid : Z) (name : string) (s s1 : state) :
  reachable s ->
  delete_ai_backend uid name s = (Ok true, s1) ->
  get_ai_backend uid name s1 = Raise (backend_not_found name)
  /\ delete_ai_backend uid name s1 = (Raise (backend_not_found name), s1)
  /\ backends s1
     = List.filter (fun r => negb (owns_backend uid name r)) (backends s)
  /\ S (length (backends s1)) = length (backends s)
  /\ (forall old, find (owns_backend uid name) (backends s) = Some old ->
        is_default old = true -> default_of uid (backends s1) = []).
Proof.
  intros Hs Hdel.
  pose proof (reachable_inv s Hs) as (_ & _ & (Hpk & Hkey & Hone)).
  unfold delete_ai_backend in Hdel.
  destruct (find (owns_backend uid name) (backends s)) as [b|] eqn:E; [|discriminate].
  injection Hdel as <-. cbn [with_backends backends].
  destruct (find_backend_owner _ _ _ _ E) as (Hin & Hu & Hn).
  assert (forall r, In r (backends s) ->
            negb (bc_id r =? bc_id b)%Z = negb (owns_backend uid name r)) as Hsame.
  { intros r Hr. f_equal. destruct (Z.eqb_spec (bc_id r) (bc_id b)) as [Hid|Hid].
    - rewrite (nodup_map_inj bc_id _ r b Hpk Hr Hin Hid).
      unfold owns_backend. now rewrite Hu, Hn, Z.eqb_refl, String.eqb_refl.
    - destruct (owns_backend uid name r) eqn:Ho; [|reflexivity].
      unfold owns_backend in Ho. apply andb_true_iff in Ho as [Ho1 Ho2].
      apply Z.eqb_eq in Ho1. apply String.eqb_eq in Ho2. destruct Hid. f_equal.
      apply (nodup_map_inj (fun b => (bc_user_id b, backend_name b)) _ r b Hkey Hr Hin).
      now rewrite Ho1, Ho2, Hu, Hn. }
  assert (List.filter (fun r => negb (bc_id r =? bc_id b)%Z) (backends s)
          = List.filter (fun r => negb (owns_backend uid name r)) (backends s)) as Hrows
    by (apply List.filter_ext_in; exact Hsame).
  assert (find (owns_backend uid name)
            (List.filter (fun r => negb (bc_id r =? bc_id b)%Z) (backends s)) = None)
    as Hnone.
  { rewrite Hrows.
    destruct (find (owns_backend uid name)
                (List.filter (fun r => negb (owns_backend uid name r)) (backends s)))
      as [x|] eqn:Ex; [|reflexivity].
    apply List.find_some in Ex as [Hx Hox]. apply List.filter_In in Hx as [_ Hx].
    now rewrite Hox in Hx. }
  split; [unfold get_ai_backend; cbn [with_backends backends]; now rewrite Hnone|].
  split; [unfold delete_ai_backend; cbn [with_backends backends]; now rewrite Hnone|].
  split; [exact Hrows|]. split.
  - clear Hnone Hrows Hsame. revert Hin Hpk. generalize (backends s) as rows.
    induction rows as [|r rows IH]; [intros []|].
    cbn [In map List.filter length]. intros Hin Hpk.
    apply List.NoDup_cons_iff in Hpk as [Hr Hpk].
    destruct (Z.eqb_spec (bc_id r) (bc_id b)) as [Hid|Hid]; cbn [negb length].
    + f_equal. f_equal. clear IH Hin. induction rows as [|x rows IH]; [reflexivity|].
      cbn [List.filter]. cbn [map] in Hr, Hpk.
      apply List.NoDup_cons_iff in Hpk as [_ Hpk].
      destruct (Z.eqb_spec (bc_id x) (bc_id b)) as [Hx|Hx]; cbn [negb].
      * destruct Hr. left. congruence.
      * cbn [length]. f_equal. apply IH; [|exact Hpk]. intros H. apply Hr. now right.
    + f_equal. apply IH; [|exact Hpk]. destruct Hin as [->|Hin]; [now destruct Hid|exact Hin].
  - intros old Hold Hd. injection Hold as <-.
    destruct (default_of uid (List.filter _ (backends s))) as [|x l] eqn:Ex;
      [reflexivity|].
    assert (In x (default_of uid
                    (List.filter (fun r => negb (bc_id r =? bc_id b)%Z) (backends s))))
      as Hx by (rewrite Ex; now left).
    apply List.filter_In in Hx as [Hx Hflag]. apply List.filter_In in Hx as [Hx Hne].
    assert (default_of uid (backends s) = [b]) as Hb.
    { apply at_most_one_is; [apply Hone|]. apply List.filter_In.
      split; [exact Hin|]. now rewrite Hu, Z.eqb_refl, Hd. }
    assert (In x (default_of uid (backends s))) as Hx'
      by (apply List.filter_In; now split).
    rewrite Hb in Hx'. destruct Hx' as [<-|[]]. now rewrite Z.eqb_refl in Hne.
Qed.

Lemma delete_then_get_witness :
  let s := snd (add_ai_backend 0 1 "openai" true (JDict []) init) in
  get_ai_backend 1 "openai" (snd (delete_ai_backend 1 "openai" s))
  = Raise (backend_not_found "openai").
Proof.
  cbv zeta.
  apply (delete_then_get 1 "openai"
           (snd (add_ai_backend 0 1 "openai" true (JDict []) init))
           (snd (delete_ai_backend 1 "openai"
                   (snd (add_ai_backend 0 1 "openai" true (JDict []) init))))).
  - apply reach_add_backend, reach_init.
  - reflexivity.
Defined.

End BackendMore.

(** ** Text: stripping and splitting *)

Section TextFacts.

Ltac bools :=
  repeat match goal with
    | H : (_ && _)%bool = true |- _ => apply andb_true_iff in H as [? ?]
    | H : (_ || _)%bool = true |- _ => apply orb_true_iff in H as [?|?]
    | H : (_ =? _)%nat = true |- _ => apply Nat.eqb_eq in H
    | H : (_ <=? _)%nat = true |- _ => apply Nat.leb_le in H
    end.

Ltac bool_false :=
  apply not_true_is_false; let H := fresh in intros H; bools; lia.

Lemma str_ind_len (P : string -> Prop) :
  (forall s, (forall t, (String.length t < String.length s)%nat -> P t) -> P s) ->
  forall s, P s.
Proof.
  intros H s. remember (String.length s) as n eqn:E. revert s E.
  induction n as [n IH] using lt_wf_ind. intros s ->.
  apply H. intros t Ht. now apply (IH (String.length t)).
Qed.

Lemma lstrip_step s :
  lstrip s = match white_at s with O => s | n => lstrip (skip n s) end.
Proof.
  destruct s as [|c1 [|c2 [|c3 s3]]]; [reflexivity| | |].
  - cbn [lstrip white_at]. now destruct (is_space c1).
  - change (lstrip (String c1 (String c2 "")))
      with (if is_space c1 then lstrip (String c2 "")
            else if is_space2 c1 c2 then lstrip "" else String c1 (String c2 "")).
    cbn [white_at]. destruct (is_space c1); [reflexivity|].
    now destruct (is_space2 c1 c2).
  - change (lstrip (String c1 (String c2 (String c3 s3))))
      with (if is_space c1 then lstrip (String c2 (String c3 s3))
            else if is_space2 c1 c2 then lstrip (String c3 s3)
                 else if is_space3 c1 c2 c3 then lstrip s3
                      else String c1 (String c2 (String c3 s3))).
    cbn [white_at]. destruct (is_space c1); [reflexivity|].
    destruct (is_space2 c1 c2); [reflexivity|].
    now destruct (is_space3 c1 c2 c3).
Qed.

Lemma split_ws_step c s word :
  split_ws_from (String c s) word
  = match white_at (String c s) with
    | O => split_ws_from s (word ++ String c "")%string
    | n => flush word (split_ws_from (skip n (String c s)) "")
    end.
Proof.
  destruct s as [|c2 [|c3 s3]].
  - cbn [split_ws_from white_at]. now destruct (is_space c).
  - change (split_ws_from (String c (String c2 "")) word)
      with (if is_space c then flush word (split_ws_from (String c2 "") "")
            else if is_space2 c c2 then flush word (split_ws_from "" "")
                 else split_ws_from (String c2 "") (word ++ String c "")%string).
    cbn [white_at]. destruct (is_space c); [reflexivity|].
    now destruct (is_space2 c c2).
  - change (split_ws_from (String c (String c2 (String c3 s3))) word)
      with (if is_space c then flush word (split_ws_from (String c2 (String c3 s3)) "")
            else if is_space2 c c2 then flush word (split_ws_from (String c3 s3) "")
                 else if is_space3 c c2 c3 then flush word (split_ws_from s3 "")
                      else split_ws_from (String c2 (String c3 s3))
                             (word ++ String c "")%string).
    cbn [white_at]. destruct (is_space c); [reflexivity|].
    destruct (is_space2 c c2); [reflexivity|].
    now destruct (is_space3 c c2 c3).
Qed.

Lemma white_at_app p r :
  white_at p <> O -> white_at (p ++ r)%string = white_at p.
Proof.
  destruct p as [|c1 [|c2 [|c3 p]]]; rewrite ?append_cons; cbn [white_at];
    try congruence;
    repeat match goal with |- context [if ?b then _ else _] => destruct b end;
    congruence.
Qed.

Lemma skip_app p r :
  white_at p <> O ->
  skip (white_at p) (p ++ r)%string = (skip (white_at p) p ++ r)%string.
Proof.
  destruct p as [|c1 [|c2 [|c3 p]]]; rewrite ?append_cons; cbn [white_at];
    try congruence;
    repeat match goal with |- context [if ?b then _ else _] => destruct b end;
    cbn [skip]; try congruence; intros _; rewrite ?append_cons; reflexivity.
Qed.

Lemma skip_shorter s :
  white_at s <> O -> (String.length (skip (white_at s) s) < String.length s)%nat.
Proof.
  destruct s as [|c1 [|c2 [|c3 s]]]; cbn [white_at];
    try congruence;
    repeat match goal with |- context [if ?b then _ else _] => destruct b end;
    cbn [skip String.length]; intros; (lia || congruence).
Qed.

Lemma lstrip_fix s : white_at s = O -> lstrip s = s.
Proof. intros H. now rewrite lstrip_step, H. Qed.

Lemma white_at_lstrip s : white_at (lstrip s) = O.
Proof.
  induction s as [s IH] using str_ind_len. rewrite lstrip_step.
  destruct (white_at s) eqn:E; [exact E|].
  apply IH. rewrite <- E. apply skip_shorter. lia.
Qed.

Lemma all_white_cases r : all_white r = true -> r = ""%string \/ white_at r <> O.
Proof.
  unfold all_white. intros H. apply String.eqb_eq in H.
  destruct (white_at r) eqn:E; [|now right]. left. now rewrite lstrip_fix in H.
Qed.

Lemma all_white_skip r :
  white_at r <> O -> all_white (skip (white_at r) r) = all_white r.
Proof.
  intros H. unfold all_white. rewrite (lstrip_step r).
  destruct (white_at r); [congruence|reflexivity].
Qed.

(** White text in front does not count. *)
Lemma lstrip_app_white p r : all_white p = true -> lstrip (p ++ r)%string = lstrip r.
Proof.
  induction p as [p IH] using str_ind_len. intros Hp.
  destruct (all_white_cases p Hp) as [->|Hw]; [reflexivity|].
  rewrite (lstrip_step (p ++ r)), (white_at_app p r Hw).
  pose proof (skip_app p r Hw) as Hskip. pose proof (skip_shorter p Hw) as Hlt.
  pose proof (all_white_skip p Hw) as Hall.
  destruct (white_at p) eqn:E; [congruence|]. rewrite Hskip.
  apply IH; [exact Hlt|]. now rewrite Hall.
Qed.

Lemma rstrip_split s :
  exists r, s = (rstrip s ++ r)%string /\ all_white r = true.
Proof.
  induction s as [|c s (r & Hs & Hr)]; [now exists ""%string|].
  cbn [rstrip]. destruct (all_white (String c s)) eqn:E.
  - now exists (String c s).
  - exists r. rewrite append_cons, <- Hs. now split.
Qed.

Lemma all_white_rstrip c s :
  all_white (String c (rstrip s)) = true -> all_white (String c s) = true.
Proof.
  intros H. destruct (rstrip_split s) as (r & Hs & Hr).
  rewrite Hs at 1. rewrite <- append_cons. unfold all_white.
  rewrite lstrip_app_white by exact H. exact Hr.
Qed.

Lemma rstrip_idem s : rstrip (rstrip s) = rstrip s.
Proof.
  induction s as [|c s IH]; [reflexivity|]. cbn [rstrip].
  destruct (all_white (String c s)) eqn:E; [reflexivity|].
  cbn [rstrip]. destruct (all_white (String c (rstrip s))) eqn:E'.
  - apply all_white_rstrip in E'. congruence.
  - now rewrite IH.
Qed.

Lemma white_at_rstrip s : white_at s = O -> white_at (rstrip s) = O.
Proof.
  intros H. destruct (rstrip_split s) as (r & Hs & _).
  destruct (white_at (rstrip s)) eqn:E; [reflexivity|].
  rewrite Hs, white_at_app in H; congruence.
Qed.

(** [strip] gives a text that [strip] leaves alone. *)
Lemma strip_idem s : strip (strip s) = strip s.
Proof.
  unfold strip.
  rewrite (lstrip_fix (rstrip (lstrip s)))
    by (apply white_at_rstrip, white_at_lstrip).
  apply rstrip_idem.
Qed.

(** The first byte of a white character is the second or third of none. *)
Lemma white_at_first r :
  white_at r <> O ->
  exists b r', r = String b r'
    /\ (forall c, is_space2 c b = false)
    /\ (forall c c', is_space3 c b c' = false)
    /\ (forall c c', is_space3 c c' b = false).
Proof.
  destruct r as [|b r]; [now intros []|]. intros H. exists b, r.
  split; [reflexivity|].
  assert (is_space b = true \/ nat_of_ascii b = 194%nat \/ nat_of_ascii b = 225%nat
          \/ nat_of_ascii b = 226%nat \/ nat_of_ascii b = 227%nat) as Hb.
  { cbn [white_at] in H. destruct (is_space b); [now left|]. right.
    destruct r as [|c2 r]; [congruence|].
    destruct (is_space2 b c2) eqn:E2.
    - unfold is_space2 in E2. cbv zeta in E2. bools; lia.
    - destruct r as [|c3 r]; [congruence|].
      destruct (is_space3 b c2 c3) eqn:E3; [|congruence].
      unfold is_space3 in E3. cbv zeta in E3. bools; lia. }
  unfold is_space, is_space2, is_space3 in *. cbv zeta in *.
  destruct Hb as [Hb|Hb]; repeat split; intros; bool_false.
Qed.

Lemma white_at_join q r :
  white_at q = O -> q <> ""%string -> (r = ""%string \/ white_at r <> O) ->
  white_at (q ++ r)%string = O.
Proof.
  intros Hq Hne [->|Hr]; [now rewrite append_nil_r|].
  destruct (white_at_first r Hr) as (b & r' & -> & H2 & H3 & H3').
  destruct q as [|c1 [|c2 [|c3 q]]]; [congruence| | |];
    rewrite ?append_cons; cbn [white_at] in *;
    change (EmptyString ++ ?x)%string with x.
  - destruct (is_space c1); [congruence|]. rewrite H2.
    destruct r'; [reflexivity|]. now rewrite H3.
  - destruct (is_space c1); [congruence|].
    destruct (is_space2 c1 c2); [congruence|]. now rewrite H3'.
  - exact Hq.
Qed.

Lemma flush_nil word : flush word [] = split_ws_from "" word.
Proof. reflexivity. Qed.

Lemma split_ws_white r word :
  all_white r = true -> split_ws_from r word = flush word [].
Proof.
  revert word. induction r as [r IH] using str_ind_len. intros word Hr.
  destruct (all_white_cases r Hr) as [->|Hw]; [reflexivity|].
  destruct r as [|c r]; [reflexivity|]. rewrite split_ws_step.
  pose proof (skip_shorter _ Hw) as Hlt. pose proof (all_white_skip _ Hw) as Hall.
  destruct (white_at (String c r)) eqn:E; [congruence|].
  rewrite (IH _ Hlt ""%string) by now rewrite Hall.
  reflexivity.
Qed.

(** White text at the end does not count. *)
Lemma split_ws_app_white q r word :
  all_white r = true -> split_ws_from (q ++ r)%string word = split_ws_from q word.
Proof.
  intros Hr. revert word. induction q as [q IH] using str_ind_len. intros word.
  destruct q as [|c q]; [now apply split_ws_white|].
  rewrite append_cons, !split_ws_step.
  change (String c (q ++ r)%string) with (String c q ++ r)%string.
  destruct (white_at (String c q)) eqn:E.
  - rewrite (white_at_join _ r E) by (discriminate || now apply all_white_cases).
    apply IH. cbn. lia.
  - assert (white_at (String c q) <> O) as Hw by lia.
    pose proof (skip_app _ r Hw) as Hskip. pose proof (skip_shorter _ Hw) as Hlt.
    rewrite (white_at_app _ r Hw). rewrite E in *. rewrite Hskip.
    now rewrite (IH _ Hlt).
Qed.

Lemma split_ws_rstrip s word : split_ws_from (rstrip s) word = split_ws_from s word.
Proof.
  destruct (rstrip_split s) as (r & Hs & Hr). rewrite Hs at 2.
  symmetry. now apply split_ws_app_white.
Qed.

Lemma split_ws_lstrip s : split_ws_from (lstrip s) "" = split_ws_from s "".
Proof.
  induction s as [s IH] using str_ind_len. rewrite lstrip_step.
  destruct (white_at s) eqn:E; [reflexivity|].
  assert (white_at s <> O) as Hw by lia.
  pose proof (skip_shorter _ Hw) as Hlt. rewrite E in Hlt.
  rewrite (IH _ Hlt).
  destruct s as [|c s]; [discriminate|]. rewrite (split_ws_step c s), E.
  reflexivity.
Qed.

(** [text.strip().split()] is [text.split()]. *)
Lemma split_ws_strip s : split_ws (strip s) = split_ws s.
Proof. unfold split_ws, strip. now rewrite split_ws_rstrip, split_ws_lstrip. Qed.

Lemma split_ws_from_word w rest acc :
  no_space w = true -> (rest = ""%string \/ white_at rest <> O) ->
  split_ws_from (w ++ rest)%string acc = split_ws_from rest (acc ++ w)%string.
Proof.
  intros Hw Hrest. revert acc. induction w as [|c w IH]; intros acc;
    [now rewrite append_nil_r|].
  cbn [no_space] in Hw. apply andb_true_iff in Hw as [Hc Hw].
  apply Nat.eqb_eq in Hc.
  rewrite append_cons, split_ws_step, <- append_cons.
  rewrite (white_at_join _ rest Hc) by (discriminate || exact Hrest).
  rewrite IH by exact Hw. f_equal. rewrite append_assoc. now rewrite append_cons.
Qed.

(** [" ".join(names).split()] gives the names back. *)
Lemma split_ws_unwords names :
  forallb is_word names = true -> split_ws (String.concat " " names) = names.
Proof.
  unfold split_ws. induction names as [|x names IH]; [reflexivity|].
  cbn [forallb]. intros H. apply andb_true_iff in H as [Hx Hnames].
  apply andb_true_iff in Hx as [Hne Hns].
  assert (String.eqb x "" = false) as Hne' by now destruct (String.eqb x "").
  cbn [String.concat]. destruct names as [|y names].
  - rewrite <- (append_nil_r x) at 1.
    rewrite split_ws_from_word by (exact Hns || now left).
    change ("" ++ x)%string with x. cbn [split_ws_from]. unfold flush.
    now rewrite Hne'.
  - rewrite split_ws_from_word by (exact Hns || (right; discriminate)).
    change ("" ++ x)%string with x.
    change (" " ++ ?t)%string with (String " " t).
    rewrite split_ws_step. change (white_at (String " " ?t)) with 1%nat.
    cbv iota. cbn [skip]. unfold flush at 1. rewrite Hne'. f_equal.
    exact (IH Hnames).
Qed.

End TextFacts.

(** ** The list of analyzers *)

Section AnalyzersMore.
Import K8sgpt.

(** X12.  [get_available_analyzers] answers with names that are not empty and
    carry no white space around them, one for each line of the output
    that is not blank; whatever goes wrong once the active credential is
    known comes back as status 500. *)
Theorem analyzers_are_stripped_lines (active : active_answer) (run : Exec.world) :
  match Service.get_available_analyzers active run with
  | Ok analyzers =>
      Forall (fun a => a <> ""%string /\ strip a = a) analyzers
      /\ forall out kp cn,
           active = Ok (kp, cn) ->
           Exec.execute_command run (Service.analyzers_command kp)
           = Ok (JDict [("stdout", JStr out)]) ->
           analyzers
           = map strip
               (List.filter (fun line => negb (String.eqb (strip line) ""))
                  (split_lines out))
  | Raise e =>
      active = Raise e
      \/ (exists kp cn, active = Ok (kp, cn)) /\ exists detail, e = HTTPException 500 detail
  end.
Proof.
  unfold Service.get_available_analyzers.
  destruct active as [[kp cn]|e]; [|now left]. cbv beta iota zeta.
  destruct (Exec.execute_command run (Service.analyzers_command kp)) as [result|e] eqn:E;
    [|right; split; eexists; try eexists; reflexivity].
  cbn [mbind res_bind].
  destruct (Service.stdout_in result) as [found|e] eqn:Ein;
    [|right; split; eexists; try eexists; reflexivity].
  cbn [mbind res_bind]. destruct found.
  - destruct (Service.stdout_of result) as [text|e] eqn:Eout;
      [|right; split; eexists; try eexists; reflexivity].
    cbn [mbind res_bind].
    destruct text as [| | | | t | |];
      try (right; split; eexists; try eexists; reflexivity).
    cbn [Service.stripped_lines]. split.
    + apply List.Forall_map. apply List.Forall_forall. intros line Hline.
      apply List.filter_In in Hline as [_ Hline]. split; [|apply strip_idem].
      intros H. now rewrite H in Hline.
    + intros out kp' cn' [= <- <-] H. rewrite E in H. injection H as ->.
      cbn in Eout. now injection Eout as <-.
  - split; [constructor|]. intros out kp' cn' [= <- <-] H. rewrite E in H.
    injection H as ->. discriminate.
Qed.

(** A line that holds a no-break space and nothing else is blank. *)
Example analyzers_skip_no_break_space :
  Service.get_available_analyzers (Ok (Samples.some_path, "prod"%string))
    (Samples.kubectl_prints (Samples.nbsp ++ String "010" "Pod"))
  = Ok ["Pod"%string].
Proof. vm_compute. reflexivity. Qed.

End AnalyzersMore.

(** ** Paths of uploaded files *)

Section PathFacts.
Import Kubeconfig Credentials.

Lemma rfind_from_ge c s i last :
  rfind_from c s i last = last \/ i <= rfind_from c s i last.
Proof.
  revert i last. induction s as [|a s IH]; intros i last; [now left|].
  cbn [rfind_from].
  destruct (IH (i + 1) (if Ascii.eqb a c then i else last)) as [->|H].
  - destruct (Ascii.eqb a c); [right; lia|now left].
  - right. lia.
Qed.

Lemma substring_empty n m : substring n m "" = "".
Proof. now destruct n, m. Qed.

(** No slash at or after an index that lies behind the last slash. *)
Lemma no_slash_after_last s : forall i last (k m : nat),
  last < i -> rfind_from "/" s i last < i + Z.of_nat k ->
  no_slash (substring k m s) = true.
Proof.
  induction s as [|a s IH]; intros i last k m Hlast Hr;
    [now rewrite substring_empty|].
  cbn [rfind_from] in Hr. destruct k as [|k].
  - assert (Ascii.eqb a "/" = false) as Ha.
    { destruct (Ascii.eqb a "/") eqn:E; [|reflexivity].
      destruct (rfind_from_ge "/" s (i + 1) i) as [H|H]; lia. }
    rewrite Ha in Hr. destruct m as [|m]; [reflexivity|].
    cbn [substring no_slash]. rewrite Ha. cbn [negb andb].
    apply (IH (i + 1) last 0%nat m); lia.
  - cbn [substring].
    apply (IH (i + 1) (if Ascii.eqb a "/" then i else last) k m);
      [destruct (Ascii.eqb a "/"); lia|lia].
Qed.

(** The extension taken from the name of the uploaded file never holds
    a slash. *)
Lemma splitext_ext_no_slash p : no_slash (splitext_ext p) = true.
Proof.
  unfold splitext_ext. cbv zeta.
  destruct (rfind "/" p <? rfind "." p)%Z eqn:E; [|reflexivity].
  destruct (all_dots _); [reflexivity|]. apply Z.ltb_lt in E.
  unfold slice. apply (no_slash_after_last p 0 (-1)); [lia|].
  fold (rfind "/" p).
  destruct (rfind_from_ge "/" p 0 (-1)) as [H|H]; unfold rfind in E |- *; lia.
Qed.

Lemma no_slash_app a b : no_slash (a ++ b) = (no_slash a && no_slash b)%bool.
Proof.
  induction a as [|c a IH]; [reflexivity|].
  rewrite append_cons. cbn [no_slash]. rewrite IH. now rewrite andb_assoc.
Qed.

Lemma path_join_relative a b :
  (forall b', b <> String "/" b') ->
  path_join a b
  = if (String.eqb a "" || ends_with_slash a)%bool then (a ++ b)%string
    else (a ++ "/" ++ b)%string.
Proof.
  intros H. destruct b as [|c b]; [reflexivity|].
  destruct c as [[] [] [] [] [] [] [] []]; try reflexivity. now destruct (H b).
Qed.

(** A name that is one path component is listed under itself in the
    upload directory. *)
Lemma listed_file_join name :
  String.eqb name "" = false -> no_slash name = true ->
  path_join UPLOAD_DIR name = (UPLOAD_DIR ++ "/" ++ name)%string
  /\ listed_file (path_join UPLOAD_DIR name) = Some name.
Proof.
  intros Hne Hns.
  assert (path_join UPLOAD_DIR name = (UPLOAD_DIR ++ "/" ++ name)%string) as E.
  { rewrite path_join_relative; [reflexivity|].
    intros b' ->. cbn in Hns. discriminate. }
  split; [exact E|]. rewrite E. unfold listed_file.
  change (strip_prefix (UPLOAD_DIR ++ "/") (UPLOAD_DIR ++ "/" ++ name))
    with (Some name).
  cbv beta iota. now rewrite Hne, Hns.
Qed.

Lemma uploaded_name_listed uuid fn :
  uuid_like uuid = true ->
  path_join UPLOAD_DIR (uuid ++ splitext_ext fn)
  = (UPLOAD_DIR ++ "/" ++ uuid ++ splitext_ext fn)%string
  /\ listed_file (path_join UPLOAD_DIR (uuid ++ splitext_ext fn))
     = Some (uuid ++ splitext_ext fn)%string.
Proof.
  intros H. apply andb_true_iff in H as [Hne Hns]. apply listed_file_join.
  - destruct uuid; [discriminate|reflexivity].
  - now rewrite no_slash_app, Hns, splitext_ext_no_slash.
Qed.

End PathFacts.

(** ** The credential store over all of its routes and tasks *)

Section CredentialsInv.
Import Kubeconfig Credentials.

Lemma find_filter_head {A : Type} (f : A -> bool) (l : list A) :
  find f l = match List.filter f l with x :: _ => Some x | [] => None end.
Proof.
  induction l as [|x l IH]; [reflexivity|]. cbn [find List.filter].
  now destruct (f x).
Qed.

(** A rewriting of rows that leaves key, owner, flag, name and path
    alone keeps the invariant. *)
Lemma kubeconf_inv_map (g : Kubeconf -> Kubeconf) rows :
  (forall k, kc_id (g k) = kc_id k /\ user_id (g k) = user_id k
             /\ active (g k) = active k) ->
  kubeconf_inv rows -> kubeconf_inv (map g rows).
Proof.
  intros Hg [Hpk Hone]. split.
  - unfold primary_key. rewrite List.map_map.
    rewrite (List.map_ext _ kc_id); [exact Hpk|]. intros k. apply Hg.
  - intros u. etransitivity; [|apply Hone].
    apply (flagged_map_le user_id active). intros k _.
    destruct (Hg k) as (_ & -> & ->). auto.
Qed.

Lemma stored_map (g : Kubeconf -> Kubeconf) rows :
  (forall k, filename (g k) = filename k /\ path (g k) = path k) ->
  Forall stored_under_upload_dir rows -> Forall stored_under_upload_dir (map g rows).
Proof.
  intros Hg H. apply List.Forall_map. revert H. apply List.Forall_impl.
  intros k. unfold stored_under_upload_dir. destruct (Hg k) as [-> ->]. auto.
Qed.

Lemma stored_filter (keep : Kubeconf -> bool) rows :
  Forall stored_under_upload_dir rows ->
  Forall stored_under_upload_dir (List.filter keep rows).
Proof.
  intros H. apply List.Forall_forall. intros k Hk.
  apply List.filter_In in Hk as [Hk _]. revert k Hk. now apply List.Forall_forall.
Qed.

Lemma set_cluster_names_inv learned rows :
  kubeconf_inv rows /\ Forall stored_under_upload_dir rows ->
  kubeconf_inv (fold_left set_cluster_name learned rows)
  /\ Forall stored_under_upload_dir (fold_left set_cluster_name learned rows).
Proof.
  revert rows. induction learned as [|l learned IH]; intros rows [H1 H2];
    [now split|].
  cbn [fold_left]. apply IH. unfold set_cluster_name. split.
  - apply kubeconf_inv_map; [|exact H1].
    intros k. now destruct (kc_id k =? fst l)%Z.
  - apply stored_map; [|exact H2].
    intros k. now destruct (kc_id k =? fst l)%Z.
Qed.

Lemma upload_rows run uuid now save commit_error fn content uid s :
  let out := upload_kubeconfig run uuid now save commit_error fn content uid s in
  (exists e, fst out = Raise e /\ kubeconfs (snd out) = kubeconfs s)
  \/ exists k, fst out = Ok k /\ kubeconfs (snd out) = kubeconfs s ++ [k]
               /\ filename k = (uuid ++ splitext_ext fn)%string
               /\ path k = path_join UPLOAD_DIR (uuid ++ splitext_ext fn)%string.
Proof.
  cbv zeta.
  destruct (upload_cases run uuid now save commit_error fn content uid s) as [_ H].
  destruct (fst (upload_kubeconfig run uuid now save commit_error fn content uid s))
    as [k|e].
  - right. exists k. destruct H as (_ & _ & Hr & _ & _ & _ & Hp & Hf & _). auto.
  - left. exists e. destruct H as [_ Hr]. auto.
Qed.

Lemma credentials_reachable_inv s : reachable s -> credentials_inv s.
Proof.
  induction 1 as [|s run uuid now save commit_error fn content uid Hs IH Huuid
                  |s fname uid Hs IH
                  |s fname uid err Hs IH|s run uid Hs IH|s run uid Hs IH
                  |s stuck Hs IH|s Hs IH|s p Hs IH].
  - split; [apply kubeconf_inv_init|constructor].
  - destruct IH as [H1 H2]. split.
    + exact (kubeconf_inv_step s (Upload run uuid now save commit_error fn content uid) H1).
    + destruct (upload_rows run uuid now save commit_error fn content uid s)
        as [(e & _ & ->)|(k & _ & -> & Hf & Hp)]; [exact H2|].
      apply List.Forall_app. split; [exact H2|]. constructor; [|constructor].
      destruct (uploaded_name_listed uuid fn Huuid) as [_ Hl].
      unfold stored_under_upload_dir. now rewrite Hp, Hf.
  - destruct IH as [H1 H2]. split.
    + exact (kubeconf_inv_step s (Activate fname uid) H1).
    + unfold set_active_kubeconfig.
      destruct (lookup_kubeconf fname uid (kubeconfs s)) as [t|]; [|exact H2].
      cbn [snd with_rows kubeconfs]. unfold update_active, deactivate_all.
      apply stored_map; [intros r; now destruct (kc_id r =? _)%Z|].
      apply stored_map; [intros r; now destruct (user_id r =? _)%Z|exact H2].
  - destruct IH as [H1 H2]. split.
    + exact (kubeconf_inv_step s (Remove fname uid err) H1).
    + unfold remove_kubeconfig.
      destruct (lookup_kubeconf fname uid (kubeconfs s)) as [t|]; [|exact H2].
      destruct (negb _); [now apply stored_filter|].
      destruct err; [exact H2|now apply stored_filter].
  - unfold get_cluster_names.
    destruct (probe_all run s _) as [[[names errors] learned]|e]; [|exact IH].
    cbn [snd]. apply set_cluster_names_inv. exact IH.
  - destruct IH as [H1 H2]. unfold install_operator.
    destruct (get_active_kubeconfig uid s) as [k|e]; [|now split].
    destruct (negb _); [now split|].
    destruct (run_commands run _) as [results success].
    destruct success; [|now split]. cbn [snd with_rows kubeconfs].
    unfold set_operator_installed. split.
    + apply kubeconf_inv_map; [|exact H1]. intros r. now destruct (kc_id r =? _)%Z.
    + apply stored_map; [|exact H2]. intros r. now destruct (kc_id r =? _)%Z.
  - exact IH.
  - destruct IH as [H1 H2]. split.
    + exact (kubeconf_inv_step s Validate H1).
    + cbn [validate_kubeconfigs with_rows kubeconfs].
      apply stored_map; [|exact H2]. intros r. now destruct (negb _).
  - exact IH.
Qed.

Lemma active_is_unique s uid k :
  reachable s -> In k (kubeconfs s) -> user_id k = uid -> active k = true ->
  active_of uid (kubeconfs s) = [k].
Proof.
  intros Hs Hin Hu Ha. destruct (credentials_reachable_inv s Hs) as [[_ Hone] _].
  apply at_most_one_is; [apply Hone|]. apply List.filter_In.
  split; [exact Hin|]. now rewrite Hu, Z.eqb_refl, Ha.
Qed.

End CredentialsInv.

(** ** Credentials: activation, removal and the operator *)

Section CredentialsMore.
Import Kubeconfig Credentials.

Lemma listed_file_some p name :
  listed_file p = Some name -> String.eqb name "" = false /\ no_slash name = true.
Proof.
  unfold listed_file. destruct (strip_prefix _ p) as [n|]; [|discriminate].
  destruct (String.eqb n "") eqn:E1; [discriminate|].
  destruct (no_slash n) eqn:E2; [|discriminate].
  intros [= <-]. now split.
Qed.

(** X13.  Whatever the name of the uploaded file, over every route and task
    of the service a stored credential lies in the upload directory,
    one path component below it, under the name the row bears; rows
    have a primary key and an owner has at most one active row. *)
Theorem credentials_stay_in_upload_dir (s : state) :
  reachable s ->
  primary_key kc_id (kubeconfs s)
  /\ (forall uid, (length (active_of uid (kubeconfs s)) <= 1)%nat)
  /\ Forall (fun k => path k = (UPLOAD_DIR ++ "/" ++ filename k)%string
                      /\ filename k <> ""%string /\ no_slash (filename k) = true)
       (kubeconfs s).
Proof.
  intros Hs. destruct (credentials_reachable_inv s Hs) as [[Hpk Hone] Hst].
  split; [exact Hpk|]. split; [exact Hone|].
  revert Hst. apply List.Forall_impl. intros k [Hp Hl].
  destruct (listed_file_some _ _ Hl) as [Hne Hns].
  destruct (listed_file_join _ Hne Hns) as [Hj _].
  split; [now rewrite Hp|]. split; [|exact Hns].
  intros E. now rewrite E in Hne.
Qed.

Lemma credentials_stay_in_upload_dir_witness :
  Forall (fun k => path k = (UPLOAD_DIR ++ "/" ++ filename k)%string
                   /\ filename k <> ""%string /\ no_slash (filename k) = true)
    (kubeconfs
       (snd (upload_kubeconfig (Samples.kubectl_prints "prod") "u-1" 0
               Written None "../../etc/cron.d/job.yaml" "apiVersion: v1" 1 init))).
Proof.
  apply (credentials_stay_in_upload_dir
           (snd (upload_kubeconfig (Samples.kubectl_prints "prod") "u-1" 0
                   Written None "../../etc/cron.d/job.yaml" "apiVersion: v1" 1 init))).
  apply reach_upload; [apply reach_init|reflexivity].
Defined.

(** X14.  After a successful activation [get_active_kubeconfig] gives the
    caller the row just activated, and every other user what it gave
    before. *)
Theorem activated_is_the_active (s s1 : state) (fname : string) (uid : Z)
    (msg : string) :
  reachable s ->
  set_active_kubeconfig fname uid s = (Ok msg, s1) ->
  exists t,
    lookup_kubeconf fname uid (kubeconfs s) = Some t
    /\ get_active_kubeconfig uid s1 = Ok (with_active true t)
    /\ forall uid', uid' <> uid ->
         get_active_kubeconfig uid' s1 = get_active_kubeconfig uid' s.
Proof.
  intros Hs Hact. destruct (credentials_reachable_inv s Hs) as [[Hpk _] _].
  destruct (lookup_kubeconf fname uid (kubeconfs s)) as [t|] eqn:E;
    [|rewrite (set_active_missing _ _ _ E) in Hact; discriminate].
  rewrite (set_active_found _ _ _ _ E) in Hact. injection Hact as _ <-.
  destruct (lookup_kubeconf_owner _ _ _ _ E) as (Hin & _ & Hu).
  exists t. split; [reflexivity|]. unfold get_active_kubeconfig.
  cbn [with_rows kubeconfs]. rewrite !find_filter_head. split.
  - assert (flagged_of user_id active uid
              (activate kc_id user_id with_active uid t (kubeconfs s))
            = [with_active true t]) as H
      by (apply (activate_flagged kc_id user_id active with_active); auto).
    unfold flagged_of in H. now rewrite H.
  - intros uid' Hne. rewrite !find_filter_head.
    assert (flagged_of user_id active uid'
              (activate kc_id user_id with_active uid t (kubeconfs s))
            = flagged_of user_id active uid' (kubeconfs s)) as H
      by (apply (activate_flagged_other kc_id user_id active with_active); auto).
    unfold flagged_of in H. now rewrite H.
Qed.

Lemma uploaded_twice_reachable : reachable Samples.uploaded_twice.
Proof.
  apply reach_activate.
  apply reach_upload; [|reflexivity].
  apply reach_upload; [apply reach_init|reflexivity].
Defined.

Lemma activated_is_the_active_witness :
  exists t,
    lookup_kubeconf "u-2.yaml" 1 (kubeconfs Samples.uploaded_twice) = Some t
    /\ get_active_kubeconfig 1
         (snd (set_active_kubeconfig "u-2.yaml" 1 Samples.uploaded_twice))
       = Ok (with_active true t).
Proof.
  destruct (activated_is_the_active Samples.uploaded_twice
              (snd (set_active_kubeconfig "u-2.yaml" 1 Samples.uploaded_twice))
              "u-2.yaml" 1 _ uploaded_twice_reachable eq_refl)
    as (t & Hl & Hg & _).
  exists t. now split.
Defined.

(** X15.  Removing the active credential leaves its owner without an active
    one: nothing is promoted, and the routes that need the active
    credential answer 404. *)
Theorem removing_the_active_leaves_none (s s1 : state) (fname : string) (uid : Z)
    (os_error : option string) (msg : string) (k : Kubeconf) (run : Exec.world) :
  reachable s ->
  lookup_kubeconf fname uid (kubeconfs s) = Some k -> active k = true ->
  remove_kubeconfig fname uid os_error s = (Ok msg, s1) ->
  get_active_kubeconfig uid s1 = Raise (HTTPException 404 "No active kubeconfig found")
  /\ install_operator run uid s1
     = (Raise (HTTPException 404 "No active kubeconfig found"), s1)
  /\ get_namespaces run uid s1 = Raise (HTTPException 404 "No active kubeconfig found")
  /\ kubeconfs s1 = delete_row (kc_id k) (kubeconfs s).
Proof.
  intros Hs E Ha Hrm.
  destruct (lookup_kubeconf_owner _ _ _ _ E) as (Hin & _ & Hu).
  pose proof (active_is_unique s uid k Hs Hin Hu Ha) as Hk.
  assert (kubeconfs s1 = delete_row (kc_id k) (kubeconfs s)) as Hrows.
  { unfold remove_kubeconfig in Hrm. rewrite E in Hrm.
    destruct (negb _); [now injection Hrm as _ <-|].
    destruct os_error; [discriminate|]. now injection Hrm as _ <-. }
  assert (get_active_kubeconfig uid s1
          = Raise (HTTPException 404 "No active kubeconfig found")) as Hnone.
  { unfold get_active_kubeconfig. rewrite find_filter_head, Hrows.
    destruct (List.filter _ (delete_row _ _)) as [|x l] eqn:Ex; [reflexivity|].
    assert (In x (List.filter (fun r => ((user_id r =? uid)%Z && active r)%bool)
                    (delete_row (kc_id k) (kubeconfs s)))) as Hx
      by (rewrite Ex; now left).
    apply List.filter_In in Hx as [Hx Hflag]. apply List.filter_In in Hx as [Hx Hne].
    assert (In x (active_of uid (kubeconfs s))) as Hx'
      by (apply List.filter_In; now split).
    rewrite Hk in Hx'. destruct Hx' as [<-|[]]. now rewrite Z.eqb_refl in Hne. }
  split; [exact Hnone|]. split; [|split; [|exact Hrows]].
  - unfold install_operator. now rewrite Hnone.
  - unfold get_namespaces. now rewrite Hnone.
Qed.

Lemma removing_the_active_leaves_none_witness :
  get_active_kubeconfig 1
    (snd (remove_kubeconfig "u-1.yaml" 1 None Samples.uploaded_twice))
  = Raise (HTTPException 404 "No active kubeconfig found").
Proof.
  apply (removing_the_active_leaves_none Samples.uploaded_twice
           (snd (remove_kubeconfig "u-1.yaml" 1 None Samples.uploaded_twice))
           "u-1.yaml" 1 None _ _ Samples.kubectl_fails
           uploaded_twice_reachable eq_refl eq_refl eq_refl).
Defined.

(** X16.  [POST /install-operator] answers 200 whatever [helm] does; the
    operator flag is set exactly when all three commands succeed, on the
    active credential and on nothing else, and a failure leaves the
    state untouched and ends the list of results. *)
Theorem operator_flag_needs_all_three (run : Exec.world) (uid : Z) (s : state)
    (k : Kubeconf) :
  get_active_kubeconfig uid s = Ok k -> path_exists s (path k) = true ->
  let out := install_operator run uid s in
  let ok :=
    forallb (fun c => match Exec.execute_command run c with
                      | Ok _ => true
                      | Raise _ => false
                      end) (helm_commands (path k)) in
  exists results,
    fst out = Ok (JDict [("results", JList results); ("operator_installed", JBool ok)])
    /\ (1 <= length results <= 3)%nat
    /\ (ok = true ->
        length results = 3%nat
        /\ get_active_kubeconfig uid (snd out) = Ok (with_operator_installed true k)
        /\ disk (snd out) = disk s
        /\ map (with_operator_installed false) (kubeconfs (snd out))
           = map (with_operator_installed false) (kubeconfs s))
    /\ (ok = false ->
        snd out = s
        /\ exists cmd detail,
             List.last results JNull = JDict [("command", JStr cmd); ("error", JStr detail)]).
Proof.
  intros Hact Hdisk. cbv zeta. unfold install_operator. rewrite Hact, Hdisk.
  cbn [negb]. unfold helm_commands. cbn [run_commands forallb].
  destruct (Exec.execute_command run _) as [r1|e1].
  - destruct (Exec.execute_command run _) as [r2|e2].
    + destruct (Exec.execute_command run _) as [r3|e3].
      * cbn [fst snd andb]. eexists. split; [reflexivity|].
        split; [cbn; lia|]. split; [|discriminate]. intros _.
        split; [reflexivity|]. cbn [with_rows kubeconfs disk].
        split; [|split; [reflexivity|]].
        -- unfold get_active_kubeconfig in *. cbn [with_rows kubeconfs].
           unfold set_operator_installed. rewrite find_map_same.
           ++ destruct (find _ (kubeconfs s)) as [a|]; [|discriminate].
              injection Hact as ->. cbn [option_map]. now rewrite Z.eqb_refl.
           ++ intros r. now destruct (kc_id r =? kc_id k)%Z.
        -- unfold set_operator_installed. rewrite List.map_map.
           apply List.map_ext. intros r. now destruct (kc_id r =? kc_id k)%Z.
      * cbn [fst snd andb]. eexists. split; [reflexivity|].
        split; [cbn; lia|]. split; [discriminate|]. intros _.
        split; [reflexivity|]. eexists. eexists. reflexivity.
    + cbn [fst snd andb]. eexists. split; [reflexivity|].
      split; [cbn; lia|]. split; [discriminate|]. intros _.
      split; [reflexivity|]. eexists. eexists. reflexivity.
  - cbn [fst snd andb]. eexists. split; [reflexivity|].
    split; [cbn; lia|]. split; [discriminate|]. intros _.
    split; [reflexivity|]. eexists. eexists. reflexivity.
Qed.

Lemma operator_flag_needs_all_three_witness :
  exists results,
    fst (install_operator Samples.kubectl_fails 1 Samples.uploaded_twice)
    = Ok (JDict [("results", JList results); ("operator_installed", JBool false)])
    /\ length results = 1%nat.
Proof.
  destruct (operator_flag_needs_all_three Samples.kubectl_fails 1
              Samples.uploaded_twice _ eq_refl eq_refl)
    as (results & Hfst & _ & _ & _).
  exists results. split; [exact Hfst|].
  vm_compute in Hfst. injection Hfst as <-. reflexivity.
Defined.

(** X17.  [GET /namespaces] answers with the words of the output of
    [kubectl]: names printed with blanks between them come back as they
    are.  An output that is itself a JSON value which is no dictionary,
    such as the one name [123], is answered with status 500. *)
Theorem namespaces_are_the_words (run : Exec.world) (uid : Z) (s : state)
    (k : Kubeconf) :
  get_active_kubeconfig uid s = Ok k -> path_exists s (path k) = true ->
  (forall out,
      Exec.execute_command run (namespaces_command (path k))
      = Ok (JDict [("stdout", JStr out)]) ->
      get_namespaces run uid s
      = Ok (JDict [("namespaces", JList (map JStr (split_ws out)))])
      /\ forall names, forallb is_word names = true ->
           out = String.concat " " names ->
           get_namespaces run uid s = Ok (JDict [("namespaces", JList (map JStr names))]))
  /\ (forall v,
        Exec.execute_command run (namespaces_command (path k)) = Ok v ->
        (forall d, v <> JDict d) ->
        get_namespaces run uid s
        = Raise (HTTPException 500
                   "Error fetching namespaces: Unexpected result format from execute_command")).
Proof.
  intros Hact Hdisk. unfold get_namespaces. rewrite Hact. cbn [mbind res_bind].
  cbv zeta. rewrite Hdisk. cbn [negb]. split.
  - intros out ->. cbn [mbind res_bind]. cbn [assoc]. cbn.
    rewrite split_ws_strip. split; [reflexivity|].
    intros names Hw ->. now rewrite split_ws_unwords.
  - intros v -> Hv. cbn [mbind res_bind].
    destruct v as [| | | | | |d]; try reflexivity. now destruct (Hv d).
Qed.

Lemma namespaces_are_the_words_witness :
  get_namespaces (Samples.kubectl_prints "default kube-system") 1 Samples.uploaded_twice
  = Ok (JDict [("namespaces", JList [JStr "default"; JStr "kube-system"])])
  /\ get_namespaces
       (Samples.kubectl_prints ("default" ++ Samples.nbsp ++ "kube-system")) 1
       Samples.uploaded_twice
     = Ok (JDict [("namespaces", JList [JStr "default"; JStr "kube-system"])])
  /\ get_namespaces Samples.kubectl_prints_number 1 Samples.uploaded_twice
     = Raise (HTTPException 500
                "Error fetching namespaces: Unexpected result format from execute_command").
Proof.
  split; [|split].
  - destruct (namespaces_are_the_words (Samples.kubectl_prints "default kube-system") 1
                Samples.uploaded_twice _ eq_refl eq_refl) as [H _].
    destruct (H "default kube-system" eq_refl) as [_ Hnames].
    exact (Hnames ["default"; "kube-system"]%string eq_refl eq_refl).
  - destruct (namespaces_are_the_words
                (Samples.kubectl_prints ("default" ++ Samples.nbsp ++ "kube-system")) 1
                Samples.uploaded_twice _ eq_refl eq_refl) as [H _].
    destruct (H ("default" ++ Samples.nbsp ++ "kube-system")%string eq_refl)
      as [Hwords _].
    exact Hwords.
  - destruct (namespaces_are_the_words Samples.kubectl_prints_number 1
                Samples.uploaded_twice _ eq_refl eq_refl) as [_ H].
    apply (H (JInt 123) eq_refl). intros d. discriminate.
Defined.

Lemma insert_by_desc_perm {A : Type} (key : A -> Z) x l :
  Permutation (insert_by_desc key x l) (x :: l).
Proof.
  induction l as [|y l IH]; cbn; [reflexivity|].
  destruct (key y <=? key x)%Z; [reflexivity|].
  rewrite IH. apply perm_swap.
Qed.

Lemma sort_by_desc_perm {A : Type} (key : A -> Z) rows :
  Permutation (sort_by_desc key rows) rows.
Proof.
  induction rows as [|x rows IH]; cbn; [reflexivity|].
  rewrite insert_by_desc_perm. now constructor.
Qed.

Lemma insert_by_desc_sorted {A : Type} (key : A -> Z) x l :
  StronglySorted (fun a b => key b <= key a) l ->
  StronglySorted (fun a b => key b <= key a) (insert_by_desc key x l).
Proof.
  induction 1 as [|y l Hl IH Hy]; cbn; [repeat constructor|].
  destruct (Z.leb_spec (key y) (key x)) as [Hle|Hlt].
  - constructor; [now constructor|]. constructor; [exact Hle|].
    eapply List.Forall_impl; [|exact Hy]. cbn. intros; lia.
  - constructor; [exact IH|].
    apply List.Forall_forall. intros z Hz.
    apply (Permutation_in _ (insert_by_desc_perm key x l)) in Hz as [<-|Hz]; [lia|].
    rewrite List.Forall_forall in Hy. now apply Hy.
Qed.

Lemma sort_by_desc_sorted {A : Type} (key : A -> Z) rows :
  StronglySorted (fun a b => key b <= key a) (sort_by_desc key rows).
Proof.
  induction rows as [|x rows IH]; cbn; [constructor|].
  now apply insert_by_desc_sorted.
Qed.

(** X18.  [GET /list] shows the caller each of their credentials once, none
    of anybody else, the newest first. *)
Theorem listing_is_own_newest_first (uid : Z) (s : state) :
  Permutation (list_kubeconfigs uid s)
    (List.filter (fun k => (user_id k =? uid)%Z) (kubeconfs s))
  /\ (forall k, In k (list_kubeconfigs uid s) <-> In k (kubeconfs s) /\ user_id k = uid)
  /\ StronglySorted (fun a b => created_at b <= created_at a) (list_kubeconfigs uid s).
Proof.
  split; [apply sort_by_desc_perm|]. split; [|apply sort_by_desc_sorted].
  intros k. unfold list_kubeconfigs. split.
  - intros H. apply (Permutation_in _ (sort_by_desc_perm _ _)) in H.
    apply List.filter_In in H as [H Hu]. apply Z.eqb_eq in Hu. now split.
  - intros [H Hu].
    apply (Permutation_in _ (Permutation_sym (sort_by_desc_perm _ _))).
    apply List.filter_In. split; [exact H|]. now apply Z.eqb_eq.
Qed.

Local Abbreviation unnamed k := (cluster_name k = None \/ cluster_name k = Some ""%string).

Lemma probe_cluster_facts run s k p :
  probe_cluster run s k = Ok p ->
  match p with
  | Listed entry None =>
      exists name, cluster_name k = Some name /\ name <> ""%string
                   /\ entry = cluster_entry k name
  | Listed entry (Some ln) =>
      fst ln = kc_id k /\ snd ln <> ""%string /\ entry = cluster_entry k (snd ln)
      /\ unnamed k /\ path_exists s (path k) = true
  | Errored err => unnamed k /\ exists msg, err = cluster_error k msg
  end.
Proof.
  unfold probe_cluster.
  assert (forall q : res probed,
            unnamed k ->
            (if negb (path_exists s (path k))
             then Ok (Errored (cluster_error k "Kubeconfig file not found on disk"))
             else q) = Ok p ->
            (path_exists s (path k) = true -> q = Ok p ->
             match p with
             | Listed entry None =>
                 exists name, cluster_name k = Some name /\ name <> ""%string
                              /\ entry = cluster_entry k name
             | Listed entry (Some ln) =>
                 fst ln = kc_id k /\ snd ln <> ""%string
                 /\ entry = cluster_entry k (snd ln)
                 /\ unnamed k /\ path_exists s (path k) = true
             | Errored err => unnamed k /\ exists msg, err = cluster_error k msg
             end) ->
            match p with
            | Listed entry None =>
                exists name, cluster_name k = Some name /\ name <> ""%string
                             /\ entry = cluster_entry k name
            | Listed entry (Some ln) =>
                fst ln = kc_id k /\ snd ln <> ""%string
                /\ entry = cluster_entry k (snd ln)
                /\ unnamed k /\ path_exists s (path k) = true
            | Errored err => unnamed k /\ exists msg, err = cluster_error k msg
            end) as Hprobe.
  { intros q Hun Hq Hk. destruct (path_exists s (path k)); cbn [negb] in Hq.
    - now apply Hk.
    - injection Hq as <-. split; [exact Hun|]. eexists. reflexivity. }
  assert (forall q : res probed, unnamed k -> q = Ok p ->
            q = match Exec.execute_command run (probe_cluster_command (path k)) with
                | Raise e => Ok (Errored (cluster_error k (detail_of e)))
                | Ok result =>
                    name ← stdout_stripped result;
                    match name with
                    | String _ _ =>
                        Ok (Listed (cluster_entry k name) (Some (kc_id k, name)))
                    | EmptyString =>
                        Ok (Errored (cluster_error k "Unable to retrieve cluster name"))
                    end
                end ->
            path_exists s (path k) = true ->
            match p with
            | Listed entry None =>
                exists name, cluster_name k = Some name /\ name <> ""%string
                             /\ entry = cluster_entry k name
            | Listed entry (Some ln) =>
                fst ln = kc_id k /\ snd ln <> ""%string
                /\ entry = cluster_entry k (snd ln)
                /\ unnamed k /\ path_exists s (path k) = true
            | Errored err => unnamed k /\ exists msg, err = cluster_error k msg
            end) as Hrun.
  { intros q Hun Hq -> Hdisk.
    destruct (Exec.execute_command run _) as [result|e].
    - destruct (stdout_stripped result) as [[|c n]|e]; cbn in Hq; [| |discriminate].
      + injection Hq as <-. split; [exact Hun|]. eexists. reflexivity.
      + injection Hq as <-. cbn [fst snd]. repeat split; auto; discriminate.
    - injection Hq as <-. split; [exact Hun|]. eexists. reflexivity. }
  destruct (cluster_name k) as [[|c n]|] eqn:En.
  - intros H. apply (Hprobe _ (or_intror eq_refl) H).
    intros Hdisk Hq. now apply (Hrun _ (or_intror eq_refl) Hq eq_refl).
  - intros [= <-]. exists (String c n). repeat split. discriminate.
  - intros H. apply (Hprobe _ (or_introl eq_refl) H).
    intros Hdisk Hq. now apply (Hrun _ (or_introl eq_refl) Hq eq_refl).
Qed.

Lemma probe_all_facts run s l names errors learned :
  probe_all run s l = Ok (names, errors, learned) ->
  (length names + length errors = length l)%nat
  /\ Forall (fun ln => exists k, In k l /\ kc_id k = fst ln /\ snd ln <> ""%string
                                 /\ unnamed k /\ path_exists s (path k) = true)
       learned
  /\ forall k name, In k l -> cluster_name k = Some name -> name <> ""%string ->
       In (cluster_entry k name) names.
Proof.
  revert names errors learned. induction l as [|k l IH]; intros names errors learned.
  - intros [= <- <- <-]. repeat split; [constructor|intros ? ? []].
  - cbn [probe_all]. destruct (probe_cluster run s k) as [p|e] eqn:Ep; [|discriminate].
    cbn [mbind res_bind].
    destruct (probe_all run s l) as [[[names' errors'] learned']|e]; [|discriminate].
    cbn [mbind res_bind]. destruct (IH _ _ _ eq_refl) as (Hlen & Hlearned & Hnamed).
    assert (Forall (fun ln => exists k0, In k0 (k :: l) /\ kc_id k0 = fst ln
                                        /\ snd ln <> ""%string /\ unnamed k0
                                        /\ path_exists s (path k0) = true) learned')
      as Hlearned'.
    { revert Hlearned. apply List.Forall_impl. intros ln (k0 & Hk0 & H).
      exists k0. split; [now right|exact H]. }
    pose proof (probe_cluster_facts run s k p Ep) as Hp.
    destruct p as [entry [ln|]|err]; intros [= <- <- <-].
    + destruct Hp as (Hid & Hne & -> & Hun & Hdisk). split; [cbn; lia|]. split.
      * constructor; [|exact Hlearned']. exists k. split; [now left|]. auto.
      * intros k0 name [<-|Hin] Hn Hne'.
        -- destruct Hun as [Hun|Hun]; rewrite Hun in Hn; [discriminate|].
           injection Hn as <-. now destruct Hne'.
        -- right. now apply (Hnamed k0).
    + destruct Hp as (name & Hn & Hne & ->). split; [cbn; lia|].
      split; [exact Hlearned'|].
      intros k0 name0 [<-|Hin] Hn0 Hne0.
      * rewrite Hn in Hn0. injection Hn0 as <-. now left.
      * right. now apply (Hnamed k0).
    + destruct Hp as (Hun & _). split; [cbn; lia|]. split; [exact Hlearned'|].
      intros k0 name [<-|Hin] Hn Hne'.
      * destruct Hun as [Hun|Hun]; rewrite Hun in Hn; [discriminate|].
        injection Hn as <-. now destruct Hne'.
      * now apply (Hnamed k0).
Qed.

Lemma forall2_map_r {A : Type} (R : A -> A -> Prop) (g : A -> A) l1 l2 :
  Forall2 R l1 l2 -> (forall a b, In a l1 -> R a b -> R a (g b)) ->
  Forall2 R l1 (map g l2).
Proof.
  induction 1 as [|a b l1 l2 Hab Hl IH]; intros Hg; [constructor|].
  cbn [map]. constructor; [apply Hg; [now left|exact Hab]|].
  apply IH. intros a' b' Hin. apply Hg. now right.
Qed.

Lemma forall2_same {A : Type} (R : A -> A -> Prop) (l : list A) :
  (forall a, R a a) -> Forall2 R l l.
Proof. intros H. induction l; constructor; auto. Qed.

Lemma set_cluster_names_rel (P : Kubeconf -> Prop) rows0 learned : forall rows,
  Forall (fun ln => snd ln <> ""%string
                    /\ forall k, In k rows0 -> kc_id k = fst ln -> P k) learned ->
  Forall2 (fun k k' => k' = k \/ (P k /\ exists name, name <> ""%string
                                               /\ k' = with_cluster_name name k))
    rows0 rows ->
  Forall2 (fun k k' => k' = k \/ (P k /\ exists name, name <> ""%string
                                               /\ k' = with_cluster_name name k))
    rows0 (fold_left set_cluster_name learned rows).
Proof.
  induction learned as [|ln learned IH]; intros rows Hl H; [exact H|].
  apply List.Forall_cons_iff in Hl as [[Hne HP] Hl].
  cbn [fold_left]. apply IH; [exact Hl|]. unfold set_cluster_name.
  apply forall2_map_r; [exact H|]. intros k k' Hin Hk.
  destruct (Z.eqb_spec (kc_id k') (fst ln)) as [Hid|]; [|exact Hk].
  assert (kc_id k = fst ln /\ with_cluster_name (snd ln) k' = with_cluster_name (snd ln) k)
    as [Hid' ->].
  { destruct Hk as [->|(_ & name & _ & ->)]; split; auto. }
  right. split; [now apply HP|]. now exists (snd ln).
Qed.

(** X19.  [GET /clusters] reports each credential of the caller once, under
    [cluster_names] or under [errors]; a credential whose name is stored
    is reported with that name.  The one thing it writes is the name of
    a row of the caller that had none and whose file is on disk; every
    other row, and the disk, are as they were. *)
Theorem cluster_names_report_each_row (run : Exec.world) (uid : Z) (s s1 : state)
    (response : json) :
  reachable s ->
  get_cluster_names run uid s = (Ok response, s1) ->
  exists names errors,
    response = cluster_names_response names errors
    /\ (length names + length errors
        = length (List.filter (fun k => (user_id k =? uid)%Z) (kubeconfs s)))%nat
    /\ (forall k name, In k (kubeconfs s) -> user_id k = uid ->
          cluster_name k = Some name -> name <> ""%string ->
          In (cluster_entry k name) names)
    /\ disk s1 = disk s
    /\ Forall2 (fun k k' =>
                  k' = k
                  \/ ((user_id k = uid /\ unnamed k /\ path_exists s (path k) = true)
                      /\ exists name, name <> ""%string /\ k' = with_cluster_name name k))
         (kubeconfs s) (kubeconfs s1).
Proof.
  intros Hs Hget. destruct (credentials_reachable_inv s Hs) as [[Hpk _] _].
  unfold get_cluster_names in Hget.
  destruct (probe_all run s _) as [[[names errors] learned]|e] eqn:Ep; [|discriminate].
  injection Hget as <- <-. destruct (probe_all_facts _ _ _ _ _ _ Ep) as (Hlen & Hl & Hn).
  exists names, errors. split; [reflexivity|]. split; [exact Hlen|]. split.
  - intros k name Hin Hu. apply Hn. apply List.filter_In. split; [exact Hin|].
    now apply Z.eqb_eq.
  - split; [reflexivity|]. cbn [with_rows kubeconfs].
    apply (set_cluster_names_rel
             (fun k => user_id k = uid /\ unnamed k /\ path_exists s (path k) = true)).
    + revert Hl. apply List.Forall_impl.
      intros ln (k0 & Hk0 & Hid & Hne & Hun & Hdisk). split; [exact Hne|].
      intros k Hin Hk. apply List.filter_In in Hk0 as [Hk0 Hu]. apply Z.eqb_eq in Hu.
      assert (k = k0) as -> by (apply (nodup_map_inj kc_id _ k k0 Hpk Hin Hk0); lia).
      auto.
    + apply forall2_same. now left.
Qed.

Lemma cluster_names_report_each_row_witness :
  let s :=
    snd (upload_kubeconfig (Samples.kubectl_prints "") "u-1" 0 Written None "a.yaml"
           "apiVersion: v1" 1 init) in
  exists names errors,
    fst (get_cluster_names (Samples.kubectl_prints "prod") 1 s)
    = Ok (cluster_names_response names errors)
    /\ (length names + length errors = 1)%nat.
Proof.
  cbv zeta.
  assert (reachable
            (snd (upload_kubeconfig (Samples.kubectl_prints "") "u-1" 0 Written None "a.yaml"
                    "apiVersion: v1" 1 init))) as Hs
    by (apply reach_upload; [apply reach_init|reflexivity]).
  destruct (cluster_names_report_each_row (Samples.kubectl_prints "prod") 1
              (snd (upload_kubeconfig (Samples.kubectl_prints "") "u-1" 0 Written None "a.yaml"
                      "apiVersion: v1" 1 init))
              (snd (get_cluster_names (Samples.kubectl_prints "prod") 1
                      (snd (upload_kubeconfig (Samples.kubectl_prints "") "u-1" 0
                              Written None "a.yaml" "apiVersion: v1" 1 init))))
              _ Hs eq_refl)
    as (names & errors & Hr & Hlen & _).
  exists names, errors. split; [|exact Hlen]. rewrite <- Hr. reflexivity.
Defined.

(** *** The background tasks *)

Lemma cleanup_lookup stuck s p :
  disk (cleanup_old_kubeconfigs stuck s) !! p
  = if swept stuck (kubeconfs s) p then None else disk s !! p.
Proof.
  cbn [cleanup_old_kubeconfigs disk]. apply option_eq. intros x.
  rewrite map_lookup_filter_Some. cbn [fst].
  destruct (swept stuck (kubeconfs s) p); split; try discriminate.
  - now intros [_ ?].
  - now intros [? _].
  - intros H. now split.
Qed.

Lemma cleanup_idem stuck s :
  cleanup_old_kubeconfigs stuck (cleanup_old_kubeconfigs stuck s)
  = cleanup_old_kubeconfigs stuck s.
Proof.
  unfold cleanup_old_kubeconfigs. cbn [kubeconfs disk]. f_equal.
  apply map_eq. intros p. apply option_eq. intros x.
  rewrite !map_lookup_filter_Some. cbn [fst]. tauto.
Qed.

Lemma row_file_not_swept stuck rows k :
  In k rows -> stored_under_upload_dir k -> swept stuck rows (path k) = false.
Proof.
  intros Hin [_ Hl]. unfold swept. rewrite Hl.
  assert (existsb (String.eqb (filename k)) (map filename rows) = true) as ->;
    [|reflexivity].
  apply List.existsb_exists. exists (filename k).
  split; [now apply List.in_map|apply String.eqb_refl].
Qed.

Lemma cleanup_keeps_row_files stuck s k :
  reachable s -> In k (kubeconfs s) ->
  disk (cleanup_old_kubeconfigs stuck s) !! path k = disk s !! path k.
Proof.
  intros Hs Hin. destruct (credentials_reachable_inv s Hs) as [_ Hst].
  rewrite cleanup_lookup, row_file_not_swept; [reflexivity|exact Hin|].
  rewrite List.Forall_forall in Hst. now apply Hst.
Qed.

Lemma append_same_prefix (a b c : string) : (a ++ b = a ++ c)%string -> b = c.
Proof.
  induction a as [|x a IH]; [trivial|]. rewrite !append_cons. intros [= H]. auto.
Qed.

Lemma upload_path_inj (name name' : string) :
  (UPLOAD_DIR ++ "/" ++ name = UPLOAD_DIR ++ "/" ++ name')%string -> name = name'.
Proof. intros H. now do 2 apply append_same_prefix in H. Qed.

(** X20.  The orphan sweep removes exactly the files of the upload directory
    that no row names and that [os.remove] accepts.  It writes no file
    and no row, it never removes the file of a credential, and a second
    sweep finds nothing left to do. *)
Theorem sweep_removes_orphans_only (stuck : string -> bool) (s : state) :
  reachable s ->
  let s' := cleanup_old_kubeconfigs stuck s in
  kubeconfs s' = kubeconfs s
  /\ (forall k, In k (kubeconfs s) -> disk s' !! path k = disk s !! path k)
  /\ (forall p, disk s' !! p = None \/ disk s' !! p = disk s !! p)
  /\ (forall p, disk s !! p <> None ->
        (disk s' !! p = None
         <-> exists name, p = (UPLOAD_DIR ++ "/" ++ name)%string
                          /\ name <> ""%string /\ no_slash name = true
                          /\ ~ In name (map filename (kubeconfs s))
                          /\ stuck p = false))
  /\ cleanup_old_kubeconfigs stuck s' = s'.
Proof.
  intros Hs. cbv zeta. split; [reflexivity|].
  split; [intros k; now apply cleanup_keeps_row_files|].
  split; [|split; [|apply cleanup_idem]].
  - intros p. rewrite cleanup_lookup. destruct (swept _ _ p); auto.
  - intros p Hp. rewrite cleanup_lookup. unfold swept, listed_file.
    destruct (strip_prefix (UPLOAD_DIR ++ "/") p) as [name|] eqn:Epre.
    + assert (p = (UPLOAD_DIR ++ "/" ++ name)%string) as Hpath.
      { clear -Epre. revert Epre.
        change (UPLOAD_DIR ++ "/" ++ name)%string
          with ((UPLOAD_DIR ++ "/") ++ name)%string.
        generalize (UPLOAD_DIR ++ "/")%string as pre. intros pre. revert p.
        induction pre as [|a pre IH]; intros p; cbn [strip_prefix].
        - now intros [= ->].
        - destruct p as [|b p]; [discriminate|].
          destruct (Ascii.eqb_spec a b) as [->|]; [|discriminate].
          intros H. rewrite append_cons. f_equal. now apply IH. }
      destruct (String.eqb_spec name "") as [Hn|Hn]; cbn [negb andb].
      * split; [intros H; now destruct Hp|].
        intros (name' & Hp' & Hne & _). rewrite Hpath in Hp'.
        apply upload_path_inj in Hp' as <-. now destruct Hne.
      * destruct (no_slash name) eqn:Hns.
        -- destruct (existsb _ _) eqn:Eex; cbn [negb andb].
           ++ split; [intros H; now destruct Hp|].
              intros (name' & Hp' & _ & _ & Hnot & _). rewrite Hpath in Hp'.
              apply upload_path_inj in Hp' as <-. destruct Hnot.
              apply List.existsb_exists in Eex as (x & Hx & Hxe).
              apply String.eqb_eq in Hxe. now subst.
           ++ destruct (stuck p) eqn:Est; cbn [negb].
              ** split; [intros H; now destruct Hp|].
                 intros (_ & _ & _ & _ & _ & ?). discriminate.
              ** split; [|reflexivity]. intros _. exists name.
                 repeat split; auto. intros Hin.
                 assert (existsb (String.eqb name) (map filename (kubeconfs s)) = true)
                   as Heq; [|now rewrite Heq in Eex].
                 apply List.existsb_exists. exists name.
                 split; [exact Hin|apply String.eqb_refl].
        -- split; [intros H; now destruct Hp|].
           intros (name' & Hp' & _ & Hns' & _). rewrite Hpath in Hp'.
           apply upload_path_inj in Hp' as <-. now rewrite Hns in Hns'.
    + split; [intros H; now destruct Hp|].
      intros (name & -> & _). discriminate.
Qed.

Lemma sweep_removes_orphans_only_witness :
  let s := {| kubeconfs := kubeconfs Samples.uploaded_twice;
              disk := <[ "uploaded_kubeconfigs/old.yaml" := "x" ]>
                        (disk Samples.uploaded_twice) |} in
  let s' := cleanup_old_kubeconfigs (fun _ => false) s in
  (forall k, In k (kubeconfs s) -> disk s' !! path k = disk s !! path k)
  /\ disk s' !! "uploaded_kubeconfigs/old.yaml" = None.
Proof.
  cbv zeta.
  assert (reachable
            {| kubeconfs := kubeconfs Samples.uploaded_twice;
               disk := <[ "uploaded_kubeconfigs/old.yaml" := "x" ]>
                         (disk Samples.uploaded_twice) |}) as Hs.
  { pose proof (reach_upload _ Samples.kubectl_fails "old" 0 Written None "a.yaml" "x" 1
                  uploaded_twice_reachable eq_refl) as H.
    exact H. }
  destruct (sweep_removes_orphans_only (fun _ => false) _ Hs) as (_ & Hk & _ & Hp & _).
  split; [exact Hk|]. apply Hp; [discriminate|]. exists "old.yaml"%string.
  repeat split; try discriminate. intros H. cbn in H. in_cases H; discriminate.
Defined.

(** X21.  One turn of the background tasks deactivates the credentials whose
    file was missing before it and no other: the sweep that runs first
    takes no file of a credential away.  Afterwards the active
    credential of a user, if there is one, has its file on disk. *)
Theorem cycle_drops_only_missing (stuck : string -> bool) (s : state) :
  reachable s ->
  let s' := background_cycle stuck s in
  kubeconfs s' = kubeconfs (validate_kubeconfigs s)
  /\ disk s' = disk (cleanup_old_kubeconfigs stuck s)
  /\ (forall k, In k (kubeconfs s) -> path_exists s (path k) = true ->
        In k (kubeconfs s'))
  /\ (forall uid k, get_active_kubeconfig uid s' = Ok k ->
        path_exists s' (path k) = true).
Proof.
  intros Hs. cbv zeta.
  assert (forall k, In k (kubeconfs s) ->
            path_exists (cleanup_old_kubeconfigs stuck s) (path k)
            = path_exists s (path k)) as Hsame
    by (intros k Hin; unfold path_exists; now rewrite cleanup_keeps_row_files).
  assert (kubeconfs (background_cycle stuck s) = kubeconfs (validate_kubeconfigs s))
    as Hrows.
  { unfold background_cycle, validate_kubeconfigs. cbn [with_rows kubeconfs].
    apply List.map_ext_in. intros k Hin. now rewrite Hsame. }
  split; [exact Hrows|]. split; [reflexivity|]. split.
  - intros k Hin Hdisk. rewrite Hrows.
    unfold validate_kubeconfigs. cbn [with_rows kubeconfs].
    apply List.in_map_iff. exists k. now rewrite Hdisk.
  - intros uid k Hact. unfold get_active_kubeconfig in Hact.
    destruct (find _ _) as [a|] eqn:E; [|discriminate]. injection Hact as ->.
    apply List.find_some in E as [Hin Hflag].
    apply andb_true_iff in Hflag as [_ Hflag].
    unfold background_cycle, validate_kubeconfigs in Hin |- *.
    cbn [with_rows kubeconfs] in Hin. apply List.in_map_iff in Hin as (k0 & Hk & _).
    unfold path_exists at 1. cbn [with_rows disk].
    fold (path_exists (cleanup_old_kubeconfigs stuck s) (path k)).
    destruct (path_exists (cleanup_old_kubeconfigs stuck s) (path k0)) eqn:Ed;
      cbn [negb] in Hk; subst k; [exact Ed|discriminate].
Qed.

Lemma cycle_drops_only_missing_witness :
  kubeconfs (background_cycle (fun _ => false) Samples.uploaded_twice)
  = kubeconfs (validate_kubeconfigs Samples.uploaded_twice)
  /\ In (with_active true (Samples.uploaded 1 "u-1" "a.yaml" "prod" 0 1))
       (kubeconfs (background_cycle (fun _ => false) Samples.uploaded_twice)).
Proof.
  destruct (cycle_drops_only_missing (fun _ => false) Samples.uploaded_twice
              uploaded_twice_reachable) as (Hrows & _ & Hkept & _).
  split; [exact Hrows|]. apply Hkept; [now left|reflexivity].
Defined.

(** X22.  An upload that fails is answered with status 500 and stores
    no row.  When the file could not be opened the state is as it was;
    when the write failed the file holds what was written, and when a
    probe or the commit failed it holds the bytes sent.  No other file
    is touched, and the next sweep leaves no file under the generated
    name, unless the name is the name of a row. *)
Theorem failed_upload_is_swept (run : Exec.world) (uuid : string) (now : Z)
    (save : saved) (commit_error : option exn)
    (file_filename content : string) (uid : Z) (s s1 : state) (e : exn) :
  uuid_like uuid = true ->
  upload_kubeconfig run uuid now save commit_error file_filename content uid s
  = (Raise e, s1) ->
  let p := (UPLOAD_DIR ++ "/" ++ uuid ++ splitext_ext file_filename)%string in
  status_of e = 500
  /\ kubeconfs s1 = kubeconfs s
  /\ match save with
     | OpenFailed _ => s1 = s
     | WriteFailed _ partial => disk s1 !! p = Some partial
     | Written => disk s1 !! p = Some content
     end
  /\ (forall other, other <> p -> disk s1 !! other = disk s !! other)
  /\ forall stuck,
       stuck p = false ->
       ~ In (uuid ++ splitext_ext file_filename)%string (map filename (kubeconfs s)) ->
       disk (cleanup_old_kubeconfigs stuck s1) !! p = None.
Proof.
  intros Huuid Hup. cbv zeta.
  pose proof (upload_cases run uuid now save commit_error file_filename content uid s)
    as [Hdisk Hcase].
  cbv zeta in Hdisk, Hcase. rewrite Hup in Hdisk, Hcase. cbn [fst snd] in Hdisk, Hcase.
  destruct Hcase as [[detail ->] Hrows].
  destruct (uploaded_name_listed uuid file_filename Huuid) as [Hjoin Hlisted].
  rewrite Hjoin in Hdisk, Hlisted.
  split; [reflexivity|]. split; [exact Hrows|]. split; [|split].
  - destruct save as [|e0|e0 partial].
    + rewrite Hdisk. apply lookup_insert_eq.
    + destruct s, s1. cbn in Hrows, Hdisk. now subst.
    + rewrite Hdisk. apply lookup_insert_eq.
  - intros other Hne. rewrite Hdisk.
    destruct save as [|e0|e0 partial]; [|reflexivity|]; now apply lookup_insert_ne.
  - intros stuck Hstuck Hfresh. rewrite cleanup_lookup. unfold swept.
    rewrite Hlisted, Hstuck, Hrows.
    destruct (existsb _ _) eqn:Eex; [|reflexivity].
    apply List.existsb_exists in Eex as (x & Hx & Hxe).
    apply String.eqb_eq in Hxe. subst x. now destruct Hfresh.
Qed.

Lemma failed_upload_is_swept_witness :
  let s1 := snd (upload_kubeconfig Samples.kubectl_fails "u-9" 0 Written None "a.yaml"
                   "apiVersion: v1" 1 init) in
  let s2 := snd (upload_kubeconfig (Samples.kubectl_prints "prod") "u-9" 0
                   (OpenFailed (PyError "OSError" "File name too long")) None
                   "a.yaml" "apiVersion: v1" 1 init) in
  disk s1 !! "uploaded_kubeconfigs/u-9.yaml" = Some "apiVersion: v1"
  /\ disk (cleanup_old_kubeconfigs (fun _ => false) s1)
       !! "uploaded_kubeconfigs/u-9.yaml" = None
  /\ s2 = init.
Proof.
  cbv zeta.
  destruct (failed_upload_is_swept Samples.kubectl_fails "u-9" 0 Written None "a.yaml"
              "apiVersion: v1" 1 init _ _ eq_refl eq_refl)
    as (_ & _ & Hfile & _ & Hswept).
  split; [exact Hfile|].
  split; [apply (Hswept (fun _ => false) eq_refl); intros []|].
  destruct (failed_upload_is_swept (Samples.kubectl_prints "prod") "u-9" 0
              (OpenFailed (PyError "OSError" "File name too long")) None "a.yaml"
              "apiVersion: v1" 1 init _ _ eq_refl eq_refl)
    as (_ & _ & Hsame & _).
  exact Hsame.
Defined.

End CredentialsMore.

(** ** The per-user cache of [kubeconfig_service] *)

Section UserCacheMore.
Import UserCache.

Lemma user_key_inj uid uid' key key' :
  get_cache_key uid key = get_cache_key uid' key' -> uid = uid' /\ key = key'.
Proof.
  unfold get_cache_key. intros H. apply append_same_prefix in H.
  change (":" ++ ?k)%string with (String ":" k) in H.
  apply colon_split in H as [Hu Hk]; try apply no_colon_str_of_Z.
  split; [now apply str_of_Z_inj|exact Hk].
Qed.

Lemma prefix_append a b : String.prefix a (a ++ b) = true.
Proof.
  induction a as [|c a IH]; [now destruct b|]. rewrite append_cons. cbn [String.prefix].
  now destruct (ascii_dec c c).
Qed.

Lemma prefix_to_colon a a' k :
  no_colon a = true -> no_colon a' = true ->
  String.prefix (a ++ ":") (a' ++ String ":" k) = true -> a = a'.
Proof.
  revert a'. induction a as [|c a IH]; intros [|c' a'] Ha Ha';
    rewrite ?append_cons;
    change ("" ++ ?x)%string with x; cbn [String.prefix no_colon] in *.
  - reflexivity.
  - destruct (ascii_dec ":" c') as [<-|]; [|discriminate].
    now rewrite Ascii.eqb_refl in Ha'.
  - destruct (ascii_dec c ":") as [->|]; [|discriminate].
    now rewrite Ascii.eqb_refl in Ha.
  - destruct (ascii_dec c c') as [->|]; [|discriminate].
    apply andb_true_iff in Ha as [_ Ha]. apply andb_true_iff in Ha' as [_ Ha'].
    intros H. f_equal. now apply IH.
Qed.

Lemma user_prefix uid uid' key :
  String.prefix ("user:" ++ str_of_Z uid ++ ":") (get_cache_key uid' key)
  = (uid =? uid')%Z.
Proof.
  unfold get_cache_key. destruct (Z.eqb_spec uid uid') as [<-|Hne].
  - change ("user:" ++ str_of_Z uid ++ ":" ++ key)%string
      with ("user:" ++ (str_of_Z uid ++ ":" ++ key))%string.
    rewrite <- (append_assoc (str_of_Z uid) ":" key).
    rewrite <- (append_assoc "user:" (str_of_Z uid ++ ":") key).
    apply prefix_append.
  - destruct (String.prefix _ _) eqn:E; [|reflexivity]. destruct Hne.
    apply str_of_Z_inj.
    apply (prefix_to_colon _ _ key); try apply no_colon_str_of_Z. exact E.
Qed.

(** X23.  A value written with a positive expiry is read back by its user
    under its key until the expiry has passed, and not after; no other
    key and no other user sees the write. *)
Theorem cache_set_then_get (now later uid : Z) (key : string) (v : json)
    (expiry : Z) (store : gmap string (Z * json_text)) :
  0 < expiry ->
  let out := cache_set false now uid key (Obj v) expiry (Some store) in
  fst out = true
  /\ cache_get false later uid key (snd out)
     = (if (later <? now + expiry)%Z then v else JNull)
  /\ forall uid' key',
       (uid', key') <> (uid, key) ->
       cache_get false later uid' key' (snd out)
       = cache_get false later uid' key' (Some store).
Proof.
  intros Hexp. cbv zeta. unfold cache_set. cbn [dumps orb].
  assert ((expiry <=? 0)%Z = false) as -> by lia. cbn [fst snd].
  split; [reflexivity|]. split.
  - unfold cache_get. now rewrite lookup_insert_eq.
  - intros uid' key' Hne. unfold cache_get. rewrite lookup_insert_ne; [reflexivity|].
    intros H. apply user_key_inj in H as [-> ->]. now destruct Hne.
Qed.

Lemma cache_set_then_get_witness :
  cache_get false 59 7 "namespaces"
    (snd (cache_set false 0 7 "namespaces" (Obj (JList [JStr "default"])) 60 (Some ∅)))
  = JList [JStr "default"]
  /\ cache_get false 60 7 "namespaces"
       (snd (cache_set false 0 7 "namespaces" (Obj (JList [JStr "default"])) 60 (Some ∅)))
     = JNull.
Proof.
  split.
  - apply (cache_set_then_get 0 59 7 "namespaces" (JList [JStr "default"]) 60 ∅). lia.
  - apply (cache_set_then_get 0 60 7 "namespaces" (JList [JStr "default"]) 60 ∅). lia.
Defined.

(** X24.  [cache_flush_user] empties the cache of one user and of nobody
    else. *)
Theorem flush_is_per_user (uid later : Z) (store : gmap string (Z * json_text)) :
  let out := cache_flush_user false uid (Some store) in
  fst out = true
  /\ (forall key, cache_get false later uid key (snd out) = JNull)
  /\ (forall uid' key, uid' <> uid ->
        cache_get false later uid' key (snd out)
        = cache_get false later uid' key (Some store)).
Proof.
  cbv zeta. unfold cache_flush_user. cbn [fst snd]. split; [reflexivity|]. split.
  - intros key. unfold cache_get.
    assert (filter (fun entry : string * (Z * json_text) =>
                      String.prefix ("user:" ++ str_of_Z uid ++ ":") (fst entry) = false)
              store !! get_cache_key uid key = None) as ->; [|reflexivity].
    apply map_lookup_filter_None. right. intros x _. cbn [fst].
    now rewrite user_prefix, Z.eqb_refl.
  - intros uid' key Hne. unfold cache_get.
    assert (filter (fun entry : string * (Z * json_text) =>
                      String.prefix ("user:" ++ str_of_Z uid ++ ":") (fst entry) = false)
              store !! get_cache_key uid' key = store !! get_cache_key uid' key) as ->;
      [|reflexivity].
    apply option_eq. intros x. rewrite map_lookup_filter_Some. cbn [fst].
    rewrite user_prefix. assert ((uid =? uid')%Z = false) as -> by lia. tauto.
Qed.

Lemma docs_of_datetime d field t : In (field, Datetime t) d -> docs_of d = None.
Proof.
  induction d as [|[k v] d IH]; [intros []|]. intros [H|H].
  - injection H as -> ->. reflexivity.
  - cbn [docs_of]. destruct v; [|reflexivity]. now rewrite IH.
Qed.

(** X25.  What [cache_set] does not store: anything when Redis was not
    reachable at start or fails now, a value with an expiry that is not
    positive, and a value that holds a [datetime].  It answers [False],
    the store is as before, and so is every later read. *)
Theorem cache_set_refusals (fault : bool) (now uid : Z) (key : string)
    (value : pyobj) (expiry : Z) (redis_cache : redis) :
  redis_cache = None \/ fault = true \/ expiry <= 0
  \/ (exists t, value = ObjDatetime t)
  \/ (exists d field t, value = ObjDict d /\ In (field, Datetime t) d) ->
  cache_set fault now uid key value expiry redis_cache = (false, redis_cache).
Proof.
  unfold cache_set. destruct redis_cache as [store|]; [|reflexivity].
  intros [H|[->|[H|[(t & ->)|(d & field & t & -> & Hin)]]]].
  - discriminate.
  - now destruct (dumps value).
  - assert ((expiry <=? 0)%Z = true) as -> by lia. rewrite orb_true_r.
    now destruct (dumps value).
  - reflexivity.
  - cbn [dumps]. now rewrite (docs_of_datetime d field t Hin).
Qed.

Lemma cache_set_refusals_witness :
  cache_set false 0 7 "active"
    (ObjDict [("id", Doc (JInt 1)); ("created_at", Datetime 0)]) 3600 (Some ∅)
  = (false, Some ∅).
Proof.
  apply cache_set_refusals. right. right. right. right.
  exists [("id", Doc (JInt 1)); ("created_at", Datetime 0)], "created_at"%string, 0.
  split; [reflexivity|]. right. now left.
Defined.

End UserCacheMore.
